(** * CareMind drug-label builder: a shallow embedding of [drugs_builder.py]

    The development follows the layers of the Python module:
    text (code points, whitespace, the regular expressions of the module),
    [slice_section] and [parse_cn_label_text], [ensure_utf8], the DrugBank
    field picker, the retrying HTTP clients, the offline scanner and the
    resolver [build_records].

    Python [str] values are lists of Unicode code points, [bytes] are lists
    of [Byte.byte].  Exceptions are explicit ([result]); calls that touch the
    network or the file system thread a world through a state monad. *)

From Stdlib Require Import List NArith ZArith Bool Lia.
From Stdlib.Strings Require Import String Ascii Byte.
Import ListNotations.

Set Implicit Arguments.
Set Warnings "-register-all".
Local Open Scope N_scope.

(* ------------------------------------------------------------------ *)
(** ** Strings as code points *)

Definition ustr := list N.

Definition is_cont (b : byte) : bool :=
  (0x80 <=? Byte.to_N b) && (Byte.to_N b <=? 0xBF).

Definition low6 (b : byte) : N := N.land (Byte.to_N b) 0x3F.

(** Second byte of a three-byte sequence whose first byte is [n0]:
    [E0] requires [A0..BF], [ED] requires [80..9F] (no surrogates). *)
Definition snd3_ok (n0 : N) (b : byte) : bool :=
  let n := Byte.to_N b in
  if n0 =? 0xE0 then (0xA0 <=? n) && (n <=? 0xBF)
  else if n0 =? 0xED then (0x80 <=? n) && (n <=? 0x9F)
  else is_cont b.

(** Second byte of a four-byte sequence: [F0] requires [90..BF],
    [F4] requires [80..8F]. *)
Definition snd4_ok (n0 : N) (b : byte) : bool :=
  let n := Byte.to_N b in
  if n0 =? 0xF0 then (0x90 <=? n) && (n <=? 0xBF)
  else if n0 =? 0xF4 then (0x80 <=? n) && (n <=? 0x8F)
  else is_cont b.

(** [bytes.decode("utf-8", errors="ignore")]: a well-formed sequence gives its
    code point; the longest prefix of an ill-formed one is dropped and decoding
    resumes at the offending byte.  Total: it never raises. *)
Fixpoint utf8_decode_ignore (bs : list byte) : ustr :=
  match bs with
  | [] => []
  | b0 :: r0 =>
    let n0 := Byte.to_N b0 in
    if n0 <? 0x80 then n0 :: utf8_decode_ignore r0
    else if (0xC2 <=? n0) && (n0 <=? 0xDF) then
      match r0 with
      | [] => []
      | b1 :: r1 =>
        if is_cont b1
        then (N.land n0 0x1F * 64 + low6 b1) :: utf8_decode_ignore r1
        else utf8_decode_ignore r0
      end
    else if (0xE0 <=? n0) && (n0 <=? 0xEF) then
      match r0 with
      | [] => []
      | b1 :: r1 =>
        if snd3_ok n0 b1 then
          match r1 with
          | [] => []
          | b2 :: r2 =>
            if is_cont b2
            then (N.land n0 0x0F * 4096 + low6 b1 * 64 + low6 b2)
                   :: utf8_decode_ignore r2
            else utf8_decode_ignore r1
          end
        else utf8_decode_ignore r0
      end
    else if (0xF0 <=? n0) && (n0 <=? 0xF4) then
      match r0 with
      | [] => []
      | b1 :: r1 =>
        if snd4_ok n0 b1 then
          match r1 with
          | [] => []
          | b2 :: r2 =>
            if is_cont b2 then
              match r2 with
              | [] => []
              | b3 :: r3 =>
                if is_cont b3
                then (N.land n0 0x07 * 262144 + low6 b1 * 4096
                      + low6 b2 * 64 + low6 b3) :: utf8_decode_ignore r3
                else utf8_decode_ignore r2
              end
            else utf8_decode_ignore r1
          end
        else utf8_decode_ignore r0
      end
    else utf8_decode_ignore r0
  end.

(** String literals of the Python source, as code points. *)
Definition u (s : string) : ustr := utf8_decode_ignore (list_byte_of_string s).

(** Proofs compute literals with [vm_compute]; unification leaves them
    folded. *)
Opaque u.

Fixpoint ustr_eqb (a b : ustr) : bool :=
  match a, b with
  | [], [] => true
  | x :: a', y :: b' => (x =? y) && ustr_eqb a' b'
  | _, _ => false
  end.

(** [str.isspace] on one character; also the class [\s] of [re] on [str]
    patterns. *)
Definition isspace (c : N) : bool :=
  ((0x09 <=? c) && (c <=? 0x0D)) || ((0x1C <=? c) && (c <=? 0x20))
  || (c =? 0x85) || (c =? 0xA0) || (c =? 0x1680)
  || ((0x2000 <=? c) && (c <=? 0x200A))
  || (c =? 0x2028) || (c =? 0x2029) || (c =? 0x202F) || (c =? 0x205F)
  || (c =? 0x3000).

Definition SPACE : N := 0x20.
Definition NEWLINE : N := 0x0A.

Fixpoint lstrip (s : ustr) : ustr :=
  match s with
  | c :: s' => if isspace c then lstrip s' else s
  | [] => []
  end.

Definition rstrip (s : ustr) : ustr := rev (lstrip (rev s)).

(** [str.strip()] *)
Definition strip (s : ustr) : ustr := rstrip (lstrip s).

(** [re.sub(p+, c, s)] for a one-character test [p]: every maximal run of
    characters passing [p] becomes the single character [c].  [inrun] tells
    that the previous character belonged to a run already replaced. *)
Fixpoint sub_runs (p : N -> bool) (c : N) (inrun : bool) (s : ustr) : ustr :=
  match s with
  | [] => []
  | x :: s' =>
    if p x
    then (if inrun then sub_runs p c true s' else c :: sub_runs p c true s')
    else x :: sub_runs p c false s'
  end.

(** [re.sub(r"\s+", " ", s)] *)
Definition sub_ws (s : ustr) : ustr := sub_runs isspace SPACE false s.

(** [re.sub(r"\n+", "\n", s)] *)
Definition sub_nl (s : ustr) : ustr := sub_runs (N.eqb NEWLINE) NEWLINE false s.

(* ------------------------------------------------------------------ *)
(** ** The fragment of [re] the module uses

    Atoms are tests on one code point: a literal, a class such as [\s] or
    [[^】]], or [.].  [re.IGNORECASE] only changes what a literal atom accepts,
    so a case-insensitive literal is one more test; the letters of the
    module's own patterns are uncased.  Repetition is only ever applied to
    one-character tests ([\s*], [.*], [[^】]{1,20}]) and is greedy. *)

Inductive regex : Type :=
| Eps
| Atom (p : N -> bool)
| Cat (r1 r2 : regex)
| Alt (r1 r2 : regex)
| Star (p : N -> bool)
| Rep (p : N -> bool) (lo hi : nat).

Definition orelse {A} (x y : option A) : option A :=
  match x with Some _ => x | None => y end.

(** Greedy [p*] followed by the continuation [k]: longest run first, then
    give characters back one at a time. *)
Fixpoint star_match {A} (p : N -> bool) (s : ustr) (k : ustr -> option A)
  : option A :=
  match s with
  | c :: s' => if p c then orelse (star_match p s' k) (k s) else k s
  | [] => k s
  end.

(** Greedy [p{lo,hi}] followed by [k]. *)
Fixpoint rep_match {A} (p : N -> bool) (lo hi : nat) (s : ustr)
  (k : ustr -> option A) : option A :=
  let stop := match lo with O => k s | S _ => None end in
  match hi with
  | O => stop
  | S hi' =>
    match s with
    | c :: s' =>
      if p c then orelse (rep_match p (Nat.pred lo) hi' s' k) stop else stop
    | [] => stop
    end
  end.

(** Backtracking matcher anchored at the head of [s], in the order [re]
    explores: the left alternative first, the longest repetition first.  [k]
    receives what is left of [s] after the match. *)
Fixpoint re_match {A} (r : regex) (s : ustr) (k : ustr -> option A)
  : option A :=
  match r with
  | Eps => k s
  | Atom p => match s with
              | c :: s' => if p c then k s' else None
              | [] => None
              end
  | Cat r1 r2 => re_match r1 s (fun s' => re_match r2 s' k)
  | Alt r1 r2 => orelse (re_match r1 s k) (re_match r2 s k)
  | Star p => star_match p s k
  | Rep p lo hi => rep_match p lo hi s k
  end.

(** [re.search]: the match starting leftmost.  The result is
    [(text[:m.start()], text[m.end():])]. *)
Fixpoint re_search (r : regex) (s : ustr) : option (ustr * ustr) :=
  match re_match r s (fun rest => Some rest) with
  | Some rest => Some ([], rest)
  | None =>
    match s with
    | [] => None
    | c :: s' =>
      match re_search r s' with
      | Some (pre, rest) => Some (c :: pre, rest)
      | None => None
      end
    end
  end.

(** A literal string. *)
Fixpoint lit (w : ustr) : regex :=
  match w with
  | [] => Eps
  | c :: w' => Cat (Atom (N.eqb c)) (lit w')
  end.

(** A literal with [\s*] between its characters, as in [适\s*应\s*症]. *)
Fixpoint lit_ws (w : ustr) : regex :=
  match w with
  | [] => Eps
  | [c] => Atom (N.eqb c)
  | c :: w' => Cat (Atom (N.eqb c)) (Cat (Star isspace) (lit_ws w'))
  end.

Fixpoint alts (rs : list regex) : regex :=
  match rs with
  | [] => Atom (fun _ => false)
  | [r] => r
  | r :: rs' => Alt r (alts rs')
  end.

Definition LBRACKET : N := 0x3010.  (* 【 *)
Definition RBRACKET : N := 0x3011.  (* 】 *)
Definition FULLWIDTH_COLON : N := 0xFF1A.  (* ： *)
Definition COLON : N := 0x3A.

(** The tail [[：:\s]*] of every heading pattern. *)
Definition heading_tail : regex :=
  Star (fun c => (c =? FULLWIDTH_COLON) || (c =? COLON) || isspace c).

Definition K_INDICATIONS : ustr := u "适应症".
Definition K_CONTRAINDICATIONS : ustr := u "禁忌症".
Definition K_INTERACTIONS : ustr := u "药物相互作用".
Definition K_PREGNANCY : ustr := u "妊娠分级".

Definition PAT_INDICATIONS : regex :=
  Cat (alts [lit (u "【适应症】"); lit_ws (u "适应症"); lit (u "适应证");
             lit (u "适应症状")]) heading_tail.

Definition PAT_CONTRAINDICATIONS : regex :=
  Cat (alts [lit (u "【禁忌】"); lit_ws (u "禁忌"); lit (u "禁忌症")])
      heading_tail.

Definition PAT_INTERACTIONS : regex :=
  Cat (alts [lit (u "【药物相互作用】"); lit (u "相互作用");
             lit (u "药物-药物相互作用")]) heading_tail.

Definition PAT_PREGNANCY : regex :=
  Cat (alts [lit (u "【孕妇及哺乳期用药】"); lit (u "孕妇及哺乳期用药");
             lit (u "孕期用药"); lit (u "妊娠用药")]) heading_tail.

Definition SECTION_PATTERNS : list (ustr * regex) :=
  [ (K_INDICATIONS, PAT_INDICATIONS);
    (K_CONTRAINDICATIONS, PAT_CONTRAINDICATIONS);
    (K_INTERACTIONS, PAT_INTERACTIONS);
    (K_PREGNANCY, PAT_PREGNANCY) ].

(** [【[^】]{1,20}】] *)
Definition NEXT_SECTION_RE : regex :=
  Cat (Atom (N.eqb LBRACKET))
      (Cat (Rep (fun c => negb (c =? RBRACKET)) 1 20) (Atom (N.eqb RBRACKET))).

(** [body if body else None] *)
Definition nonempty (s : ustr) : option ustr :=
  match s with [] => None | _ => Some s end.

Definition slice_section (text : ustr) (start_pat : regex) : option ustr :=
  match re_search start_pat text with
  | None => None
  | Some (_, tail) =>
    let body := match re_search NEXT_SECTION_RE tail with
                | Some (before, _) => before
                | None => tail
                end in
    nonempty (strip (sub_ws body))
  end.

(* ------------------------------------------------------------------ *)
(** ** Python values, dictionaries, exceptions *)

(** The values a JSON response decodes to; [VNone] is [None].  Record fields
    and dictionary entries hold such values: the annotations say
    [Optional[str]], but nothing converts what the DrugBank response
    carries. *)
Inductive pyval : Type :=
| VNone
| VBool (b : bool)
| VInt (z : Z)
| VStr (s : ustr)
| VList (l : list pyval)
| VDict (kv : list (ustr * pyval)).

(** [bool(v)] *)
Definition truthy (v : pyval) : bool :=
  match v with
  | VNone => false
  | VBool b => b
  | VInt z => negb (z =? 0)%Z
  | VStr s => match s with [] => false | _ => true end
  | VList l => match l with [] => false | _ => true end
  | VDict kv => match kv with [] => false | _ => true end
  end.

(** [a or b] on values already computed. *)
Definition por (a b : pyval) : pyval := if truthy a then a else b.

Definition of_opt (o : option ustr) : pyval :=
  match o with Some s => VStr s | None => VNone end.

Definition dict := list (ustr * pyval).

(** [d.get(k)]: the value bound to [k], [None] when there is none. *)
Fixpoint dict_get (k : ustr) (d : dict) : pyval :=
  match d with
  | [] => VNone
  | (k', v) :: d' => if ustr_eqb k k' then v else dict_get k d'
  end.

Fixpoint dict_mem (k : ustr) (d : dict) : bool :=
  match d with
  | [] => false
  | (k', _) :: d' => ustr_eqb k k' || dict_mem k d'
  end.

(** [d[k] = v]: in place when the key exists, appended otherwise. *)
Definition dict_set (k : ustr) (v : pyval) (d : dict) : dict :=
  if dict_mem k d
  then map (fun kv => if ustr_eqb k (fst kv) then (fst kv, v) else kv) d
  else d ++ [(k, v)].

(** Exceptions, all below [Exception].  [RequestException] stands for
    [requests.RequestException] and its subclasses; it carries the status
    when the client raised it for a response. *)
Inductive exn : Type :=
| RequestException (status : option Z)
| AttributeError
| LookupError
| OSError
| OtherException (tag : N).

Inductive result (A : Type) : Type :=
| Ok (a : A)
| Raise (e : exn).
Arguments Ok {A} a.
Arguments Raise {A} e.

Definition rbind {A B} (x : result A) (f : A -> result B) : result B :=
  match x with Ok a => f a | Raise e => Raise e end.

Notation "'let!' x ':=' e 'in' k" := (rbind e (fun x => k))
  (at level 10, x name, e at level 100, k at level 200).

(** [try: body  except Exception: handler] *)
Definition try_except {A} (body : result A) (handler : A) : A :=
  match body with Ok a => a | Raise _ => handler end.

(* ------------------------------------------------------------------ *)
(** ** The label parser *)

Definition is_match (r : regex) (s : ustr) : bool :=
  match re_search r s with Some _ => true | None => false end.

(** [(禁用|绝对禁用|禁止使用)] *)
Definition PROHIBIT_RE : regex :=
  alts [lit (u "禁用"); lit (u "绝对禁用"); lit (u "禁止使用")].

(** [(慎用|权衡利弊|风险.*收益)]; [.] is any character but a line feed. *)
Definition CAUTION_RE : regex :=
  alts [lit (u "慎用"); lit (u "权衡利弊");
        Cat (lit (u "风险"))
            (Cat (Star (fun c => negb (c =? NEWLINE))) (lit (u "收益")))].

Definition UNANNOTATED : ustr := u "未标注".
Definition PREG_PROHIBITED : ustr := u "禁用（未标注分级）".
Definition PREG_CAUTION : ustr := u "慎用（未标注分级）".

(** The heuristic on the pregnancy section, [preg_txt] being what
    [slice_section] returned for the last pattern. *)
Definition classify_pregnancy (preg_txt : option ustr) : ustr :=
  if truthy (of_opt preg_txt) then
    match preg_txt with
    | Some t =>
      if is_match PROHIBIT_RE t then PREG_PROHIBITED
      else if is_match CAUTION_RE t then PREG_CAUTION
      else UNANNOTATED
    | None => UNANNOTATED
    end
  else UNANNOTATED.

Definition parse_cn_label_text (full_text : ustr) : dict :=
  let out0 : dict := [ (K_INDICATIONS, VNone); (K_CONTRAINDICATIONS, VNone);
                       (K_INTERACTIONS, VNone); (K_PREGNANCY, VNone) ] in
  let text := sub_ws full_text in
  let out1 :=
    fold_left
      (fun out kp =>
         let chunk := of_opt (slice_section text (snd kp)) in
         if truthy chunk && negb (ustr_eqb (fst kp) K_PREGNANCY)
         then dict_set (fst kp) chunk out
         else out)
      SECTION_PATTERNS out0 in
  let preg_txt := slice_section text (snd (last SECTION_PATTERNS ([], Eps))) in
  dict_set K_PREGNANCY (VStr (classify_pregnancy preg_txt)) out1.

(* ------------------------------------------------------------------ *)
(** ** The text normalizer *)

(** What [chardet.detect] can name: the two encodings decoded here, or any
    other codec by its name. *)
Inductive encoding : Type :=
| UTF_8
| UTF_8_SIG
| Codec (codec_name : ustr).

Definition BOM_UTF8 : list byte := [xef; xbb; xbf].

Fixpoint starts_with (pre bs : list byte) : bool :=
  match pre, bs with
  | [], _ => true
  | p :: pre', b :: bs' => Byte.eqb p b && starts_with pre' bs'
  | _ :: _, [] => false
  end.

Section Normalizer.
(** [chardet]'s answer for data that does not start with the UTF-8 byte
    order mark: the encoding of the best prober, or [None]. *)
Variable chardet_probe : list byte -> option encoding.
(** [bytes.decode(name, errors="ignore")] for the codecs not decoded here;
    [LookupError] for a name Python does not know. *)
Variable codec_decode : ustr -> list byte -> result ustr.

(** [chardet.detect(b)["encoding"]] as chardet up to 5.2 computes it
    ([UniversalDetector.feed]): a leading UTF-8 byte order mark settles it,
    anything else is for the probers. *)
Definition chardet_detect (bs : list byte) : option encoding :=
  if starts_with BOM_UTF8 bs then Some UTF_8_SIG else chardet_probe bs.

(** [bs.decode(enc, errors="ignore")] *)
Definition decode_ignore (enc : encoding) (bs : list byte) : result ustr :=
  match enc with
  | UTF_8 => Ok (utf8_decode_ignore bs)
  | UTF_8_SIG =>
    Ok (utf8_decode_ignore
          (if starts_with BOM_UTF8 bs then skipn 3 bs else bs))
  | Codec nm => codec_decode nm bs
  end.

(** The argument is [bytes]; the [str(text_bytes)] branch for other types
    does not arise. *)
Definition ensure_utf8 (text_bytes : list byte) : result ustr :=
  let enc := match chardet_detect text_bytes with
             | Some e => e
             | None => UTF_8
             end in
  match decode_ignore enc text_bytes with
  | Ok s => Ok s
  | Raise _ => Ok (utf8_decode_ignore text_bytes)
  end.
End Normalizer.

(* ------------------------------------------------------------------ *)
(** ** The DrugBank field picker *)

Fixpoint join (sep : ustr) (l : list ustr) : ustr :=
  match l with
  | [] => []
  | [x] => x
  | x :: l' => x ++ sep ++ join sep l'
  end.

(** [v.get(k)] as a method call: only a [dict] has it. *)
Definition method_get (v : pyval) (k : ustr) : result pyval :=
  match v with
  | VDict kv => Ok (dict_get k kv)
  | _ => Raise AttributeError
  end.

(** [get_nested(d, k, default=None)] with its single key. *)
Definition get_nested (d : pyval) (k : ustr) : result pyval :=
  match d with
  | VNone => Ok VNone
  | _ => method_get d k
  end.

(** [x or y] where [y] is only evaluated when [x] is falsy. *)
Definition ror (x : result pyval) (y : result pyval) : result pyval :=
  let! a := x in if truthy a then Ok a else y.

Section Picker.
(** [format(v, "")] inside an f-string, for values that are not [str]. *)
Variable py_str : pyval -> ustr.

Definition fmt (v : pyval) : ustr :=
  match v with VStr s => s | _ => py_str v end.

(** The loop over [intr_list[:30]]. *)
Fixpoint snippets_of (its : list pyval) : result (list ustr) :=
  match its with
  | [] => Ok []
  | it :: its' =>
    let! desc := ror (method_get it (u "description"))
                     (method_get it (u "text")) in
    let! partner := ror (ror (method_get it (u "name"))
                             (method_get it (u "drug")))
                        (Ok (VStr [])) in
    let! more := snippets_of its' in
    Ok (if truthy desc
        then (fmt partner ++ u ": " ++ fmt desc) :: more
        else more)
  end.

Definition pick_fields (detail : pyval) : result dict :=
  let! indications := ror (get_nested detail (u "indication"))
                          (get_nested detail (u "indications")) in
  let! contraindications := get_nested detail (u "contraindications") in
  let! intr_list := get_nested detail (u "drug_interactions") in
  let! interactions :=
    match intr_list with
    | VList l =>
      if truthy intr_list then
        let! snippets := snippets_of (firstn 30 l) in
        Ok (match snippets with
            | [] => VNone
            | _ => VStr (join (u "；") snippets)
            end)
      else Ok VNone
    | _ => Ok VNone
    end in
  let! preg := ror (get_nested detail (u "pregnancy_category"))
                   (get_nested detail (u "fda_pregnancy_category")) in
  Ok [ (K_INDICATIONS, indications); (K_CONTRAINDICATIONS, contraindications);
       (K_INTERACTIONS, interactions); (K_PREGNANCY, preg) ].
End Picker.

(* ------------------------------------------------------------------ *)
(** ** HTTP, and the retry decorator *)

Record Response : Type := {
  status_code : Z;
  content : list byte;
  (** what [resp.json()] gives: the decoded body, or the exception raised on
      a body that is not JSON *)
  json : result pyval }.

Record request : Type := {
  req_url : ustr;
  req_params : list (ustr * ustr) }.

Inductive net_event : Type :=
| NGet (r : request)       (* one [sess.get] *)
| NWait (seconds : N)      (* a pause of the retry decorator *)
| NSleepRate.              (* [time.sleep(self.rate_sec)] *)

(** The network side of the world: how many GETs were made, and the log. *)
Record Net : Type := {
  tick : nat;
  netlog : list net_event }.

Definition M (A : Type) : Type := Net -> result A * Net.

Definition ret {A} (a : A) : M A := fun s => (Ok a, s).
Definition raise {A} (e : exn) : M A := fun s => (Raise e, s).
Definition lift {A} (r : result A) : M A := fun s => (r, s).
Definition bind {A B} (m : M A) (f : A -> M B) : M B :=
  fun s => match m s with
           | (Ok a, s') => f a s'
           | (Raise e, s') => (Raise e, s')
           end.

Notation "x <- e ;; k" := (bind e (fun x => k))
  (at level 200, e at level 100, k at level 200, right associativity).

Definition net_log (ev : net_event) (s : Net) : Net :=
  {| tick := tick s; netlog := netlog s ++ [ev] |}.

Definition sleep_rate : M unit := fun s => (Ok tt, net_log NSleepRate s).

(** [try: body  except Exception: return handler], around a whole body. *)
Definition try_exceptM {A} (body : M A) (handler : A) : Net -> A * Net :=
  fun s => match body s with
           | (Ok a, s') => (a, s')
           | (Raise _, s') => (handler, s')
           end.

(** [tenacity.wait_exponential(multiplier, min, max)] after the attempt
    numbered [attempt_number] (from 1). *)
Definition wait_exponential (multiplier mn mx attempt_number : N) : N :=
  N.max (N.max 0 mn) (N.min (multiplier * 2 ^ (attempt_number - 1)) mx).

(** [retry_if_exception_type((requests.RequestException,))] *)
Definition retry_if_request_exception (e : exn) : bool :=
  match e with RequestException _ => true | _ => false end.

(** The loop of [tenacity.retry(reraise=True, stop=stop_after_attempt(n),
    wait=wait_exponential(1, 1, 8), retry=retry_if_request_exception)]:
    [more] attempts may still follow the one about to be made. *)
Fixpoint retrying {A} (more : nat) (attempt_number : N) (call : M A) : M A :=
  fun s =>
    match call s with
    | (Ok a, s') => (Ok a, s')
    | (Raise e, s') =>
      if retry_if_request_exception e then
        match more with
        | O => (Raise e, s')
        | S more' =>
          retrying more' (attempt_number + 1) call
                   (net_log (NWait (wait_exponential 1 1 8 attempt_number)) s')
        end
      else (Raise e, s')
    end.

Definition retry {A} (stop_after_attempt : nat) (call : M A) : M A :=
  retrying (Nat.pred stop_after_attempt) 1 call.

Fixpoint lstrip_char (c : N) (s : ustr) : ustr :=
  match s with
  | x :: s' => if x =? c then lstrip_char c s' else s
  | [] => []
  end.

Definition rstrip_char (c : N) (s : ustr) : ustr :=
  rev (lstrip_char c (rev s)).

Definition SLASH : N := 0x2F.

Definition NMPA_BASE : ustr := u "https://www.nmpa.gov.cn/datasearch/".
Definition LABEL_ONLINE : ustr := u "NMPA说明书（在线）".
Definition LABEL_DRUGBANK : ustr := u "DrugBank".
Definition LABEL_OFFLINE : ustr := u "NMPA说明书（离线）".
Definition SOURCE_UNKNOWN : ustr := u "未获取（请补充源）".

Section Clients.
(** The outcome of the [n]-th GET of the run: a response, or the exception
    [requests] raises. *)
Variable http : nat -> request -> result Response.
Variable chardet_probe : list byte -> option encoding.
Variable codec_decode : ustr -> list byte -> result ustr.
Variable py_str : pyval -> ustr.
(** [BeautifulSoup(html, "lxml")], the article container and its
    [get_text(separator="\n")]. *)
Variable soup_article_text : ustr -> result ustr.
(** [os.getenv("DRUGBANK_API_KEY")] and [DRUGBANK_BASE]. *)
Variable api_key : option ustr.
Variable drugbank_base : ustr.

Definition sess_get (r : request) : M Response :=
  fun s => (http (tick s) r,
            {| tick := S (tick s); netlog := netlog s ++ [NGet r] |}).

(** The body of [NMPAClient._get]. *)
Definition nmpa_get_once (url : ustr) : M Response :=
  resp <- sess_get {| req_url := url; req_params := [] |} ;;
  if negb (status_code resp =? 200)%Z
  then raise (RequestException (Some (status_code resp)))
  else ret resp.

Definition NMPAClient_get (url : ustr) : M Response :=
  retry 3 (nmpa_get_once url).

Definition search_label_urls (drug_name : ustr) : Net -> list ustr * Net :=
  fun s =>
    match (_ <- NMPAClient_get (NMPA_BASE ++ u "home-index.html") ;;
           sleep_rate) s with
    | (Raise _, s') => ([], s')
    | (Ok _, s') => ([], s')
    end.

Definition fetch_label_text (url : ustr) : Net -> option ustr * Net :=
  try_exceptM
    (r <- NMPAClient_get url ;;
     _ <- sleep_rate ;;
     html <- lift (ensure_utf8 chardet_probe codec_decode (content r)) ;;
     text <- lift (soup_article_text html) ;;
     ret (Some (strip (sub_nl text))))
    None.

Definition available : bool := truthy (of_opt api_key).

(** The body of [DrugBankClient._get]. *)
Definition drugbank_get_once (path : ustr) (params : list (ustr * ustr))
  : M pyval :=
  let url := rstrip_char SLASH drugbank_base ++ u "/"
             ++ lstrip_char SLASH path in
  resp <- sess_get {| req_url := url; req_params := params |} ;;
  if negb (status_code resp =? 200)%Z
  then raise (RequestException (Some (status_code resp)))
  else lift (json resp).

Definition DrugBankClient_get (path : ustr) (params : list (ustr * ustr))
  : M pyval :=
  retry 3 (drugbank_get_once path params).

Definition query_by_name (nm : ustr) : Net -> pyval * Net :=
  try_exceptM
    (j <- DrugBankClient_get (u "drugs") [(u "name", nm)] ;;
     if negb (truthy j) then ret VNone
     else
       let first := match j with VList (x :: _) => x | _ => j end in
       drug_id <- lift (ror (method_get first (u "id"))
                            (method_get first (u "drugbank_id"))) ;;
       if negb (truthy drug_id) then ret first
       else
         detail <- DrugBankClient_get (u "drugs/" ++ fmt py_str drug_id) [] ;;
         ret detail)
    VNone.
End Clients.

(* ------------------------------------------------------------------ *)
(** ** The offline scanner *)

Fixpoint ends_with_rev (rsuf rs : ustr) : bool :=
  match rsuf, rs with
  | [], _ => true
  | a :: rsuf', b :: rs' => (a =? b) && ends_with_rev rsuf' rs'
  | _ :: _, [] => false
  end.

(** [s.endswith(suffix)] *)
Definition endswith (s suffix : ustr) : bool :=
  ends_with_rev (rev suffix) (rev s).

(** [a <= b] on [str]: lexicographic on code points. *)
Fixpoint ustr_leb (a b : ustr) : bool :=
  match a, b with
  | [], _ => true
  | _ :: _, [] => false
  | x :: a', y :: b' => (x <? y) || ((x =? y) && ustr_leb a' b')
  end.

Section Offline.
Variable chardet_probe : list byte -> option encoding.
Variable codec_decode : ustr -> list byte -> result ustr.
(** [os.path.isdir], [os.listdir] (which raises on a directory that cannot
    be read), and reading a file in binary mode. *)
Variable isdir : ustr -> bool.
Variable listdir : ustr -> result (list ustr).
Variable read_bytes : ustr -> result (list byte).
(** [re.search(re.escape(drug_name), fn, flags=re.IGNORECASE)] *)
Variable icontains : ustr -> ustr -> bool.
(** [str.lower] *)
Variable lower : ustr -> ustr.
(** [BeautifulSoup(html, "lxml").get_text(separator="\n")] *)
Variable soup_text : ustr -> result ustr.
(** [pdfminer]'s [extract_text(path) or ""], and PyPDF2's
    [[page.extract_text() or "" for page in PdfReader(path).pages]]. *)
Variable pdfminer_text : ustr -> result ustr.
Variable pypdf2_pages : ustr -> result (list ustr).

Definition read_pdf_text (path : ustr) : ustr :=
  try_except
    (let! txt := pdfminer_text path in
     match txt with
     | [] => let! buf := pypdf2_pages path in Ok (join [NEWLINE] buf)
     | _ => Ok txt
     end)
    [].

Definition read_html_text (path : ustr) : ustr :=
  try_except
    (let! raw := read_bytes path in
     let! html := ensure_utf8 chardet_probe codec_decode raw in
     let! text := soup_text html in
     Ok (strip (sub_nl text)))
    [].

Definition is_html (p : ustr) : bool :=
  endswith (lower p) (u ".html") || endswith (lower p) (u ".htm").

Definition is_pdf (p : ustr) : bool := endswith (lower p) (u ".pdf").

(** The sort key [(0 if html else 1, p)], compared as tuples. *)
Definition key_leb (p q : ustr) : bool :=
  match is_html p, is_html q with
  | true, false => true
  | false, true => false
  | _, _ => ustr_leb p q
  end.

Fixpoint insert_sorted (p : ustr) (l : list ustr) : list ustr :=
  match l with
  | [] => [p]
  | q :: l' => if key_leb p q then p :: l else q :: insert_sorted p l'
  end.

(** [sorted(cand, key=...)] *)
Definition sorted_by_key (l : list ustr) : list ustr :=
  fold_right insert_sorted [] l.

(** [os.path.join(folder, fn)] for a file name from [os.listdir]. *)
Definition path_join (folder fn : ustr) : ustr :=
  if endswith folder (u "/") then folder ++ fn else folder ++ u "/" ++ fn.

(** The loop over the sorted candidates. *)
Fixpoint first_long_text (cand : list ustr) : option ustr :=
  match cand with
  | [] => None
  | p :: cand' =>
    if is_html p then
      let txt := read_html_text p in
      if (50 <? List.length txt)%nat then Some txt else first_long_text cand'
    else if is_pdf p then
      let txt := read_pdf_text p in
      if (50 <? List.length txt)%nat then Some txt else first_long_text cand'
    else first_long_text cand'
  end.

Definition scan_offline_label (drug_name : ustr) (folder : option ustr)
  : result (option ustr) :=
  match folder with
  | None => Ok None
  | Some f =>
    if negb (truthy (VStr f)) || negb (isdir f) then Ok None
    else
      let! fns := listdir f in
      let cand := map (path_join f) (filter (icontains drug_name) fns) in
      Ok (first_long_text (sorted_by_key cand))
  end.
End Offline.

(* ------------------------------------------------------------------ *)
(** ** The resolver *)

Record DrugRecord : Type := {
  name : ustr;
  indications : pyval;
  contraindications : pyval;
  interactions : pyval;
  pregnancy_category : pyval;
  source : option ustr }.

(** The three arguments of [build_records] besides the names. *)
Record Config : Type := {
  use_nmpa_online : bool;
  nmpa_offline_dir : option ustr;
  use_drugbank : bool }.

(** What the resolver calls: the methods of the two clients (which absorb
    their own failures and so always return), [db.available()], and the
    offline scanner, over a world [W]. *)
Record Sources (W : Type) : Type := {
  src_search_label_urls : ustr -> W -> list ustr * W;
  src_fetch_label_text : ustr -> W -> option ustr * W;
  src_available : bool;
  src_query_by_name : ustr -> W -> pyval * W;
  src_scan_offline_label : ustr -> option ustr -> W -> result (option ustr) * W }.

(** One entry per call the resolver makes, with what the call returned. *)
Inductive event : Type :=
| CallSearch (nm : ustr) (urls : list ustr)
| CallFetch (url : ustr) (text : option ustr)
| CallQuery (nm : ustr) (detail : pyval)
| CallScan (nm : ustr) (folder : option ustr) (text : result (option ustr)).

Definition fields (r : DrugRecord) : list pyval :=
  [indications r; contraindications r; interactions r; pregnancy_category r].

(** [all([...])] and [any([...])] over the four fields. *)
Definition all_fields (r : DrugRecord) : bool := forallb truthy (fields r).
Definition any_field (r : DrugRecord) : bool := existsb truthy (fields r).

Definition set_parsed (r : DrugRecord) (parsed : dict) (label : ustr)
  : DrugRecord :=
  {| name := name r;
     indications := dict_get K_INDICATIONS parsed;
     contraindications := dict_get K_CONTRAINDICATIONS parsed;
     interactions := dict_get K_INTERACTIONS parsed;
     pregnancy_category := dict_get K_PREGNANCY parsed;
     source := Some label |}.

(** The four [rec.f = rec.f or picked[...]] and the provenance line. *)
Definition fill_gaps (r : DrugRecord) (picked : dict) : DrugRecord :=
  {| name := name r;
     indications := por (indications r) (dict_get K_INDICATIONS picked);
     contraindications :=
       por (contraindications r) (dict_get K_CONTRAINDICATIONS picked);
     interactions := por (interactions r) (dict_get K_INTERACTIONS picked);
     pregnancy_category :=
       por (pregnancy_category r) (dict_get K_PREGNANCY picked);
     source := if truthy (of_opt (source r))
               then option_map (fun s => s ++ u " + " ++ LABEL_DRUGBANK)
                               (source r)
               else Some LABEL_DRUGBANK |}.

Definition default_to (d : ustr) (v : pyval) : pyval :=
  if truthy v then v else VStr d.

(** The five lines [if not rec.f: rec.f = ...] that close a record. *)
Definition fill_defaults (r : DrugRecord) : DrugRecord :=
  {| name := name r;
     indications := default_to UNANNOTATED (indications r);
     contraindications := default_to UNANNOTATED (contraindications r);
     interactions := default_to UNANNOTATED (interactions r);
     pregnancy_category := default_to UNANNOTATED (pregnancy_category r);
     source := if truthy (of_opt (source r)) then source r
               else Some SOURCE_UNKNOWN |}.

Section Resolver.
Variable W : Type.
Variable src : Sources W.
Variable py_str : pyval -> ustr.

Record RState : Type := { world : W; trace : list event }.

Definition R (A : Type) : Type := RState -> result A * RState.

Definition rret {A} (a : A) : R A := fun s => (Ok a, s).
Definition rlift {A} (x : result A) : R A := fun s => (x, s).
Definition rthen {A B} (m : R A) (f : A -> R B) : R B :=
  fun s => match m s with
           | (Ok a, s') => f a s'
           | (Raise e, s') => (Raise e, s')
           end.

Definition call_search (nm : ustr) : R (list ustr) :=
  fun s => let (urls, w) := src_search_label_urls src nm (world s) in
           (Ok urls, {| world := w; trace := trace s ++ [CallSearch nm urls] |}).

Definition call_fetch (url : ustr) : R (option ustr) :=
  fun s => let (t, w) := src_fetch_label_text src url (world s) in
           (Ok t, {| world := w; trace := trace s ++ [CallFetch url t] |}).

Definition call_query (nm : ustr) : R pyval :=
  fun s => let (d, w) := src_query_by_name src nm (world s) in
           (Ok d, {| world := w; trace := trace s ++ [CallQuery nm d] |}).

Definition call_scan (nm : ustr) (folder : option ustr) : R (option ustr) :=
  fun s => let (t, w) := src_scan_offline_label src nm folder (world s) in
           (t, {| world := w; trace := trace s ++ [CallScan nm folder t] |}).

(** [for u in urls: text = fetch(u); if text: break], [text] being the
    value before the loop. *)
Fixpoint fetch_first (urls : list ustr) (text : option ustr)
  : R (option ustr) :=
  match urls with
  | [] => rret text
  | url :: urls' =>
    rthen (call_fetch url) (fun t =>
      if truthy (of_opt t) then rret t else fetch_first urls' t)
  end.

Definition online_step (enabled : bool) (r : DrugRecord) : R DrugRecord :=
  if enabled then
    rthen (call_search (name r)) (fun urls =>
    rthen (fetch_first urls None) (fun text =>
      match text with
      | Some t =>
        if truthy (VStr t)
        then rret (set_parsed r (parse_cn_label_text t) LABEL_ONLINE)
        else rret r
      | None => rret r
      end))
  else rret r.

Definition drugbank_step (enabled : bool) (r : DrugRecord) : R DrugRecord :=
  if enabled && negb (all_fields r) then
    rthen (call_query (name r)) (fun detail =>
      if truthy detail then
        rthen (rlift (pick_fields py_str detail)) (fun picked =>
          rret (fill_gaps r picked))
      else rret r)
  else rret r.

Definition offline_step (folder : option ustr) (r : DrugRecord)
  : R DrugRecord :=
  if negb (any_field r) then
    rthen (call_scan (name r) folder) (fun text =>
      match text with
      | Some t =>
        if truthy (VStr t)
        then rret (set_parsed r (parse_cn_label_text t) LABEL_OFFLINE)
        else rret r
      | None => rret r
      end)
  else rret r.

Definition new_record (nm : ustr) : DrugRecord :=
  {| name := nm; indications := VNone; contraindications := VNone;
     interactions := VNone; pregnancy_category := VNone; source := None |}.

(** The body of the loop of [build_records], for one name;
    [use_db] is [use_drugbank] after the availability check. *)
Definition build_record (cfg : Config) (use_db : bool) (nm : ustr)
  : R DrugRecord :=
  rthen (online_step (use_nmpa_online cfg) (new_record nm)) (fun r1 =>
  rthen (drugbank_step use_db r1) (fun r2 =>
  rthen (offline_step (nmpa_offline_dir cfg) r2) (fun r3 =>
  rret (fill_defaults r3)))).

Fixpoint build_loop (cfg : Config) (use_db : bool) (names : list ustr)
  : R (list DrugRecord) :=
  match names with
  | [] => rret []
  | nm :: names' =>
    rthen (build_record cfg use_db nm) (fun r =>
    rthen (build_loop cfg use_db names') (fun rs =>
    rret (r :: rs)))
  end.

Definition build_records (cfg : Config) (names : list ustr)
  : R (list DrugRecord) :=
  build_loop cfg (use_drugbank cfg && src_available src) names.
End Resolver.

(* ------------------------------------------------------------------ *)
(** ** The shipped sources, and scripted ones *)

Section Shipped.
Variable http : nat -> request -> result Response.
Variable chardet_probe : list byte -> option encoding.
Variable codec_decode : ustr -> list byte -> result ustr.
Variable py_str : pyval -> ustr.
Variable soup_article_text : ustr -> result ustr.
Variable api_key : option ustr.
Variable drugbank_base : ustr.
Variable isdir : ustr -> bool.
Variable listdir : ustr -> result (list ustr).
Variable read_bytes : ustr -> result (list byte).
Variable icontains : ustr -> ustr -> bool.
Variable lower : ustr -> ustr.
Variable soup_text : ustr -> result ustr.
Variable pdfminer_text : ustr -> result ustr.
Variable pypdf2_pages : ustr -> result (list ustr).

(** [NMPAClient()], [DrugBankClient()] and [scan_offline_label] as
    [build_records] uses them. *)
Definition shipped_sources : Sources Net :=
  {| src_search_label_urls := search_label_urls http;
     src_fetch_label_text :=
       fetch_label_text http chardet_probe codec_decode soup_article_text;
     src_available := available api_key;
     src_query_by_name := query_by_name http py_str drugbank_base;
     src_scan_offline_label := fun nm folder s =>
       (scan_offline_label chardet_probe codec_decode isdir listdir
          read_bytes icontains lower soup_text pdfminer_text pypdf2_pages
          nm folder, s) |}.
End Shipped.

(** Sources that answer from a script, whatever the name: the clients
    replaced by doubles, as a test of the resolver does. *)
Definition scripted_sources (urls : list ustr) (page : ustr -> option ustr)
  (has_key : bool) (detail : pyval) (offline : result (option ustr))
  : Sources unit :=
  {| src_search_label_urls := fun _ w => (urls, w);
     src_fetch_label_text := fun url w => (page url, w);
     src_available := has_key;
     src_query_by_name := fun _ w => (detail, w);
     src_scan_offline_label := fun _ _ w => (offline, w) |}.

(** For values that are not [str]; the scripts below only format strings. *)
Definition no_str (v : pyval) : ustr := [].

Definition start_state : RState unit := {| world := tt; trace := [] |}.

(* ------------------------------------------------------------------ *)
(** ** Notions the statements use *)

(** The words a pattern denotes. *)
Fixpoint lang (r : regex) (w : ustr) : Prop :=
  match r with
  | Eps => w = []
  | Atom p => exists c, w = [c] /\ p c = true
  | Cat r1 r2 => exists w1 w2, w = w1 ++ w2 /\ lang r1 w1 /\ lang r2 w2
  | Alt r1 r2 => lang r1 w \/ lang r2 w
  | Star p => forallb p w = true
  | Rep p lo hi => forallb p w = true /\ (lo <= List.length w <= hi)%nat
  end.

(** [w] occurs in [text] with [pre] before it and [post] after it. *)
Definition occurs_at (r : regex) (text pre w post : ustr) : Prop :=
  text = pre ++ w ++ post /\ lang r w.

Definition no_occurrence (r : regex) (text : ustr) : Prop :=
  forall pre w post, ~ occurs_at r text pre w post.

(** A match of [r] in [text] that starts at [pre] and leaves [tail], no match
    starting further left. *)
Definition first_match (r : regex) (text pre tail : ustr) : Prop :=
  (exists w, occurs_at r text pre w tail) /\
  (forall pre' w' post', occurs_at r text pre' w' post' ->
                         (List.length pre <= List.length pre')%nat).

(** A heading marker: 【, then 1 to 20 characters none of which is 】,
    then 】. *)
Definition is_marker (w : ustr) : Prop :=
  exists inner, w = LBRACKET :: inner ++ [RBRACKET]
                /\ (1 <= List.length inner <= 20)%nat
                /\ Forall (fun c => c <> RBRACKET) inner.

(** [body] is [tail] up to its first heading marker, all of [tail] when it
    has none. *)
Definition section_body (tail body : ustr) : Prop :=
  (exists m rest, tail = body ++ m ++ rest /\ is_marker m /\
     forall b' m' r', tail = b' ++ m' ++ r' -> is_marker m' ->
                      (List.length body <= List.length b')%nat)
  \/ (body = tail /\ forall b' m' r', tail = b' ++ m' ++ r' -> ~ is_marker m').

(** The maximal runs of characters that are not whitespace. *)
Fixpoint words (s : ustr) : list ustr :=
  match s with
  | [] => []
  | c :: s' =>
    if isspace c then words s'
    else match s' with
         | [] => [[c]]
         | d :: _ =>
           if isspace d then [c] :: words s'
           else match words s' with
                | w :: ws => (c :: w) :: ws
                | [] => [[c]]
                end
         end
  end.

(** Whitespace collapsed to single spaces and trimmed, said with words. *)
Definition collapsed (s : ustr) : ustr := join [SPACE] (words s).

Definition contains (kw t : ustr) : Prop := exists a b, t = a ++ kw ++ b.

Definition has_prohibition (t : ustr) : Prop :=
  contains (u "禁用") t \/ contains (u "禁止使用") t \/ contains (u "绝对禁用") t.

Definition has_caution (t : ustr) : Prop :=
  contains (u "慎用") t \/ contains (u "权衡利弊") t
  \/ exists a b c, t = a ++ u "风险" ++ b ++ u "收益" ++ c.

Inductive field : Type :=
| Indications | Contraindications | Interactions | Pregnancy.

Definition key_of (f : field) : ustr :=
  match f with
  | Indications => K_INDICATIONS
  | Contraindications => K_CONTRAINDICATIONS
  | Interactions => K_INTERACTIONS
  | Pregnancy => K_PREGNANCY
  end.

Definition get_field (f : field) (r : DrugRecord) : pyval :=
  match f with
  | Indications => indications r
  | Contraindications => contraindications r
  | Interactions => interactions r
  | Pregnancy => pregnancy_category r
  end.

(** What [slice_section] keeps of the text after the heading. *)
Definition body_of (tail : ustr) : ustr :=
  match re_search NEXT_SECTION_RE tail with
  | Some (before, _) => before
  | None => tail
  end.

(** A detector and a codec table for examples: no prober answers, no other
    codec is known. *)
Definition no_probe (bs : list byte) : option encoding := None.
Definition no_codec (nm : ustr) (bs : list byte) : result ustr :=
  Raise LookupError.

(** What one attempt makes of the outcome of [sess.get]: the lines after the
    GET in [NMPAClient._get] and in [DrugBankClient._get]. *)
Definition nmpa_attempt (o : result Response) : result Response :=
  let! resp := o in
  if negb (status_code resp =? 200)%Z
  then Raise (RequestException (Some (status_code resp)))
  else Ok resp.

Definition drugbank_attempt (o : result Response) : result pyval :=
  let! resp := o in
  if negb (status_code resp =? 200)%Z
  then Raise (RequestException (Some (status_code resp)))
  else json resp.

(** The attempt ended in an exception the decorator retries on. *)
Definition transient {A} (r : result A) : bool :=
  match r with
  | Raise e => retry_if_request_exception e
  | Ok _ => false
  end.

(** The log of a call that took [n] attempts. *)
Definition retry_log (req : request) (n : nat) : list net_event :=
  match n with
  | 1%nat => [NGet req]
  | 2%nat => [NGet req; NWait 1; NGet req]
  | _ => [NGet req; NWait 1; NGet req; NWait 2; NGet req]
  end.

(** A retried GET from state [s]: [n] attempts, [1 <= n <= 3]; all but the
    last ended in a [RequestException]; a pause of 1s, then 2s, between
    them; the outcome is that of the last attempt, and fewer than three
    attempts are made only when the last one did not end in a
    [RequestException]. *)
Definition retried_run {A} (http : nat -> request -> result Response)
  (f : result Response -> result A) (req : request) (s : Net)
  (out : result A * Net) : Prop :=
  exists n, (1 <= n <= 3)%nat
    /\ fst out = f (http (tick s + (n - 1))%nat req)
    /\ tick (snd out) = (tick s + n)%nat
    /\ netlog (snd out) = netlog s ++ retry_log req n
    /\ (forall i, (i < n - 1)%nat ->
                  transient (f (http (tick s + i)%nat req)) = true)
    /\ ((n < 3)%nat -> transient (f (http (tick s + (n - 1))%nat req)) = false).

(** A server that answers every GET with [204 No Content]. *)
Definition http_204 (n : nat) (r : request) : result Response :=
  Ok {| status_code := 204; content := []; json := Ok VNone |}.

Definition is_2xx (status : Z) : bool :=
  ((200 <=? status) && (status <? 300))%Z.

Definition net0 : Net := {| tick := 0; netlog := [] |}.

(** *** Reading a trace *)

(** The label text [t] gives field [f] a non-empty value. *)
Definition text_yields (f : field) (t : ustr) : bool :=
  truthy (VStr t) && truthy (dict_get (key_of f) (parse_cn_label_text t)).

Definition detail_yields (py_str : pyval -> ustr) (f : field) (d : pyval)
  : bool :=
  truthy d && match pick_fields py_str d with
              | Ok p => truthy (dict_get (key_of f) p)
              | Raise _ => false
              end.

(** The call [ev] returned something from which field [f] gets a non-empty
    value. *)
Definition yields (py_str : pyval -> ustr) (f : field) (ev : event) : bool :=
  match ev with
  | CallFetch _ (Some t) => text_yields f t
  | CallQuery _ d => detail_yields py_str f d
  | CallScan _ _ (Ok (Some t)) => text_yields f t
  | _ => false
  end.

(** The call returned a result the resolver merges: a non-empty label text,
    a non-empty detail. *)
Definition online_result (ev : event) : bool :=
  match ev with CallFetch _ (Some t) => truthy (VStr t) | _ => false end.

Definition drugbank_result (ev : event) : bool :=
  match ev with CallQuery _ d => truthy d | _ => false end.

Definition offline_result (ev : event) : bool :=
  match ev with
  | CallScan _ _ (Ok (Some t)) => truthy (VStr t)
  | _ => false
  end.

Definition has_result (ev : event) : bool :=
  online_result ev || drugbank_result ev || offline_result ev.

Definition is_search (ev : event) : bool :=
  match ev with CallSearch _ _ => true | _ => false end.
Definition is_query (ev : event) : bool :=
  match ev with CallQuery _ _ => true | _ => false end.
Definition is_scan (ev : event) : bool :=
  match ev with CallScan _ _ _ => true | _ => false end.

Definition is_str_or_none (v : pyval) : Prop :=
  v = VNone \/ exists s, v = VStr s.

(** [pick_fields] returns on [d], and what it picks is a string or nothing. *)
Definition picks_strings (py_str : pyval -> ustr) (d : pyval) : Prop :=
  exists p, pick_fields py_str d = Ok p
            /\ forall f, is_str_or_none (dict_get (key_of f) p).

(** A record as [build_records] emits it for [nm], [seg] being the calls made
    for it: every field a non-empty string, the sentinel when no call yielded
    the field; the provenance a non-empty string, the terminal marker when no
    call returned a result. *)
Definition record_closed (py_str : pyval -> ustr) (nm : ustr)
  (r : DrugRecord) (seg : list event) : Prop :=
  name r = nm
  /\ (forall f, exists s, get_field f r = VStr s /\ s <> []
                          /\ (existsb (yields py_str f) seg = false ->
                              s = UNANNOTATED))
  /\ (exists lab, source r = Some lab /\ lab <> []
                  /\ (existsb has_result seg = false -> lab = SOURCE_UNKNOWN)).

(** The provenance the resolver ends with, from which sources returned a
    result. *)
Definition provenance (online drugbank offline : bool) : ustr :=
  if offline then LABEL_OFFLINE
  else if online
       then (if drugbank then LABEL_ONLINE ++ u " + " ++ LABEL_DRUGBANK
             else LABEL_ONLINE)
       else (if drugbank then LABEL_DRUGBANK else SOURCE_UNKNOWN).

(** *** One record, from what the calls returned *)

(** The record after the Online step, [ot] being the label text it parsed,
    if any. *)
Definition after_online (nm : ustr) (ot : option ustr) : DrugRecord :=
  match ot with
  | Some t => set_parsed (new_record nm) (parse_cn_label_text t) LABEL_ONLINE
  | None => new_record nm
  end.

(** The record after the StructuredAPI step, [qd] being the detail returned
    when the client was queried. *)
Definition after_drugbank (py_str : pyval -> ustr) (r1 : DrugRecord)
  (qd : option pyval) : result DrugRecord :=
  match qd with
  | Some d =>
    if truthy d
    then rbind (pick_fields py_str d) (fun p => Ok (fill_gaps r1 p))
    else Ok r1
  | None => Ok r1
  end.

(** The record after the Offline step, [sc] being what the scanner returned
    when it was called. *)
Definition after_offline (r2 : DrugRecord)
  (sc : option (result (option ustr))) : result DrugRecord :=
  match sc with
  | Some t =>
    rbind t (fun o =>
      Ok (match o with
          | Some x =>
            if truthy (VStr x)
            then set_parsed r2 (parse_cn_label_text x) LABEL_OFFLINE
            else r2
          | None => r2
          end))
  | None => Ok r2
  end.

Definition query_events (nm : ustr) (qd : option pyval) : list event :=
  match qd with Some d => [CallQuery nm d] | None => [] end.

Definition scan_events (nm : ustr) (folder : option ustr)
  (sc : option (result (option ustr))) : list event :=
  match sc with Some t => [CallScan nm folder t] | None => [] end.

(** How one run of the loop body reads: [res] and the calls [tr] it made,
    in terms of the text [ot] the Online step parsed, its calls [seg1], the
    detail [qd] and the scan [sc]. *)
Definition run_reads (W : Type) (src : Sources W) (py_str : pyval -> ustr)
  (cfg : Config) (use_db : bool) (nm : ustr)
  (res : result DrugRecord) (tr : list event)
  (ot : option ustr) (seg1 : list event) (qd : option pyval)
  (sc : option (result (option ustr))) : Prop :=
  res = rbind (rbind (after_drugbank py_str (after_online nm ot) qd)
                     (fun r2 => after_offline r2 sc))
              (fun r3 => Ok (fill_defaults r3))
  /\ tr = seg1 ++ query_events nm qd
               ++ scan_events nm (nmpa_offline_dir cfg) sc
  /\ Forall (fun ev => is_query ev = false /\ is_scan ev = false) seg1
  /\ (forall t, ot = Some t ->
                truthy (VStr t) = true
                /\ exists url, In (CallFetch url (Some t)) seg1)
  /\ (forall url x, In (CallFetch url (Some x)) seg1 ->
                    truthy (VStr x) = true -> ot = Some x)
  /\ (use_nmpa_online cfg = false -> seg1 = [])
  /\ (qd = None <-> use_db && negb (all_fields (after_online nm ot)) = false)
  /\ (forall d, qd = Some d -> exists w, d = fst (src_query_by_name src nm w))
  /\ (forall t, sc = Some t ->
        (exists w, t = fst (src_scan_offline_label src nm
                              (nmpa_offline_dir cfg) w))
        /\ exists r2, after_drugbank py_str (after_online nm ot) qd = Ok r2
                      /\ any_field r2 = false)
  /\ (sc = None -> forall r2,
        after_drugbank py_str (after_online nm ot) qd = Ok r2 ->
        any_field r2 = true).

(** *** Scripts for the examples *)

Definition DRUG : ustr := u "氨氯地平".
Definition PAGE_URL : ustr := u "https://www.nmpa.gov.cn/datasearch/label-1.html".
Definition LABEL_DIR : ustr := u "nmpa_labels".

(** A label page with an indication, and a pregnancy section that has none
    of the keywords. *)
Definition label_page : ustr :=
  u "【适应症】高血压。【孕妇及哺乳期用药】尚不明确。".

Definition offline_label : ustr := u "【禁忌】对本品过敏者禁用。".

Definition detail_full : pyval :=
  VDict [ (u "indication", VStr (u "Hypertension"));
          (u "pregnancy_category", VStr (u "C")) ].

Definition detail_indication_only : pyval :=
  VDict [ (u "indication", VStr (u "Hypertension")) ].

(** A detail that carries none of the fields the picker looks for. *)
Definition detail_no_fields : pyval :=
  VDict [ (u "name", VStr (u "Amlodipine")) ].

(** A detail whose interaction entries are strings, not objects. *)
Definition detail_string_interactions : pyval :=
  VDict [ (u "drug_interactions", VList [VStr (u "warfarin")]) ].

Definition cfg_all : Config :=
  {| use_nmpa_online := true; nmpa_offline_dir := Some LABEL_DIR;
     use_drugbank := true |}.

Definition cfg_no_online : Config :=
  {| use_nmpa_online := false; nmpa_offline_dir := Some LABEL_DIR;
     use_drugbank := true |}.

(** The Online client finds the page, DrugBank answers [detail]. *)
Definition sources_page_and (detail : pyval) : Sources unit :=
  scripted_sources [PAGE_URL] (fun _ => Some label_page) true detail (Ok None).

(** Only DrugBank answers; the offline folder holds [offline_label]. *)
Definition sources_drugbank_and_folder (detail : pyval) : Sources unit :=
  scripted_sources [] (fun _ => None) true detail (Ok (Some offline_label)).

(** Only DrugBank answers. *)
Definition sources_drugbank_only (detail : pyval) : Sources unit :=
  scripted_sources [] (fun _ => None) true detail (Ok None).

(** A DrugBank server that answers every GET with [detail]. *)
Definition http_json (detail : pyval) (n : nat) (r : request)
  : result Response :=
  Ok {| status_code := 200; content := []; json := Ok detail |}.

(** The shipped clients against that server, with a key configured and an
    empty offline folder. *)
Definition shipped_against (detail : pyval) : Sources Net :=
  shipped_sources (http_json detail) no_probe no_codec no_str
    (fun _ => Ok []) (Some (u "key")) (u "https://api.drugbank.com/v1")
    (fun _ => true) (fun _ => Ok []) (fun _ => Raise OSError)
    (fun _ _ => false) (fun p => p) (fun _ => Ok []) (fun _ => Ok [])
    (fun _ => Ok []).

Definition net_start : RState Net := {| world := net0; trace := [] |}.

Definition all_four : list field :=
  [Indications; Contraindications; Interactions; Pregnancy].

(** The record [DRUG] has after a DrugBank step that filled the indications
    only. *)
Definition gap_record : DrugRecord :=
  {| name := DRUG;
     indications := VStr (u "Hypertension");
     contraindications := VNone;
     interactions := VNone;
     pregnancy_category := VNone;
     source := Some LABEL_DRUGBANK |}.

(** *** The rest of the module: names, and the entry point *)

(** [[ln.strip() for ln in f if ln.strip()]], [lines] being what iterating
    over the opened file yields. *)
Definition load_names (lines : list ustr) : list ustr :=
  map strip (filter (fun ln => truthy (VStr (strip ln))) lines).

(** The namespace [ap.parse_args()] returns. *)
Record Args : Type := {
  in_file : ustr;
  out_file : ustr;
  arg_nmpa_offline_dir : option ustr;
  no_nmpa_online : bool;
  no_drugbank : bool }.

(** How [main] ends: [SystemExit(code)], raised by argparse with its exit
    status or by [main] itself with a message on an empty list; or what
    [build_records] and then [save_to_excel] made of the names. *)
Inductive main_outcome : Type :=
| SystemExit (code : pyval)
| Saved (records : list DrugRecord)
| Failed (e : exn).

Section Main.
Variable W : Type.
Variable src : Sources W.
Variable py_str : pyval -> ustr.
(** What [ap.parse_args()] makes of the command line: argparse ends the
    process with [SystemExit(status)] (2 on a missing or unknown argument,
    0 after [-h]), or returns the namespace. *)
Variable parse_args : Z + Args.
(** [os.path.expanduser] *)
Variable expanduser : ustr -> ustr.
(** Opening the file of [load_names] and iterating over it: the lines, or
    the exception raised ([OSError], [UnicodeDecodeError]). *)
Variable read_lines : ustr -> result (list ustr).
(** [save_to_excel(records, out_path)]: [os.makedirs] and pandas. *)
Variable save_to_excel : list DrugRecord -> ustr -> result unit.

Definition main (s : RState W) : main_outcome * RState W :=
  match parse_args with
  | inl status => (SystemExit (VInt status), s)
  | inr args =>
    match read_lines (expanduser (in_file args)) with
    | Raise e => (Failed e, s)
    | Ok lines =>
      let names := load_names lines in
      match names with
      | [] => (SystemExit (VStr (u "❌ 药品清单为空")), s)
      | _ =>
        let cfg :=
          {| use_nmpa_online := negb (no_nmpa_online args);
             nmpa_offline_dir :=
               if truthy (of_opt (arg_nmpa_offline_dir args))
               then option_map expanduser (arg_nmpa_offline_dir args)
               else None;
             use_drugbank := negb (no_drugbank args) |} in
        match build_records src py_str cfg names s with
        | (Ok records, s') =>
          match save_to_excel records (expanduser (out_file args)) with
          | Ok _ => (Saved records, s')
          | Raise e => (Failed e, s')
          end
        | (Raise e, s') => (Failed e, s')
        end
      end
    end
  end.
End Main.

(** *** More scripts *)

(** A label page with all four sections. *)
Definition full_label_page : ustr :=
  u "【适应症】高血压。【禁忌】过敏者禁用。【药物相互作用】与他汀类合用需谨慎。【孕妇及哺乳期用药】孕妇慎用。".

(** The record of a name for which nothing was found. *)
Definition blank_record (nm : ustr) : DrugRecord :=
  {| name := nm;
     indications := VStr UNANNOTATED;
     contraindications := VStr UNANNOTATED;
     interactions := VStr UNANNOTATED;
     pregnancy_category := VStr UNANNOTATED;
     source := Some SOURCE_UNKNOWN |}.

(** No GET succeeds: [requests] raises, or the status is not 200. *)
Definition gets_fail (http : nat -> request -> result Response) : Prop :=
  forall n req, match http n req with
                | Ok resp => status_code resp <> 200%Z
                | Raise _ => True
                end.

(** A network that is down. *)
Definition http_down (n : nat) (r : request) : result Response :=
  Raise (RequestException None).

(** The seconds spent in the pauses of the retry decorator. *)
Fixpoint backoff_seconds (log : list net_event) : N :=
  match log with
  | [] => 0
  | NWait n :: log' => n + backoff_seconds log'
  | _ :: log' => backoff_seconds log'
  end.

(** From [s] to [s'] at most [k] retried GETs were made: at most [3k] GETs
    and [3k] seconds of backoff. *)
Definition net_within (k : nat) (s s' : Net) : Prop :=
  (tick s' <= tick s + 3 * k)%nat
  /\ backoff_seconds (netlog s') <= backoff_seconds (netlog s) + 3 * N.of_nat k.

Definition cfg_no_folder : Config :=
  {| use_nmpa_online := true; nmpa_offline_dir := None;
     use_drugbank := true |}.

(** The shipped clients on a network that is down, with a key configured. *)
Definition shipped_down : Sources Net :=
  shipped_sources http_down no_probe no_codec no_str
    (fun _ => Ok []) (Some (u "key")) (u "https://api.drugbank.com/v1")
    (fun _ => false) (fun _ => Raise OSError) (fun _ => Raise OSError)
    (fun _ _ => false) (fun p => p) (fun _ => Ok []) (fun _ => Ok [])
    (fun _ => Ok []).

(** The keys [pick_fields] reads in a detail. *)
Definition PICKED_KEYS : list ustr :=
  [ u "indication"; u "indications"; u "contraindications";
    u "drug_interactions"; u "pregnancy_category"; u "fda_pregnancy_category" ].

Definition is_dict (v : pyval) : bool :=
  match v with VDict _ => true | _ => false end.

(** The interaction entries [pick_fields] visits: the first 30 of a
    non-empty list under [drug_interactions], none otherwise. *)
Definition visited_interactions (kv : dict) : list pyval :=
  match dict_get (u "drug_interactions") kv with
  | VList l => firstn 30 l
  | _ => []
  end.

Section OfflineReading.
Variable chardet_probe : list byte -> option encoding.
Variable codec_decode : ustr -> list byte -> result ustr.
Variable read_bytes : ustr -> result (list byte).
Variable lower : ustr -> ustr.
Variable soup_text : ustr -> result ustr.
Variable pdfminer_text : ustr -> result ustr.
Variable pypdf2_pages : ustr -> result (list ustr).

(** What one turn of the loop of [scan_offline_label] reads from a
    candidate path: the HTML text, the PDF text, or nothing for any other
    extension ([continue]). *)
Definition candidate_text (p : ustr) : ustr :=
  if is_html lower p
  then read_html_text chardet_probe codec_decode read_bytes soup_text p
  else if is_pdf lower p
       then read_pdf_text pdfminer_text pypdf2_pages p
       else [].
End OfflineReading.

(** A label folder with a PDF and an HTML file for the same drug, and a file
    of another drug; every file holds the same 60 characters. *)
Definition folder_files : list ustr :=
  [ u "amlodipine.pdf"; u "amlodipine.html"; u "metformin.html" ].

Definition sixty_chars : string :=
  "Indications: hypertension. Contraindications: hypersensitivity."%string.

Definition name_prefix (nm fn : ustr) : bool :=
  ustr_eqb (firstn (List.length nm) fn) nm.

Definition scan_folder (nm : ustr) (folder : option ustr)
  : result (option ustr) :=
  scan_offline_label no_probe no_codec
    (fun _ => true) (fun _ => Ok folder_files)
    (fun _ => Ok (list_byte_of_string sixty_chars))
    name_prefix (fun p => p) (fun html => Ok html)
    (fun _ => Ok (u "PDF text, " ++ u sixty_chars)) (fun _ => Ok [])
    nm folder.

(** A name list as read from a file: padded names and blank lines. *)
Definition names_file : list ustr :=
  [ u "  氨氯地平 " ++ [NEWLINE]; [NEWLINE]; u "二甲双胍" ++ [NEWLINE]; u "   " ].

(** [save_to_excel] on a path that can be written. *)
Definition save_ok (records : list DrugRecord) (out_path : ustr)
  : result unit := Ok tt.

(** [--in names.txt --out drugs.xlsx], and a file system that holds
    [names_file] under every path. *)
Definition args_in_out : Args :=
  {| in_file := u "names.txt"; out_file := u "drugs.xlsx";
     arg_nmpa_offline_dir := None;
     no_nmpa_online := false; no_drugbank := false |}.

Definition read_names_file (path : ustr) : result (list ustr) :=
  Ok names_file.

(** The records [main] hands to [save_to_excel], none when it ends
    otherwise. *)
Definition saved_records (o : main_outcome) : list DrugRecord :=
  match o with Saved records => records | _ => [] end.

(** A server that answers every GET with a page, and the text BeautifulSoup
    extracts from it: padded, with blank lines. *)
Definition http_page (n : nat) (r : request) : result Response :=
  Ok {| status_code := 200; content := list_byte_of_string "<html/>";
        json := Raise (RequestException None) |}.

Definition page_text : ustr :=
  [NEWLINE; NEWLINE] ++ u "Indications" ++ [NEWLINE; NEWLINE; NEWLINE]
  ++ u "Hypertension" ++ [NEWLINE; SPACE].

(** Offline only: no online search, and no DrugBank key in the
    environment; the label folder cannot be listed. *)
Definition cfg_offline_only : Config :=
  {| use_nmpa_online := false; nmpa_offline_dir := Some LABEL_DIR;
     use_drugbank := true |}.

Definition shipped_no_key : Sources Net :=
  shipped_sources http_down no_probe no_codec no_str
    (fun _ => Ok []) None (u "https://api.drugbank.com/v1")
    (fun _ => true) (fun _ => Raise OSError) (fun _ => Raise OSError)
    (fun _ _ => false) (fun p => p) (fun _ => Ok []) (fun _ => Ok [])
    (fun _ => Ok []).

(** The shipped clients against a DrugBank server that answers [detail], with
    a label folder that holds one HTML label for [DRUG], with all four
    sections. *)
Definition label_file : list byte :=
  list_byte_of_string
    "【适应症】高血压。【禁忌】过敏者禁用。【药物相互作用】与他汀类合用需谨慎。【孕妇及哺乳期用药】孕妇慎用。".

Definition shipped_with_folder (detail : pyval) : Sources Net :=
  shipped_sources (http_json detail) no_probe no_codec no_str
    (fun _ => Ok []) (Some (u "key")) (u "https://api.drugbank.com/v1")
    (fun _ => true) (fun _ => Ok [DRUG ++ u ".html"]) (fun _ => Ok label_file)
    name_prefix (fun p => p) (fun html => Ok html) (fun _ => Ok [])
    (fun _ => Ok []).

(* ------------------------------------------------------------------ *)
(** * Properties *)

(** ** The matcher against the words of a pattern *)

Lemma orelse_left A (x y : option A) : x <> None -> orelse x y <> None.
Proof. destruct x; simpl; congruence. Qed.

Lemma orelse_right A (x y : option A) : y <> None -> orelse x y <> None.
Proof. destruct x; simpl; congruence. Qed.

Lemma orelse_some A (x y : option A) v :
  orelse x y = Some v -> x = Some v \/ y = Some v.
Proof. destruct x; simpl; auto. Qed.

Lemma star_match_sound A p s (k : ustr -> option A) v :
  star_match p s k = Some v ->
  exists w rest, s = w ++ rest /\ forallb p w = true /\ k rest = Some v.
Proof.
  induction s as [|c s IH]; simpl; intros H.
  - exists [], []. auto.
  - destruct (p c) eqn:Hc.
    + apply orelse_some in H. destruct H as [H|H].
      * destruct (IH H) as (w & rest & -> & Hw & Hk).
        exists (c :: w), rest. simpl. rewrite Hc, Hw. auto.
      * exists [], (c :: s). auto.
    + exists [], (c :: s). auto.
Qed.

Lemma star_match_complete A p w rest (k : ustr -> option A) :
  forallb p w = true -> k rest <> None -> star_match p (w ++ rest) k <> None.
Proof.
  induction w as [|c w IH]; simpl; intros Hw Hk.
  - destruct rest as [|d rest']; simpl; auto.
    destruct (p d); auto using orelse_right.
  - apply andb_true_iff in Hw. destruct Hw as [Hc Hw]. rewrite Hc.
    apply orelse_left. auto.
Qed.

Lemma rep_match_sound A p hi : forall lo s (k : ustr -> option A) v,
  rep_match p lo hi s k = Some v ->
  exists w rest, s = w ++ rest /\ forallb p w = true
                 /\ (lo <= List.length w <= hi)%nat /\ k rest = Some v.
Proof.
  induction hi as [|hi IH]; intros lo s k v H; simpl in H.
  - destruct lo; [|discriminate]. exists [], s. simpl. repeat split; auto.
  - destruct s as [|c s].
    + destruct lo; [|discriminate]. exists [], []. simpl. repeat split; auto; lia.
    + destruct (p c) eqn:Hc.
      * apply orelse_some in H. destruct H as [H|H].
        -- destruct (IH _ _ _ _ H) as (w & rest & -> & Hw & Hlen & Hk).
           exists (c :: w), rest. simpl. rewrite Hc, Hw.
           repeat split; auto; lia.
        -- destruct lo; [|discriminate].
           exists [], (c :: s). simpl. repeat split; auto; lia.
      * destruct lo; [|discriminate].
        exists [], (c :: s). simpl. repeat split; auto; lia.
Qed.

Lemma rep_match_complete A p hi : forall lo w rest (k : ustr -> option A),
  forallb p w = true -> (lo <= List.length w <= hi)%nat -> k rest <> None ->
  rep_match p lo hi (w ++ rest) k <> None.
Proof.
  induction hi as [|hi IH]; intros lo w rest k Hw Hlen Hk.
  - destruct w; simpl in *; [|lia]. destruct lo; [auto|lia].
  - destruct w as [|c w]; simpl in *.
    + assert (lo = O) by lia. subst lo.
      destruct rest as [|d rest']; auto.
      destruct (p d); auto using orelse_right.
    + apply andb_true_iff in Hw. destruct Hw as [Hc Hw]. rewrite Hc.
      apply orelse_left. apply IH; auto. lia.
Qed.

Lemma re_match_sound A r : forall s (k : ustr -> option A) v,
  re_match r s k = Some v ->
  exists w rest, s = w ++ rest /\ lang r w /\ k rest = Some v.
Proof.
  induction r as [|p|r1 IH1 r2 IH2|r1 IH1 r2 IH2|p|p lo hi];
    intros s k v H; simpl in H.
  - exists [], s. simpl. auto.
  - destruct s as [|c s]; [discriminate|].
    destruct (p c) eqn:Hc; [|discriminate].
    exists [c], s. simpl. eauto.
  - destruct (IH1 _ _ _ H) as (w1 & rest1 & -> & L1 & H1).
    destruct (IH2 _ _ _ H1) as (w2 & rest & -> & L2 & H2).
    exists (w1 ++ w2), rest. rewrite <- app_assoc. simpl. eauto 7.
  - apply orelse_some in H. destruct H as [H|H].
    + destruct (IH1 _ _ _ H) as (w & rest & ? & ? & ?).
      exists w, rest. simpl. auto.
    + destruct (IH2 _ _ _ H) as (w & rest & ? & ? & ?).
      exists w, rest. simpl. auto.
  - apply star_match_sound in H. exact H.
  - apply rep_match_sound in H.
    destruct H as (w & rest & ? & ? & ? & ?). exists w, rest. simpl. auto.
Qed.

Lemma re_match_complete A r : forall w rest (k : ustr -> option A),
  lang r w -> k rest <> None -> re_match r (w ++ rest) k <> None.
Proof.
  induction r as [|p|r1 IH1 r2 IH2|r1 IH1 r2 IH2|p|p lo hi];
    intros w rest k L Hk; simpl in L |- *.
  - subst w. exact Hk.
  - destruct L as (c & -> & Hc). simpl. rewrite Hc. exact Hk.
  - destruct L as (w1 & w2 & -> & L1 & L2). rewrite <- app_assoc.
    apply IH1; auto.
  - destruct L as [L|L].
    + apply orelse_left. auto.
    + apply orelse_right. auto.
  - apply star_match_complete; auto.
  - destruct L. apply rep_match_complete; auto.
Qed.

Lemma re_search_none r : forall s, re_search r s = None -> no_occurrence r s.
Proof.
  induction s as [|c s IH]; simpl; intros H pre w post [E L].
  - destruct (re_match r [] (fun rest => Some rest)) eqn:Hm; [discriminate|].
    destruct pre; [|discriminate]. simpl in E.
    revert Hm. rewrite E. apply re_match_complete; auto. discriminate.
  - destruct (re_match r (c :: s) (fun rest => Some rest)) eqn:Hm; [discriminate|].
    destruct pre as [|c' pre].
    + simpl in E. revert Hm. rewrite E. apply re_match_complete; auto. discriminate.
    + destruct (re_search r s) as [[? ?]|] eqn:Hs; [discriminate|].
      injection E as -> E. apply (IH eq_refl pre w post). split; auto.
Qed.

Lemma re_search_some r : forall s pre tail,
  re_search r s = Some (pre, tail) -> first_match r s pre tail.
Proof.
  induction s as [|c s IH]; simpl; intros pre tail H.
  - destruct (re_match r [] (fun rest => Some rest)) eqn:Hm; [|discriminate].
    injection H as <- <-.
    apply re_match_sound in Hm. destruct Hm as (w & rest & E & L & Hk).
    injection Hk as ->. split.
    + exists w. split; auto.
    + intros. simpl. lia.
  - destruct (re_match r (c :: s) (fun rest => Some rest)) eqn:Hm.
    + injection H as <- <-.
      apply re_match_sound in Hm. destruct Hm as (w & rest & E & L & Hk).
      injection Hk as ->. split.
      * exists w. split; auto.
      * intros. simpl. lia.
    + destruct (re_search r s) as [[pre0 tail0]|] eqn:Hs; [|discriminate].
      injection H as <- <-.
      destruct (IH _ _ eq_refl) as [(w & E & L) Hleft]. split.
      * exists w. split; auto. simpl. now rewrite E.
      * intros pre' w' post' [E' L'].
        destruct pre' as [|c' pre'].
        -- exfalso. simpl in E'. revert Hm. rewrite E'.
           apply re_match_complete; auto. discriminate.
        -- injection E' as -> E'. simpl.
           specialize (Hleft pre' w' post' (conj E' L')). lia.
Qed.

(** ** Heading markers *)

Lemma lang_next_section w : lang NEXT_SECTION_RE w <-> is_marker w.
Proof.
  unfold NEXT_SECTION_RE, is_marker. cbn [lang]. split.
  - intros (w1 & w2 & -> & (c & -> & Hc) & w3 & w4 & -> & (Hall & Hlen)
            & d & -> & Hd).
    apply N.eqb_eq in Hc, Hd. subst c d. exists w3. repeat split; try lia.
    apply Forall_forall. intros x Hx.
    rewrite forallb_forall in Hall. specialize (Hall x Hx).
    apply negb_true_iff, N.eqb_neq in Hall. exact Hall.
  - intros (inner & -> & Hlen & Hall).
    exists [LBRACKET], (inner ++ [RBRACKET]). split; [reflexivity|]. split.
    + exists LBRACKET. split; [reflexivity|apply N.eqb_refl].
    + exists inner, [RBRACKET]. split; [reflexivity|]. split.
      * split; [|lia]. apply forallb_forall. intros x Hx.
        rewrite Forall_forall in Hall. specialize (Hall x Hx).
        apply negb_true_iff, N.eqb_neq. exact Hall.
      * exists RBRACKET. split; [reflexivity|apply N.eqb_refl].
Qed.

Lemma body_of_section tail : section_body tail (body_of tail).
Proof.
  unfold body_of. destruct (re_search NEXT_SECTION_RE tail) as [[before rest]|] eqn:H.
  - apply re_search_some in H. destruct H as [(m & E & L) Hleft].
    left. exists m, rest. split; [exact E|]. split; [now apply lang_next_section|].
    intros b' m' r' E' M'. apply (Hleft b' m' r').
    split; [exact E'|now apply lang_next_section].
  - apply re_search_none in H. right. split; [reflexivity|].
    intros b' m' r' E' M'. apply (H b' m' r').
    split; [exact E'|now apply lang_next_section].
Qed.

(** ** Collapsing and trimming whitespace *)

Lemma lstrip_sub_runs : forall s b,
  lstrip (sub_runs isspace SPACE b s) = sub_runs isspace SPACE false (lstrip s).
Proof.
  induction s as [|c s IH]; intros b; simpl; [reflexivity|].
  destruct (isspace c) eqn:Hc.
  - destruct b; simpl; rewrite ?IH; reflexivity.
  - simpl. rewrite Hc. reflexivity.
Qed.

Lemma sub_runs_inrun : forall s,
  sub_runs isspace SPACE true s = sub_runs isspace SPACE false (lstrip s).
Proof.
  induction s as [|c s IH]; simpl; [reflexivity|].
  destruct (isspace c) eqn:Hc; [exact IH|]. simpl. rewrite Hc. reflexivity.
Qed.

Lemma lstrip_app a b :
  lstrip (a ++ b) = if forallb isspace a then lstrip b else lstrip a ++ b.
Proof.
  induction a as [|c a IH]; simpl; [reflexivity|].
  destruct (isspace c); simpl; auto.
Qed.

Lemma lstrip_nil_iff s : lstrip s = [] <-> forallb isspace s = true.
Proof.
  induction s as [|c s IH]; simpl; [tauto|].
  destruct (isspace c) eqn:Hc; simpl; [exact IH|]. split; discriminate.
Qed.

Lemma forallb_rev (p : N -> bool) l : forallb p (rev l) = forallb p l.
Proof.
  induction l as [|c l IH]; simpl; [reflexivity|].
  rewrite forallb_app, IH. simpl. rewrite andb_true_r. apply andb_comm.
Qed.

Lemma rstrip_cons c t :
  rstrip (c :: t) =
  if forallb isspace t then (if isspace c then [] else [c]) else c :: rstrip t.
Proof.
  unfold rstrip. simpl. rewrite lstrip_app, forallb_rev.
  destruct (forallb isspace t).
  - simpl. destruct (isspace c); reflexivity.
  - rewrite rev_app_distr. reflexivity.
Qed.

Lemma rstrip_nil_iff t : rstrip t = [] <-> forallb isspace t = true.
Proof.
  unfold rstrip. rewrite <- (forallb_rev isspace t), <- lstrip_nil_iff.
  split; intros H.
  - apply (f_equal (@rev N)) in H. rewrite rev_involutive in H. exact H.
  - rewrite H. reflexivity.
Qed.

Lemma words_lstrip : forall s, words (lstrip s) = words s.
Proof.
  induction s as [|c s IH]; simpl; [reflexivity|].
  destruct (isspace c) eqn:Hc; [exact IH|]. simpl. rewrite Hc. reflexivity.
Qed.

Lemma words_cons_nonspace c s :
  isspace c = false -> exists w ws, words (c :: s) = (c :: w) :: ws.
Proof.
  intros Hc. simpl. rewrite Hc. destruct s as [|d s']; eauto.
  destruct (isspace d); eauto.
  destruct (words (d :: s')); eauto.
Qed.

Lemma join_cons_head sep c w ws :
  join sep ((c :: w) :: ws) = c :: join sep (w :: ws).
Proof. destruct ws; reflexivity. Qed.

(** On a string that starts with a character that is not whitespace, trimming
    the collapsed string on the right gives the words joined by spaces. *)
Lemma rstrip_sub_runs_words : forall n s c,
  (List.length s < n)%nat -> isspace c = false ->
  rstrip (sub_runs isspace SPACE false (c :: s)) = join [SPACE] (words (c :: s))
  /\ forallb isspace (sub_runs isspace SPACE false (c :: s)) = false.
Proof.
  induction n as [|n IH]; intros s c Hlen Hc; [lia|].
  assert (Hnb : forallb isspace (sub_runs isspace SPACE false (c :: s)) = false).
  { simpl. rewrite Hc. simpl. rewrite Hc. reflexivity. }
  split; [|exact Hnb].
  simpl sub_runs. rewrite Hc. rewrite rstrip_cons.
  destruct s as [|d s'].
  - simpl. rewrite Hc. reflexivity.
  - destruct (isspace d) eqn:Hd.
    + (* a run of whitespace follows *)
      simpl sub_runs. rewrite Hd. rewrite sub_runs_inrun.
      assert (Hw : words (c :: d :: s') = [c] :: words (lstrip s')).
      { simpl. rewrite Hc, Hd. rewrite words_lstrip. reflexivity. }
      rewrite Hw.
      destruct (lstrip s') as [|e s3] eqn:Hs3.
      * simpl. rewrite Hc. reflexivity.
      * assert (He : isspace e = false).
        { destruct (isspace e) eqn:He; auto.
          clear -Hs3 He. exfalso. revert Hs3.
          induction s' as [|x s' IH]; simpl; [discriminate|].
          destruct (isspace x) eqn:Hx; auto.
          intros E. injection E as -> _. congruence. }
        assert (Hl3 : (List.length s3 < n)%nat).
        { assert (List.length (lstrip s') <= List.length s')%nat.
          { clear. induction s' as [|x s' IH]; simpl; auto.
            destruct (isspace x); simpl; lia. }
          rewrite Hs3 in H. simpl in *. lia. }
        destruct (IH s3 e Hl3 He) as [IH1 IH2].
        replace (forallb isspace
                   (SPACE :: sub_runs isspace SPACE false (e :: s3)))
          with false by (cbn [forallb]; rewrite IH2; symmetry; apply andb_false_r).
        rewrite rstrip_cons, IH2, IH1.
        destruct (@words_cons_nonspace e s3 He) as (w & ws & Ew). rewrite Ew.
        reflexivity.
    + assert (Hl : (List.length s' < n)%nat) by (simpl in Hlen; lia).
      destruct (IH s' d Hl Hd) as [IH1 IH2].
      rewrite IH2, IH1.
      destruct (@words_cons_nonspace d s' Hd) as (w & ws & Ew).
      assert (Hw : words (c :: d :: s') = (c :: d :: w) :: ws).
      { change (words (c :: d :: s')) with
          (if isspace c then words (d :: s')
           else if isspace d then [c] :: words (d :: s')
                else match words (d :: s') with
                     | w :: ws => (c :: w) :: ws
                     | [] => [[c]]
                     end).
        rewrite Hc, Hd, Ew. reflexivity. }
      rewrite Hw, Ew. rewrite (@join_cons_head [SPACE] c (d :: w) ws). reflexivity.
Qed.

Theorem strip_sub_ws_collapsed s : strip (sub_ws s) = collapsed s.
Proof.
  unfold strip, sub_ws, collapsed. rewrite lstrip_sub_runs.
  rewrite <- (words_lstrip s).
  destruct (lstrip s) as [|c s'] eqn:E; [reflexivity|].
  assert (Hc : isspace c = false).
  { destruct (isspace c) eqn:Hc; auto. exfalso. revert E. clear -Hc.
    induction s as [|x s IH]; simpl; [discriminate|].
    destruct (isspace x) eqn:Hx; auto. intros E. injection E as -> _. congruence. }
  apply (@rstrip_sub_runs_words (S (List.length s')) s' c); auto.
Qed.

(** ** [slice_section] *)

Lemma slice_section_unfold text pat :
  slice_section text pat =
  match re_search pat text with
  | None => None
  | Some (_, tail) => nonempty (collapsed (body_of tail))
  end.
Proof.
  unfold slice_section, body_of.
  destruct (re_search pat text) as [[pre tail]|]; [|reflexivity].
  rewrite strip_sub_ws_collapsed. reflexivity.
Qed.

Lemma slice_section_nonempty text pat t :
  slice_section text pat = Some t -> t <> [].
Proof.
  rewrite slice_section_unfold.
  destruct (re_search pat text) as [[pre tail]|]; [|discriminate].
  destruct (collapsed (body_of tail)); simpl; [discriminate|].
  intros E. injection E as <-. discriminate.
Qed.

(** C8. [slice_section] takes the leftmost match of the heading pattern: with
    none it returns [None]; otherwise the text after the match, up to the first
    heading marker 【...】 with 1 to 20 characters inside or to the end, with
    whitespace collapsed and trimmed: [None] when nothing is left of it then,
    that string otherwise.  The section 适应症 of
    ["...【适应症】A B C【禁忌】D..."] is ["A B C"]. *)
Theorem slice_section_spec :
  (forall text pat,
     match re_search pat text with
     | None => no_occurrence pat text /\ slice_section text pat = None
     | Some (pre, tail) =>
       first_match pat text pre tail /\
       exists body,
         section_body tail body
         /\ (collapsed body = [] -> slice_section text pat = None)
         /\ (collapsed body <> [] ->
             slice_section text pat = Some (collapsed body))
     end)
  /\ slice_section (u "...【适应症】A B C【禁忌】D...") PAT_INDICATIONS
     = Some (u "A B C").
Proof.
  split.
  - intros text pat. rewrite slice_section_unfold.
    destruct (re_search pat text) as [[pre tail]|] eqn:H.
    + split; [now apply re_search_some|].
      exists (body_of tail). split; [apply body_of_section|].
      destruct (collapsed (body_of tail)) as [|c b]; cbn [nonempty].
      * split; [reflexivity|]. intros E. congruence.
      * split; [discriminate|reflexivity].
    + split; [now apply re_search_none|reflexivity].
  - vm_compute. reflexivity.
Qed.

(** ** Keywords *)

Lemma lang_lit w : forall x, lang (lit w) x <-> x = w.
Proof.
  induction w as [|c w IH]; intros x; cbn [lit lang]; [tauto|]. split.
  - intros (w1 & w2 & -> & (d & -> & Hd) & L2).
    apply N.eqb_eq in Hd. subst d. apply IH in L2. subst w2. reflexivity.
  - intros ->. exists [c], w. split; [reflexivity|]. split.
    + exists c. split; [reflexivity|apply N.eqb_refl].
    + now apply IH.
Qed.

Lemma is_match_iff r t :
  is_match r t = true <-> exists pre w post, occurs_at r t pre w post.
Proof.
  unfold is_match. destruct (re_search r t) as [[pre tail]|] eqn:H.
  - apply re_search_some in H. destruct H as [(w & Hw) _].
    split; [eauto|reflexivity].
  - apply re_search_none in H. split; [discriminate|].
    intros (pre & w & post & Ho). destruct (H pre w post Ho).
Qed.

Lemma contains_lit kw t :
  contains kw t <-> exists pre w post, occurs_at (lit kw) t pre w post.
Proof.
  unfold contains, occurs_at. split.
  - intros (a & b & ->). exists a, kw, b. split; [reflexivity|now apply lang_lit].
  - intros (pre & w & post & -> & L). apply lang_lit in L. subst w. eauto.
Qed.

Lemma is_match_three_literals a b c t :
  is_match (alts [lit a; lit b; lit c]) t = true
  <-> contains a t \/ contains b t \/ contains c t.
Proof.
  rewrite is_match_iff. unfold contains, occurs_at. cbn [alts lang]. split.
  - intros (pre & w & post & E & [L|[L|L]]); apply lang_lit in L; subst w.
    + left. eauto.
    + right. left. eauto.
    + right. right. eauto.
  - intros [(x & y & E)|[(x & y & E)|(x & y & E)]].
    + exists x, a, y. split; [exact E|]. left. now apply lang_lit.
    + exists x, b, y. split; [exact E|]. right. left. now apply lang_lit.
    + exists x, c, y. split; [exact E|]. right. right. now apply lang_lit.
Qed.

Lemma is_match_prohibit t : is_match PROHIBIT_RE t = true <-> has_prohibition t.
Proof.
  unfold PROHIBIT_RE, has_prohibition.
  pose proof (is_match_three_literals (u "禁用") (u "绝对禁用") (u "禁止使用") t) as H.
  split.
  - intros Hm. apply H in Hm. destruct Hm as [Hm|[Hm|Hm]].
    + left. exact Hm.
    + right. right. exact Hm.
    + right. left. exact Hm.
  - intros Hh. apply H. destruct Hh as [Hh|[Hh|Hh]].
    + left. exact Hh.
    + right. right. exact Hh.
    + right. left. exact Hh.
Qed.

Lemma words_no_space : forall s w c, In w (words s) -> In c w -> isspace c = false.
Proof.
  induction s as [|x s IH]; intros w c Hw Hc; simpl in Hw; [contradiction|].
  destruct (isspace x) eqn:Hx; [eauto|].
  destruct s as [|d s'].
  - destruct Hw as [<-|[]]. destruct Hc as [<-|[]]. exact Hx.
  - destruct (isspace d) eqn:Hd.
    + destruct Hw as [<-|Hw]; [|eauto]. destruct Hc as [<-|[]]. exact Hx.
    + destruct (words (d :: s')) as [|w0 ws] eqn:Ew.
      * destruct Hw as [<-|[]]. destruct Hc as [<-|[]]. exact Hx.
      * destruct Hw as [<-|Hw].
        -- destruct Hc as [<-|Hc]; [exact Hx|]. apply (IH w0 c); simpl; auto.
        -- apply (IH w c); simpl; auto.
Qed.

Lemma join_space_chars : forall ws c,
  In c (join [SPACE] ws) -> c = SPACE \/ exists w, In w ws /\ In c w.
Proof.
  induction ws as [|w ws IH]; intros c Hc; simpl in Hc; [contradiction|].
  destruct ws as [|w' ws'].
  - right. exists w. simpl. auto.
  - apply in_app_or in Hc. destruct Hc as [Hc|Hc].
    + right. exists w. simpl. auto.
    + simpl in Hc. destruct Hc as [<-|Hc]; [auto|].
      destruct (IH c Hc) as [->|(w0 & Hw0 & Hc0)]; [auto|].
      right. exists w0. simpl in *. tauto.
Qed.

Lemma collapsed_no_newline s : ~ In NEWLINE (collapsed s).
Proof.
  intros H. apply join_space_chars in H. destruct H as [H|(w & Hw & Hc)].
  - discriminate.
  - apply (words_no_space _ _ _ Hw) in Hc. discriminate.
Qed.

Lemma slice_section_no_newline text pat t :
  slice_section text pat = Some t -> ~ In NEWLINE t.
Proof.
  rewrite slice_section_unfold.
  destruct (re_search pat text) as [[pre tail]|]; [|discriminate].
  pose proof (collapsed_no_newline (body_of tail)) as Hn.
  destruct (collapsed (body_of tail)); simpl; [discriminate|].
  intros E. injection E as <-. exact Hn.
Qed.

Lemma is_match_two_literals_or_span a b c d t :
  ~ In NEWLINE t ->
  (is_match (alts [lit a; lit b;
                   Cat (lit c) (Cat (Star (fun x => negb (x =? NEWLINE)))
                                    (lit d))]) t = true
   <-> contains a t \/ contains b t
       \/ exists x y z, t = x ++ c ++ y ++ d ++ z).
Proof.
  intros Hn. rewrite is_match_iff. unfold contains, occurs_at.
  cbn [alts lang]. split.
  - intros (pre & w & post & E & [L|[L|L]]).
    + apply lang_lit in L. subst w. left. eauto.
    + apply lang_lit in L. subst w. right. left. eauto.
    + right. right.
      destruct L as (w1 & w2 & -> & L1 & w3 & w4 & -> & _ & L4).
      apply lang_lit in L1, L4. subst w1 w4.
      exists pre, w3, post. rewrite E, <- !app_assoc. reflexivity.
  - intros [(x & y & E)|[(x & y & E)|(x & y & z & E)]].
    + exists x, a, y. split; [exact E|]. left. now apply lang_lit.
    + exists x, b, y. split; [exact E|]. right. left. now apply lang_lit.
    + exists x, (c ++ y ++ d), z. split.
      * rewrite E, <- !app_assoc. reflexivity.
      * right. right. exists c, (y ++ d).
        split; [reflexivity|]. split; [now apply lang_lit|].
        exists y, d. split; [reflexivity|]. split; [|now apply lang_lit].
        apply forallb_forall. intros e He.
        apply negb_true_iff, N.eqb_neq. intros ->. apply Hn. rewrite E.
        apply in_or_app. right. apply in_or_app. right.
        apply in_or_app. left. exact He.
Qed.

Lemma is_match_caution t :
  ~ In NEWLINE t -> (is_match CAUTION_RE t = true <-> has_caution t).
Proof.
  intros Hn. unfold CAUTION_RE, has_caution.
  exact (@is_match_two_literals_or_span
           (u "慎用") (u "权衡利弊") (u "风险") (u "收益") t Hn).
Qed.

(** ** The parsed dictionary *)

Lemma ustr_eqb_refl a : ustr_eqb a a = true.
Proof. induction a; simpl; auto. rewrite N.eqb_refl. exact IHa. Qed.

Lemma dict_get_set_same k v : forall d, dict_get k (dict_set k v d) = v.
Proof.
  intros d. unfold dict_set. destruct (dict_mem k d) eqn:Hm.
  - induction d as [|[k' v'] d IH]; simpl in *; [discriminate|].
    destruct (ustr_eqb k k') eqn:E; simpl; rewrite E; [reflexivity|].
    simpl in Hm. auto.
  - induction d as [|[k' v'] d IH]; simpl in *.
    + rewrite ustr_eqb_refl. reflexivity.
    + destruct (ustr_eqb k k') eqn:E; simpl in Hm; [discriminate|]. auto.
Qed.

Lemma parse_pregnancy full_text :
  dict_get K_PREGNANCY (parse_cn_label_text full_text)
  = VStr (classify_pregnancy (slice_section (sub_ws full_text) PAT_PREGNANCY)).
Proof. unfold parse_cn_label_text. apply dict_get_set_same. Qed.

(** C9. The pregnancy label is three-way and ordered: a prohibition keyword
    in the section gives 禁用（未标注分级） even next to a caution keyword;
    otherwise a caution keyword gives 慎用（未标注分级）; otherwise, and when
    there is no section at all, 未标注. *)
Theorem pregnancy_classification (full_text : ustr) :
  let label := dict_get K_PREGNANCY (parse_cn_label_text full_text) in
  match slice_section (sub_ws full_text) PAT_PREGNANCY with
  | None => label = VStr UNANNOTATED
  | Some t =>
    (has_prohibition t -> label = VStr PREG_PROHIBITED)
    /\ (~ has_prohibition t -> has_caution t -> label = VStr PREG_CAUTION)
    /\ (~ has_prohibition t -> ~ has_caution t -> label = VStr UNANNOTATED)
  end.
Proof.
  intros label. subst label. rewrite parse_pregnancy.
  destruct (slice_section (sub_ws full_text) PAT_PREGNANCY) as [t|] eqn:H;
    [|reflexivity].
  pose proof (@slice_section_nonempty _ _ _ H) as Hne.
  pose proof (@slice_section_no_newline _ _ _ H) as Hnl.
  unfold classify_pregnancy.
  assert (Ht : truthy (of_opt (Some t)) = true) by (destruct t; simpl; congruence).
  rewrite Ht.
  pose proof (is_match_prohibit t) as Hp.
  pose proof (@is_match_caution t Hnl) as Hcn.
  destruct (is_match PROHIBIT_RE t).
  - split; [reflexivity|]. split; intros Hno; exfalso; apply Hno, Hp; reflexivity.
  - assert (Hnp : ~ has_prohibition t) by (intros Hh; apply Hp in Hh; discriminate).
    destruct (is_match CAUTION_RE t).
    + split; [intros Hh; destruct (Hnp Hh)|]. split; [reflexivity|].
      intros _ Hno. exfalso. apply Hno, Hcn. reflexivity.
    + split; [intros Hh; destruct (Hnp Hh)|]. split; [|reflexivity].
      intros _ Hh. apply Hcn in Hh. discriminate.
Qed.

(** ** The text normalizer *)

Lemma ensure_utf8_ok probe codec bs :
  exists s, ensure_utf8 probe codec bs = Ok s.
Proof.
  unfold ensure_utf8.
  destruct (decode_ignore codec _ bs); eauto.
Qed.

(** C10, amended. [ensure_utf8] returns for every input: it decodes with the
    detected encoding, falls back to lenient UTF-8 when nothing is detected or
    when decoding raises, and gives the empty string on zero-length input
    (every codec decoding zero bytes to the empty string, or failing). *)
Theorem ensure_utf8_never_raises probe codec
  (Hempty : forall nm, codec nm [] = Ok [] \/ exists e, codec nm [] = Raise e) :
  (forall bs, exists s, ensure_utf8 probe codec bs = Ok s)
  /\ (forall bs, chardet_detect probe bs = None ->
                 ensure_utf8 probe codec bs = Ok (utf8_decode_ignore bs))
  /\ (forall bs enc s, chardet_detect probe bs = Some enc ->
                       decode_ignore codec enc bs = Ok s ->
                       ensure_utf8 probe codec bs = Ok s)
  /\ (forall bs enc e, chardet_detect probe bs = Some enc ->
                       decode_ignore codec enc bs = Raise e ->
                       ensure_utf8 probe codec bs = Ok (utf8_decode_ignore bs))
  /\ ensure_utf8 probe codec [] = Ok [].
Proof.
  split; [intros bs; apply ensure_utf8_ok|].
  split; [intros bs H; unfold ensure_utf8; rewrite H; reflexivity|].
  split; [intros bs enc s H D; unfold ensure_utf8; rewrite H, D; reflexivity|].
  split; [intros bs enc e H D; unfold ensure_utf8; rewrite H, D; reflexivity|].
  unfold ensure_utf8, chardet_detect. simpl starts_with. cbv iota.
  destruct (probe []) as [[| |nm]|]; simpl; try reflexivity.
  destruct (Hempty nm) as [E|[e E]]; rewrite E; reflexivity.
Qed.

Lemma ensure_utf8_never_raises_witness :
  (forall nm, no_codec nm [] = Ok [] \/ exists e, no_codec nm [] = Raise e)
  /\ ensure_utf8 no_probe no_codec [] = Ok [].
Proof.
  assert (H : forall nm, no_codec nm [] = Ok []
                         \/ exists e, no_codec nm [] = Raise e).
  { intros nm. right. exists LookupError. reflexivity. }
  split; [exact H|].
  exact (proj2 (proj2 (proj2 (proj2 (@ensure_utf8_never_raises no_probe no_codec H))))).
Defined.

(** C10 as stated fails: the three bytes of a UTF-8 byte order mark are a
    non-empty input, and the result is the empty string whatever the probers
    and the other codecs do. *)
Lemma ensure_utf8_bom_only_is_empty :
  BOM_UTF8 <> []
  /\ forall probe codec, ensure_utf8 probe codec BOM_UTF8 = Ok [].
Proof.
  split; [discriminate|]. intros probe codec. reflexivity.
Qed.

(** ** The retried GET *)

Lemma nmpa_get_once_run http url s :
  nmpa_get_once http url s
  = (nmpa_attempt (http (tick s) {| req_url := url; req_params := [] |}),
     {| tick := S (tick s);
        netlog := netlog s ++ [NGet {| req_url := url; req_params := [] |}] |}).
Proof.
  unfold nmpa_get_once, bind, sess_get, nmpa_attempt, rbind.
  destruct (http (tick s) _) as [resp|e]; [|reflexivity].
  destruct (negb (status_code resp =? 200)%Z); reflexivity.
Qed.

Lemma drugbank_get_once_run http base path params s :
  let req := {| req_url := rstrip_char SLASH base ++ u "/"
                           ++ lstrip_char SLASH path;
                req_params := params |} in
  drugbank_get_once http base path params s
  = (drugbank_attempt (http (tick s) req),
     {| tick := S (tick s); netlog := netlog s ++ [NGet req] |}).
Proof.
  intros req. unfold drugbank_get_once, bind, sess_get, drugbank_attempt, rbind.
  fold req. destruct (http (tick s) req) as [resp|e]; [|reflexivity].
  destruct (negb (status_code resp =? 200)%Z); [reflexivity|].
  unfold lift. reflexivity.
Qed.

Lemma wait_exponential_formula k :
  wait_exponential 1 1 8 k = N.min (2 ^ (k - 1)) 8.
Proof.
  unfold wait_exponential. rewrite N.mul_1_l.
  assert (1 <= 2 ^ (k - 1)).
  { change 1 with (2 ^ 0) at 1. apply N.pow_le_mono_r; lia. }
  lia.
Qed.

(** Three attempts at most, around any call that makes one GET. *)
Lemma retry3_run A http (f : result Response -> result A) req (call : M A) :
  (forall s, call s = (f (http (tick s) req),
                       {| tick := S (tick s);
                          netlog := netlog s ++ [NGet req] |})) ->
  forall s, retried_run http f req s (retry 3 call s).
Proof.
  intros Hcall s. unfold retry, retried_run. cbn [Nat.pred retrying].
  rewrite Hcall.
  assert (T0 : (tick s + (1 - 1))%nat = tick s) by lia.
  assert (T1 : (tick s + (2 - 1))%nat = S (tick s)) by lia.
  assert (T2 : (tick s + (3 - 1))%nat = S (S (tick s))) by lia.
  assert (U0 : (tick s + 0)%nat = tick s) by lia.
  assert (U1 : (tick s + 1)%nat = S (tick s)) by lia.
  destruct (f (http (tick s) req)) as [a|e] eqn:E0.
  { exists 1%nat. cbn [fst snd tick netlog retry_log]. rewrite T0, E0.
    split; [lia|]. split; [reflexivity|]. split; [lia|].
    split; [reflexivity|]. split; [intros i Hi; lia|reflexivity]. }
  destruct (retry_if_request_exception e) eqn:R0.
  2:{ exists 1%nat. cbn [fst snd tick netlog retry_log]. rewrite T0, E0.
      split; [lia|]. split; [reflexivity|]. split; [lia|].
      split; [reflexivity|]. split; [intros i Hi; lia|intros _; exact R0]. }
  rewrite Hcall. cbn [net_log tick netlog].
  change (wait_exponential 1 1 8 1) with 1.
  assert (P1 : forall i, (i < 2 - 1)%nat ->
                         transient (f (http (tick s + i)%nat req)) = true).
  { intros i Hi. replace i with 0%nat by lia. rewrite U0, E0. exact R0. }
  destruct (f (http (S (tick s)) req)) as [a|e1] eqn:E1.
  { exists 2%nat. cbn [fst snd tick netlog retry_log]. rewrite T1, E1.
    split; [lia|]. split; [reflexivity|]. split; [lia|].
    split; [rewrite <- !app_assoc; reflexivity|].
    split; [exact P1|reflexivity]. }
  destruct (retry_if_request_exception e1) eqn:R1.
  2:{ exists 2%nat. cbn [fst snd tick netlog retry_log]. rewrite T1, E1.
      split; [lia|]. split; [reflexivity|]. split; [lia|].
      split; [rewrite <- !app_assoc; reflexivity|].
      split; [exact P1|intros _; exact R1]. }
  rewrite Hcall. cbn [net_log tick netlog].
  change (wait_exponential 1 1 8 (1 + 1)) with 2.
  assert (P2 : forall i, (i < 3 - 1)%nat ->
                         transient (f (http (tick s + i)%nat req)) = true).
  { intros i Hi. assert (i = 0 \/ i = 1)%nat as [->| ->] by lia.
    - rewrite U0, E0. exact R0.
    - rewrite U1, E1. exact R1. }
  exists 3%nat. rewrite T2.
  destruct (f (http (S (S (tick s))) req)) as [a|e2] eqn:E2.
  - cbn [fst snd tick netlog retry_log].
    split; [lia|]. split; [reflexivity|]. split; [lia|].
    split; [rewrite <- !app_assoc; reflexivity|].
    split; [exact P2|intros Hn; lia].
  - destruct (retry_if_request_exception e2);
      cbn [fst snd tick netlog retry_log];
      (split; [lia|]; split; [reflexivity|]; split; [lia|];
       split; [rewrite <- !app_assoc; reflexivity|];
       split; [exact P2|intros Hn; lia]).
Qed.

Lemma transient_nmpa_attempt o :
  transient (nmpa_attempt o) = true
  <-> (exists st, o = Raise (RequestException st))
      \/ (exists resp, o = Ok resp /\ status_code resp <> 200%Z).
Proof.
  unfold nmpa_attempt, rbind. destruct o as [resp|e].
  - destruct (status_code resp =? 200)%Z eqn:Hs; simpl.
    + apply Z.eqb_eq in Hs. split; [discriminate|].
      intros [(st & E)|(r & E & Hne)]; [discriminate|].
      injection E as <-. contradiction.
    + apply Z.eqb_neq in Hs. split; [|reflexivity]. intros _. right. eauto.
  - simpl. destruct e; simpl; split; try discriminate; try reflexivity.
    + intros _. left. eauto.
    + intros [(st & E)|(r & E & _)]; discriminate.
    + intros [(st & E)|(r & E & _)]; discriminate.
    + intros [(st & E)|(r & E & _)]; discriminate.
    + intros [(st & E)|(r & E & _)]; discriminate.
Qed.

Lemma transient_drugbank_attempt o :
  transient (drugbank_attempt o) = true
  <-> (exists st, o = Raise (RequestException st))
      \/ (exists resp, o = Ok resp
                       /\ (status_code resp <> 200%Z
                           \/ exists st, json resp = Raise (RequestException st))).
Proof.
  unfold drugbank_attempt, rbind. destruct o as [resp|e].
  - destruct (status_code resp =? 200)%Z eqn:Hs; simpl.
    + apply Z.eqb_eq in Hs. destruct (json resp) as [v|e] eqn:J; simpl.
      * split; [discriminate|].
        intros [(st & E)|(r & E & [Hne|(st & Hj)])]; try discriminate.
        -- injection E as <-. contradiction.
        -- injection E as <-. congruence.
      * destruct e; simpl; split; try discriminate; try reflexivity.
        -- intros _. right. exists resp. split; [reflexivity|]. right. eauto.
        -- intros [(st & E)|(r & E & [Hne|(st & Hj)])]; try discriminate;
             injection E as <-; [contradiction|congruence].
        -- intros [(st & E)|(r & E & [Hne|(st & Hj)])]; try discriminate;
             injection E as <-; [contradiction|congruence].
        -- intros [(st & E)|(r & E & [Hne|(st & Hj)])]; try discriminate;
             injection E as <-; [contradiction|congruence].
        -- intros [(st & E)|(r & E & [Hne|(st & Hj)])]; try discriminate;
             injection E as <-; [contradiction|congruence].
    + apply Z.eqb_neq in Hs. split; [|reflexivity]. intros _. right. eauto.
  - simpl. destruct e; simpl; split; try discriminate; try reflexivity.
    + intros _. left. eauto.
    + intros [(st & E)|(r & E & _)]; discriminate.
    + intros [(st & E)|(r & E & _)]; discriminate.
    + intros [(st & E)|(r & E & _)]; discriminate.
    + intros [(st & E)|(r & E & _)]; discriminate.
Qed.

(** C5, amended. A GET of either client is attempted at most three times,
    with a pause of 1s, then 2s (doubling from 1s, capped at 8s) in between.
    An attempt is followed by another exactly when it ended in a
    [RequestException] and was not the third: [requests] raised one, or the
    status was anything but 200 (or, for DrugBank, decoding the body raised
    one).  Any other exception is the outcome at once. *)
Theorem get_retry_policy http :
  (forall url s,
      retried_run http nmpa_attempt {| req_url := url; req_params := [] |} s
                  (NMPAClient_get http url s))
  /\ (forall base path params s,
         retried_run http drugbank_attempt
                     {| req_url := rstrip_char SLASH base ++ u "/"
                                   ++ lstrip_char SLASH path;
                        req_params := params |} s
                     (DrugBankClient_get http base path params s))
  /\ (forall o, transient (nmpa_attempt o) = true
                <-> (exists st, o = Raise (RequestException st))
                    \/ (exists resp, o = Ok resp /\ status_code resp <> 200%Z))
  /\ (forall o, transient (drugbank_attempt o) = true
                <-> (exists st, o = Raise (RequestException st))
                    \/ (exists resp, o = Ok resp
                          /\ (status_code resp <> 200%Z
                              \/ exists st,
                                  json resp = Raise (RequestException st))))
  /\ (forall k, wait_exponential 1 1 8 k = N.min (2 ^ (k - 1)) 8).
Proof.
  split.
  { intros url s. unfold NMPAClient_get.
    apply (@retry3_run _ http nmpa_attempt
                       {| req_url := url; req_params := [] |}
                       (nmpa_get_once http url)).
    intros s0. apply nmpa_get_once_run. }
  split.
  { intros base path params s. unfold DrugBankClient_get.
    apply (@retry3_run _ http drugbank_attempt
                       {| req_url := rstrip_char SLASH base ++ u "/"
                                     ++ lstrip_char SLASH path;
                          req_params := params |}
                       (drugbank_get_once http base path params)).
    intros s0. apply drugbank_get_once_run. }
  split; [exact transient_nmpa_attempt|].
  split; [exact transient_drugbank_attempt|].
  exact wait_exponential_formula.
Qed.

(** C5 as stated fails on the statuses: 204 is a 2xx status, and a server
    that answers 204 is asked three times, after which the client raises. *)
Lemma get_retries_on_204 :
  is_2xx 204 = true
  /\ NMPAClient_get http_204 NMPA_BASE net0
     = (Raise (RequestException (Some 204%Z)),
        {| tick := 3;
           netlog := retry_log {| req_url := NMPA_BASE; req_params := [] |} 3 |}).
Proof. split; vm_compute; reflexivity. Qed.

(** ** What the parser returns *)

Lemma truthy_of_slice text pat :
  truthy (of_opt (slice_section text pat))
  = match slice_section text pat with Some _ => true | None => false end.
Proof.
  destruct (slice_section text pat) as [t|] eqn:H; [|reflexivity].
  apply slice_section_nonempty in H. destruct t; simpl; congruence.
Qed.

Lemma parse_cn_label_text_dict full_text :
  let text := sub_ws full_text in
  parse_cn_label_text full_text
  = [ (K_INDICATIONS, of_opt (slice_section text PAT_INDICATIONS));
      (K_CONTRAINDICATIONS, of_opt (slice_section text PAT_CONTRAINDICATIONS));
      (K_INTERACTIONS, of_opt (slice_section text PAT_INTERACTIONS));
      (K_PREGNANCY,
       VStr (classify_pregnancy (slice_section text PAT_PREGNANCY))) ].
Proof.
  intros text. unfold parse_cn_label_text, SECTION_PATTERNS.
  fold text. cbn [fold_left fst snd last].
  rewrite !truthy_of_slice.
  generalize (classify_pregnancy (slice_section text PAT_PREGNANCY)).
  intros lab.
  destruct (slice_section text PAT_INDICATIONS) as [a|];
    destruct (slice_section text PAT_CONTRAINDICATIONS) as [b|];
    destruct (slice_section text PAT_INTERACTIONS) as [c|];
    destruct (slice_section text PAT_PREGNANCY) as [d|];
    vm_compute; reflexivity.
Qed.

Lemma classify_pregnancy_nonempty o : classify_pregnancy o <> [].
Proof.
  unfold classify_pregnancy.
  destruct (truthy (of_opt o)); [|discriminate].
  destruct o as [t|]; [|discriminate].
  destruct (is_match PROHIBIT_RE t); [discriminate|].
  destruct (is_match CAUTION_RE t); discriminate.
Qed.

Lemma parse_field f full_text :
  dict_get (key_of f) (parse_cn_label_text full_text)
  = match f with
    | Indications =>
      of_opt (slice_section (sub_ws full_text) PAT_INDICATIONS)
    | Contraindications =>
      of_opt (slice_section (sub_ws full_text) PAT_CONTRAINDICATIONS)
    | Interactions =>
      of_opt (slice_section (sub_ws full_text) PAT_INTERACTIONS)
    | Pregnancy =>
      VStr (classify_pregnancy (slice_section (sub_ws full_text) PAT_PREGNANCY))
    end.
Proof.
  rewrite parse_cn_label_text_dict.
  generalize (classify_pregnancy (slice_section (sub_ws full_text) PAT_PREGNANCY)).
  generalize (slice_section (sub_ws full_text) PAT_INDICATIONS).
  generalize (slice_section (sub_ws full_text) PAT_CONTRAINDICATIONS).
  generalize (slice_section (sub_ws full_text) PAT_INTERACTIONS).
  intros a b c d. destruct f; vm_compute; reflexivity.
Qed.

(** Every parsed value is [None] or a non-empty string. *)
Lemma parse_field_shape f full_text :
  dict_get (key_of f) (parse_cn_label_text full_text) = VNone
  \/ exists s, dict_get (key_of f) (parse_cn_label_text full_text) = VStr s
               /\ s <> [].
Proof.
  rewrite parse_field. destruct f.
  - destruct (slice_section _ PAT_INDICATIONS) as [s|] eqn:E; [|left; reflexivity].
    right. exists s. split; [reflexivity|]. eapply slice_section_nonempty, E.
  - destruct (slice_section _ PAT_CONTRAINDICATIONS) as [s|] eqn:E;
      [|left; reflexivity].
    right. exists s. split; [reflexivity|]. eapply slice_section_nonempty, E.
  - destruct (slice_section _ PAT_INTERACTIONS) as [s|] eqn:E;
      [|left; reflexivity].
    right. exists s. split; [reflexivity|]. eapply slice_section_nonempty, E.
  - right. eexists. split; [reflexivity|]. apply classify_pregnancy_nonempty.
Qed.

Lemma truthy_VStr s : truthy (VStr s) = true <-> s <> [].
Proof. destruct s; simpl; split; congruence. Qed.

Lemma parse_pregnancy_truthy full_text :
  truthy (dict_get K_PREGNANCY (parse_cn_label_text full_text)) = true.
Proof.
  rewrite parse_pregnancy. apply truthy_VStr, classify_pregnancy_nonempty.
Qed.

(** ** The steps of the resolver *)

Section Steps.
Variable W : Type.
Variable src : Sources W.
Variable py_str : pyval -> ustr.

Lemma fetch_first_run : forall urls text0 (s : RState W),
  truthy (of_opt text0) = false ->
  exists t s' seg,
    fetch_first src urls text0 s = (Ok t, s')
    /\ trace s' = trace s ++ seg
    /\ Forall (fun ev => exists url x, ev = CallFetch url x) seg
    /\ (truthy (of_opt t) = true -> exists url, In (CallFetch url t) seg)
    /\ (forall url x, In (CallFetch url x) seg ->
                      truthy (of_opt x) = true -> x = t).
Proof.
  induction urls as [|url urls IH]; intros text0 s H0.
  - exists text0, s, []. cbn [fetch_first]. unfold rret.
    rewrite app_nil_r. repeat split; auto.
    + intros Ht. congruence.
    + intros ? ? [].
  - cbn [fetch_first]. unfold rthen, call_fetch.
    destruct (src_fetch_label_text src url (world s)) as [x w].
    destruct (truthy (of_opt x)) eqn:Hx.
    + exists x, {| world := w; trace := trace s ++ [CallFetch url x] |},
        [CallFetch url x].
      unfold rret. cbn [trace]. repeat split; auto.
      * constructor; [eauto|constructor].
      * intros _. exists url. left. reflexivity.
      * intros url' x' [E|[]] _. congruence.
    + destruct (IH x {| world := w; trace := trace s ++ [CallFetch url x] |} Hx)
        as (t & s' & seg & E & Htr & Hall & Hin & Huniq).
      exists t, s', (CallFetch url x :: seg). rewrite E. cbn [trace] in Htr.
      repeat split; auto.
      * rewrite Htr, <- app_assoc. reflexivity.
      * constructor; [eauto|exact Hall].
      * intros Ht. destruct (Hin Ht) as (url' & Hi). exists url'. right. exact Hi.
      * intros url' x' [E'|Hi] Hx'.
        -- injection E' as <- <-. congruence.
        -- eapply Huniq; eauto.
Qed.

(** The Online step: [ot] is the text it parsed, if any. *)
Lemma online_step_run enabled r (s : RState W) :
  exists ot s' seg,
    online_step src enabled r s
    = (Ok (match ot with
           | Some t => set_parsed r (parse_cn_label_text t) LABEL_ONLINE
           | None => r
           end), s')
    /\ trace s' = trace s ++ seg
    /\ Forall (fun ev => is_query ev = false /\ is_scan ev = false) seg
    /\ (forall t, ot = Some t ->
                  truthy (VStr t) = true
                  /\ exists url, In (CallFetch url (Some t)) seg)
    /\ (forall url x, In (CallFetch url (Some x)) seg ->
                      truthy (VStr x) = true -> ot = Some x)
    /\ (enabled = false -> seg = [] /\ s' = s)
    /\ (enabled = true ->
        exists urls rest, seg = CallSearch (name r) urls :: rest).
Proof.
  destruct enabled; cbn [online_step].
  2:{ exists None, s, []. unfold rret. rewrite app_nil_r.
      repeat split; auto; try discriminate. intros ? ? []. }
  unfold rthen at 1. unfold call_search.
  destruct (src_search_label_urls src (name r) (world s)) as [urls w].
  set (s1 := {| world := w; trace := trace s ++ [CallSearch (name r) urls] |}).
  destruct (@fetch_first_run urls None s1 eq_refl)
    as (t & s' & seg & E & Htr & Hall & Hin & Huniq).
  unfold rthen. rewrite E.
  assert (Hseg : trace s' = trace s ++ CallSearch (name r) urls :: seg).
  { rewrite Htr. unfold s1. cbn [trace]. rewrite <- app_assoc. reflexivity. }
  assert (Hkinds : Forall (fun ev => is_query ev = false /\ is_scan ev = false)
                          (CallSearch (name r) urls :: seg)).
  { constructor; [split; reflexivity|].
    eapply Forall_impl; [|exact Hall].
    intros ev (url & x & ->). split; reflexivity. }
  destruct t as [t|].
  - destruct (truthy (VStr t)) eqn:Ht.
    + exists (Some t), s', (CallSearch (name r) urls :: seg). unfold rret.
      repeat split; auto; try discriminate.
      * injection H as <-. exact Ht.
      * injection H as <-. destruct (Hin Ht) as (url & Hi).
        exists url. right. exact Hi.
      * intros url x [E'|Hi] Hx; [discriminate|].
        symmetry. eapply Huniq; eauto.
      * intros _. eauto.
    + exists None, s', (CallSearch (name r) urls :: seg). unfold rret.
      repeat split; auto; try discriminate.
      * intros url x [E'|Hi] Hx; [discriminate|].
        specialize (Huniq url (Some x) Hi Hx). injection Huniq as ->.
        congruence.
      * intros _. eauto.
  - exists None, s', (CallSearch (name r) urls :: seg). unfold rret.
    repeat split; auto; try discriminate.
    + intros url x [E'|Hi] Hx; [discriminate|].
      specialize (Huniq url (Some x) Hi Hx). discriminate.
    + intros _. eauto.
Qed.
End Steps.

Lemma get_field_fill_defaults f r :
  get_field f (fill_defaults r) = default_to UNANNOTATED (get_field f r).
Proof. destruct f; reflexivity. Qed.

Lemma get_field_set_parsed f r p lab :
  get_field f (set_parsed r p lab) = dict_get (key_of f) p.
Proof. destruct f; reflexivity. Qed.

Lemma get_field_fill_gaps f r p :
  get_field f (fill_gaps r p) = por (get_field f r) (dict_get (key_of f) p).
Proof. destruct f; reflexivity. Qed.

Lemma any_field_false r :
  any_field r = false <-> forall f, truthy (get_field f r) = false.
Proof.
  unfold any_field, fields. cbn [existsb]. rewrite orb_false_r. split.
  - intros H f.
    apply orb_false_iff in H. destruct H as [H1 H].
    apply orb_false_iff in H. destruct H as [H2 H].
    apply orb_false_iff in H. destruct H as [H3 H4].
    destruct f; assumption.
  - intros H.
    generalize (H Indications), (H Contraindications), (H Interactions),
      (H Pregnancy).
    cbn [get_field]. intros -> -> -> ->. reflexivity.
Qed.

Lemma all_fields_true r :
  all_fields r = true <-> forall f, truthy (get_field f r) = true.
Proof.
  unfold all_fields, fields. cbn [forallb]. rewrite andb_true_r. split.
  - intros H f.
    apply andb_true_iff in H. destruct H as [H1 H].
    apply andb_true_iff in H. destruct H as [H2 H].
    apply andb_true_iff in H. destruct H as [H3 H4].
    destruct f; assumption.
  - intros H.
    generalize (H Indications), (H Contraindications), (H Interactions),
      (H Pregnancy).
    cbn [get_field]. intros -> -> -> ->. reflexivity.
Qed.

Section StepEquations.
Variable W : Type.
Variable src : Sources W.
Variable py_str : pyval -> ustr.

Lemma drugbank_step_run enabled r (s : RState W) :
  drugbank_step src py_str enabled r s
  = if enabled && negb (all_fields r) then
      let s' := {| world := snd (src_query_by_name src (name r) (world s));
                   trace := trace s
                     ++ [CallQuery (name r)
                           (fst (src_query_by_name src (name r) (world s)))] |} in
      let d := fst (src_query_by_name src (name r) (world s)) in
      if truthy d
      then (rbind (pick_fields py_str d) (fun p => Ok (fill_gaps r p)), s')
      else (Ok r, s')
    else (Ok r, s).
Proof.
  unfold drugbank_step.
  destruct (enabled && negb (all_fields r)); [|reflexivity].
  unfold rthen, call_query.
  destruct (src_query_by_name src (name r) (world s)) as [d w].
  cbn [fst snd]. destruct (truthy d); [|reflexivity].
  unfold rlift. destruct (pick_fields py_str d); reflexivity.
Qed.

Lemma offline_step_run folder r (s : RState W) :
  offline_step src folder r s
  = if negb (any_field r) then
      let t := fst (src_scan_offline_label src (name r) folder (world s)) in
      let s' := {| world := snd (src_scan_offline_label src (name r) folder
                                                       (world s));
                   trace := trace s ++ [CallScan (name r) folder t] |} in
      (rbind t (fun o =>
         Ok (match o with
             | Some x =>
               if truthy (VStr x)
               then set_parsed r (parse_cn_label_text x) LABEL_OFFLINE
               else r
             | None => r
             end)), s')
    else (Ok r, s).
Proof.
  unfold offline_step.
  destruct (negb (any_field r)); [|reflexivity].
  unfold rthen, call_scan.
  destruct (src_scan_offline_label src (name r) folder (world s)) as [t w].
  cbn [fst snd]. destruct t as [[x|]|e]; cbn [rbind]; try reflexivity.
  destruct (truthy (VStr x)); reflexivity.
Qed.

(** C3, amended. The Online step calls the client exactly when the source
    is enabled.  The StructuredAPI step is skipped exactly when the source
    is off or all four fields are non-empty; otherwise the client is
    queried, and a field that was non-empty keeps its value while an empty
    one takes what was picked.  The Offline scanner is invoked exactly when
    none of the four fields is non-empty, and a non-empty text it returns
    then sets all four fields to what the parser reads in it and the
    provenance to the Offline label; without a text the record is left as
    it is, and an exception of the scanner is the outcome of the step. *)
Theorem source_step_guards r (s : RState W) :
  (forall enabled : bool,
      if enabled
      then exists urls rest,
          trace (snd (online_step src enabled r s))
          = trace s ++ CallSearch (name r) urls :: rest
      else online_step src enabled r s = (Ok r, s))
  /\ (forall enabled : bool,
         if enabled && negb (all_fields r)
         then exists d,
             trace (snd (drugbank_step src py_str enabled r s))
             = trace s ++ [CallQuery (name r) d]
             /\ (truthy d = false ->
                 fst (drugbank_step src py_str enabled r s) = Ok r)
             /\ (forall p, truthy d = true -> pick_fields py_str d = Ok p ->
                   exists r',
                     fst (drugbank_step src py_str enabled r s) = Ok r'
                     /\ forall f, get_field f r'
                                  = if truthy (get_field f r)
                                    then get_field f r
                                    else dict_get (key_of f) p)
         else drugbank_step src py_str enabled r s = (Ok r, s))
  /\ (forall folder : option ustr,
         if any_field r
         then offline_step src folder r s = (Ok r, s)
         else exists t,
             trace (snd (offline_step src folder r s))
             = trace s ++ [CallScan (name r) folder t]
             /\ match t with
                | Ok (Some x) =>
                  if truthy (VStr x)
                  then exists r',
                      fst (offline_step src folder r s) = Ok r'
                      /\ (forall f, get_field f r'
                                    = dict_get (key_of f)
                                               (parse_cn_label_text x))
                      /\ source r' = Some LABEL_OFFLINE
                  else fst (offline_step src folder r s) = Ok r
                | Ok None => fst (offline_step src folder r s) = Ok r
                | Raise e => fst (offline_step src folder r s) = Raise e
                end).
Proof.
  split; [|split].
  - intros enabled.
    destruct (online_step_run src enabled r s)
      as (ot & s' & seg & E & Htr & _ & _ & _ & Hoff & Hon).
    destruct enabled.
    + destruct (Hon eq_refl) as (urls & rest & ->).
      exists urls, rest. rewrite E. exact Htr.
    + reflexivity.
  - intros enabled. rewrite drugbank_step_run.
    destruct (enabled && negb (all_fields r)); [|reflexivity].
    cbv zeta.
    exists (fst (src_query_by_name src (name r) (world s))).
    destruct (truthy (fst (src_query_by_name src (name r) (world s)))) eqn:Ht;
      cbn [fst snd trace].
    + split; [reflexivity|]. split; [discriminate|].
      intros p _ Hp. rewrite Hp. cbn [rbind].
      exists (fill_gaps r p). split; [reflexivity|].
      intros f. rewrite get_field_fill_gaps. reflexivity.
    + split; [reflexivity|]. split; [reflexivity|]. discriminate.
  - intros folder. rewrite offline_step_run.
    destruct (any_field r); cbn [negb]; [reflexivity|].
    cbv zeta. cbn [fst snd trace].
    exists (fst (src_scan_offline_label src (name r) folder (world s))).
    split; [reflexivity|].
    destruct (fst (src_scan_offline_label src (name r) folder (world s)))
      as [[x|]|e]; cbn [rbind]; try reflexivity.
    destruct (truthy (VStr x)); [|reflexivity].
    eexists. split; [reflexivity|]. split; [|reflexivity].
    intros f. apply get_field_set_parsed.
Qed.
End StepEquations.

(** ** One record, from what the calls returned *)

Section Runs.
Variable W : Type.
Variable src : Sources W.
Variable py_str : pyval -> ustr.

Lemma offline_tail folder r2 (s2 : RState W) :
  exists sc,
    fst (rthen (offline_step src folder r2)
               (fun r3 => rret (fill_defaults r3)) s2)
    = rbind (after_offline r2 sc) (fun r3 => Ok (fill_defaults r3))
    /\ trace (snd (rthen (offline_step src folder r2)
                         (fun r3 => rret (fill_defaults r3)) s2))
       = trace s2 ++ scan_events (name r2) folder sc
    /\ (sc = None <-> any_field r2 = true)
    /\ (forall t, sc = Some t ->
          exists w, t = fst (src_scan_offline_label src (name r2) folder w)).
Proof.
  unfold rthen. rewrite offline_step_run.
  destruct (any_field r2) eqn:A; cbn [negb].
  - exists None. cbn. rewrite app_nil_r.
    repeat split; auto. discriminate.
  - cbv zeta.
    exists (Some (fst (src_scan_offline_label src (name r2) folder (world s2)))).
    split; [|split; [|split]].
    + destruct (fst (src_scan_offline_label src (name r2) folder (world s2)))
        as [o|e]; reflexivity.
    + destruct (fst (src_scan_offline_label src (name r2) folder (world s2)))
        as [o|e]; reflexivity.
    + split; discriminate.
    + intros t E. injection E as <-. exists (world s2). reflexivity.
Qed.

Lemma name_after_online nm ot : name (after_online nm ot) = nm.
Proof. destruct ot; reflexivity. Qed.

(** The whole loop body: the result and the calls made, from what the
    calls returned. *)
Lemma build_record_run cfg use_db nm (s : RState W) :
  exists ot seg1 qd sc seg,
    trace (snd (build_record src py_str cfg use_db nm s)) = trace s ++ seg
    /\ run_reads src py_str cfg use_db nm
                 (fst (build_record src py_str cfg use_db nm s)) seg
                 ot seg1 qd sc.
Proof.
  destruct (online_step_run src (use_nmpa_online cfg) (new_record nm) s)
    as (ot & s1 & seg1 & E & Htr & Hk & Hot & Huniq & Hoff & _).
  fold (after_online nm ot) in E.
  remember (build_record src py_str cfg use_db nm s) as out eqn:B.
  unfold build_record in B. unfold rthen at 1 in B. rewrite E in B.
  assert (Hoff' : use_nmpa_online cfg = false -> seg1 = [])
    by (intros H; apply Hoff; exact H).
  set (r1 := after_online nm ot) in *.
  assert (Hn1 : name r1 = nm) by apply name_after_online.
  (* the tail after a successful StructuredAPI step *)
  assert (Htail : forall r2 (s2 : RState W) qd,
    name r2 = nm ->
    after_drugbank py_str r1 qd = Ok r2 ->
    trace s2 = trace s ++ seg1 ++ query_events nm qd ->
    (qd = None <-> use_db && negb (all_fields r1) = false) ->
    (forall d, qd = Some d -> exists w, d = fst (src_query_by_name src nm w)) ->
    out = rthen (offline_step src (nmpa_offline_dir cfg) r2)
                (fun r3 => rret (fill_defaults r3)) s2 ->
    exists ot0 seg0 qd0 sc seg,
      trace (snd out) = trace s ++ seg
      /\ run_reads src py_str cfg use_db nm (fst out) seg ot0 seg0 qd0 sc).
  { intros r2 s2 qd Hn2 Hdb Htr2 Hqd Hw ->.
    destruct (offline_tail (nmpa_offline_dir cfg) r2 s2)
      as (sc & Ef & Et & Hsc & Hscw).
    exists ot, seg1, qd, sc,
      (seg1 ++ query_events nm qd ++ scan_events nm (nmpa_offline_dir cfg) sc).
    split.
    { rewrite Et, Htr2, Hn2, <- !app_assoc. reflexivity. }
    unfold run_reads. fold r1. rewrite Ef, Hdb. cbn [rbind].
    split; [reflexivity|]. split; [reflexivity|].
    split; [exact Hk|]. split; [exact Hot|]. split; [exact Huniq|].
    split; [exact Hoff'|]. split; [exact Hqd|]. split; [exact Hw|].
    split.
    - intros t ->. split.
      + destruct (Hscw _ eq_refl) as (w & Ew). rewrite Hn2 in Ew. eauto.
      + exists r2. split; [reflexivity|].
        destruct (any_field r2) eqn:A; [|reflexivity].
        destruct Hsc as [_ Hsc]. specialize (Hsc eq_refl). discriminate.
    - intros -> r2' Er. injection Er as <-. apply Hsc. reflexivity. }
  unfold rthen at 1 in B. rewrite drugbank_step_run in B.
  destruct (use_db && negb (all_fields r1)) eqn:G.
  - cbv zeta in B. rewrite Hn1 in B.
    set (d := fst (src_query_by_name src nm (world s1))) in *.
    set (s2 := {| world := snd (src_query_by_name src nm (world s1));
                  trace := trace s1 ++ [CallQuery nm d] |}) in *.
    assert (Htr2 : trace s2 = trace s ++ seg1 ++ query_events nm (Some d)).
    { unfold s2. cbn [trace query_events]. rewrite Htr, <- app_assoc.
      reflexivity. }
    assert (Hqd : Some d = None <-> true = false)
      by (split; discriminate).
    assert (Hw : forall d0, Some d = Some d0 ->
                            exists w, d0 = fst (src_query_by_name src nm w)).
    { intros d0 E0. injection E0 as <-. exists (world s1). reflexivity. }
    destruct (truthy d) eqn:Hd.
    + destruct (pick_fields py_str d) as [p|e] eqn:Hp; cbn [rbind] in B.
      * apply (Htail (fill_gaps r1 p) s2 (Some d)); auto.
        cbn [after_drugbank]. rewrite Hd, Hp. reflexivity.
      * exists ot, seg1, (Some d), None, (seg1 ++ query_events nm (Some d)).
        subst out. cbn [fst snd]. split; [exact Htr2|].
        unfold run_reads. fold r1.
        cbn [after_drugbank rbind scan_events]. rewrite Hd, Hp.
        cbn [rbind]. rewrite app_nil_r.
        split; [reflexivity|]. split; [reflexivity|].
        split; [exact Hk|]. split; [exact Hot|]. split; [exact Huniq|].
        split; [exact Hoff'|]. split; [rewrite G; exact Hqd|].
        split; [exact Hw|].
        split; [discriminate|]. intros _ r2 Hr. discriminate.
    + apply (Htail r1 s2 (Some d)); auto.
      cbn [after_drugbank]. rewrite Hd. reflexivity.
  - apply (Htail r1 s1 None); auto.
    + cbn [query_events]. rewrite app_nil_r. exact Htr.
    + split; auto.
    + discriminate.
Qed.
End Runs.

(** ** Reading the calls of a run *)

Lemma source_set_parsed r p lab : source (set_parsed r p lab) = Some lab.
Proof. reflexivity. Qed.

Lemma source_fill_defaults r :
  source (fill_defaults r)
  = if truthy (of_opt (source r)) then source r else Some SOURCE_UNKNOWN.
Proof. reflexivity. Qed.

Lemma source_fill_gaps r p :
  source (fill_gaps r p)
  = if truthy (of_opt (source r))
    then option_map (fun s => s ++ u " + " ++ LABEL_DRUGBANK) (source r)
    else Some LABEL_DRUGBANK.
Proof. reflexivity. Qed.

Lemma label_online_truthy : truthy (VStr LABEL_ONLINE) = true.
Proof. vm_compute. reflexivity. Qed.

Lemma label_offline_truthy : truthy (VStr LABEL_OFFLINE) = true.
Proof. vm_compute. reflexivity. Qed.

Lemma label_drugbank_truthy : truthy (VStr LABEL_DRUGBANK) = true.
Proof. vm_compute. reflexivity. Qed.

Lemma label_both_truthy :
  truthy (VStr (LABEL_ONLINE ++ u " + " ++ LABEL_DRUGBANK)) = true.
Proof. vm_compute. reflexivity. Qed.

(** Among the calls of the Online step, only a non-empty fetched text counts,
    and that text is [ot]. *)
Lemma online_segment_existsb (P : event -> bool) (g : ustr -> bool) seg1 ot :
  Forall (fun ev => is_query ev = false /\ is_scan ev = false) seg1 ->
  (forall t, ot = Some t ->
             truthy (VStr t) = true
             /\ exists url, In (CallFetch url (Some t)) seg1) ->
  (forall url x, In (CallFetch url (Some x)) seg1 ->
                 truthy (VStr x) = true -> ot = Some x) ->
  (forall nm urls, P (CallSearch nm urls) = false) ->
  (forall url, P (CallFetch url None) = false) ->
  (forall url x, P (CallFetch url (Some x)) = truthy (VStr x) && g x) ->
  existsb P seg1 = match ot with Some t => g t | None => false end.
Proof.
  intros Hk Hot Huniq Ps Pn Pf.
  destruct (existsb P seg1) eqn:Ex.
  - apply existsb_exists in Ex. destruct Ex as (ev & Hin & Hp).
    rewrite Forall_forall in Hk. destruct (Hk ev Hin) as [Hq Hs].
    destruct ev as [nm urls|url [x|]|nm d|nm folder t]; try discriminate.
    + rewrite Ps in Hp. discriminate.
    + rewrite Pf in Hp. apply andb_true_iff in Hp. destruct Hp as [Hx Hg].
      rewrite (Huniq url x Hin Hx). symmetry. exact Hg.
    + rewrite Pn in Hp. discriminate.
  - destruct ot as [t|]; [|reflexivity].
    destruct (Hot t eq_refl) as (Ht & url & Hin).
    destruct (g t) eqn:Hg; [|reflexivity].
    assert (existsb P seg1 = true).
    { apply existsb_exists. exists (CallFetch url (Some t)).
      split; [exact Hin|]. rewrite Pf, Ht, Hg. reflexivity. }
    congruence.
Qed.

Section Reading.
Variable W : Type.
Variable src : Sources W.
Variable py_str : pyval -> ustr.
Variables (cfg : Config) (use_db : bool) (nm : ustr).
Variables (res : result DrugRecord) (seg : list event).
Variables (ot : option ustr) (seg1 : list event) (qd : option pyval)
          (sc : option (result (option ustr))).
Hypothesis Hrun : run_reads src py_str cfg use_db nm res seg ot seg1 qd sc.

Lemma run_online_result :
  existsb online_result seg
  = match ot with Some _ => true | None => false end.
Proof.
  destruct Hrun as (_ & -> & Hk & Hot & Huniq & _).
  rewrite !existsb_app.
  rewrite (@online_segment_existsb online_result (fun _ => true) seg1 ot
             Hk Hot Huniq); try reflexivity.
  - destruct qd; destruct sc as [[[x|]|e]|]; cbn; rewrite ?orb_false_r;
      reflexivity.
  - intros url x. cbn. rewrite andb_true_r. reflexivity.
Qed.

Lemma run_drugbank_result :
  existsb drugbank_result seg
  = match qd with Some d => truthy d | None => false end.
Proof.
  destruct Hrun as (_ & -> & Hk & Hot & Huniq & _).
  rewrite !existsb_app.
  rewrite (@online_segment_existsb drugbank_result (fun _ => false) seg1 ot
             Hk Hot Huniq); try reflexivity.
  - destruct ot; destruct qd; destruct sc as [[[x|]|e]|]; cbn;
      rewrite ?orb_false_r; reflexivity.
  - intros url x. cbn. rewrite andb_false_r. reflexivity.
Qed.

Lemma run_offline_result :
  existsb offline_result seg
  = match sc with
    | Some (Ok (Some x)) => truthy (VStr x)
    | _ => false
    end.
Proof.
  destruct Hrun as (_ & -> & Hk & Hot & Huniq & _).
  rewrite !existsb_app.
  rewrite (@online_segment_existsb offline_result (fun _ => false) seg1 ot
             Hk Hot Huniq); try reflexivity.
  - destruct ot; destruct qd; destruct sc as [[[x|]|e]|]; cbn;
      rewrite ?orb_false_r; reflexivity.
  - intros url x. cbn. rewrite andb_false_r. reflexivity.
Qed.

Lemma run_yields f :
  existsb (yields py_str f) seg
  = (match ot with Some t => text_yields f t | None => false end)
    || (match qd with Some d => detail_yields py_str f d | None => false end)
    || (match sc with
        | Some (Ok (Some x)) => text_yields f x
        | _ => false
        end).
Proof.
  destruct Hrun as (_ & -> & Hk & Hot & Huniq & _).
  rewrite !existsb_app.
  rewrite (@online_segment_existsb (yields py_str f)
             (fun t => truthy (dict_get (key_of f) (parse_cn_label_text t)))
             seg1 ot Hk Hot Huniq); try reflexivity.
  - rewrite <- orb_assoc. f_equal.
    + destruct ot as [t|]; [|reflexivity].
      destruct (Hot t eq_refl) as [Ht _]. unfold text_yields.
      rewrite Ht. reflexivity.
    + destruct qd; destruct sc as [[[x|]|e]|]; cbn; rewrite ?orb_false_r;
        reflexivity.
Qed.
End Reading.

Section Provenance.
Variable W : Type.
Variable src : Sources W.
Variable py_str : pyval -> ustr.

Lemma run_source cfg use_db nm res seg ot seg1 qd sc r :
  run_reads src py_str cfg use_db nm res seg ot seg1 qd sc ->
  res = Ok r ->
  source r
  = Some (provenance (existsb online_result seg)
                     (existsb drugbank_result seg)
                     (existsb offline_result seg)).
Proof.
  intros Hrun Hres.
  rewrite (run_online_result Hrun), (run_drugbank_result Hrun),
    (run_offline_result Hrun).
  destruct Hrun as (E & _). rewrite Hres in E. clear Hres.
  assert (S1 : source (after_online nm ot)
               = match ot with Some _ => Some LABEL_ONLINE | None => None end)
    by (destruct ot; reflexivity).
  assert (T1 : truthy (of_opt (source (after_online nm ot)))
               = match ot with Some _ => true | None => false end).
  { rewrite S1. destruct ot; [exact label_online_truthy|reflexivity]. }
  (* after the StructuredAPI step *)
  assert (S2 : forall r2,
    after_drugbank py_str (after_online nm ot) qd = Ok r2 ->
    source r2
    = match ot, (match qd with Some d => truthy d | None => false end) with
      | Some _, true => Some (LABEL_ONLINE ++ u " + " ++ LABEL_DRUGBANK)
      | Some _, false => Some LABEL_ONLINE
      | None, true => Some LABEL_DRUGBANK
      | None, false => None
      end).
  { intros r2 H2. unfold after_drugbank in H2.
    destruct qd as [d|].
    - destruct (truthy d) eqn:Hd.
      + destruct (pick_fields py_str d) as [p|e]; [|discriminate].
        cbn [rbind] in H2. injection H2 as <-.
        rewrite source_fill_gaps, T1, S1. destruct ot; reflexivity.
      + injection H2 as <-. rewrite S1. destruct ot; reflexivity.
    - injection H2 as <-. rewrite S1. destruct ot; reflexivity. }
  destruct (after_drugbank py_str (after_online nm ot) qd) as [r2|e2];
    [|discriminate].
  specialize (S2 r2 eq_refl). cbn [rbind] in E.
  assert (T2 : truthy (of_opt (source r2))
               = match ot, (match qd with Some d => truthy d | None => false end)
                 with None, false => false | _, _ => true end).
  { rewrite S2. destruct ot;
      destruct (match qd with Some d => truthy d | None => false end);
      cbn [of_opt]; auto using label_both_truthy, label_online_truthy,
                      label_drugbank_truthy. }
  assert (Hkeep : Ok r = Ok (fill_defaults r2) ->
    source r
    = Some (provenance (match ot with Some _ => true | None => false end)
                       (match qd with Some d => truthy d | None => false end)
                       false)).
  { intros H. injection H as ->. rewrite source_fill_defaults, T2, S2.
    destruct ot;
      destruct (match qd with Some d => truthy d | None => false end);
      reflexivity. }
  destruct sc as [[[x|]|e]|]; cbn [after_offline rbind] in E;
    try discriminate; try (apply Hkeep; exact E).
  destruct (truthy (VStr x)); [|apply Hkeep; exact E].
  injection E as ->.
  rewrite source_fill_defaults, source_set_parsed. cbn [of_opt].
  rewrite label_offline_truthy. reflexivity.
Qed.

(** C4, amended. The provenance names a source exactly when its call
    returned a result the resolver merged (a non-empty label text, a
    non-empty detail whether or not it filled a field), Online before
    StructuredAPI; a non-empty Offline text replaces it by the Offline label
    alone; with no result at all it is the terminal marker. *)
Theorem source_reflects_results cfg use_db nm (s : RState W) r seg :
  fst (build_record src py_str cfg use_db nm s) = Ok r ->
  trace (snd (build_record src py_str cfg use_db nm s)) = trace s ++ seg ->
  source r
  = Some (provenance (existsb online_result seg)
                     (existsb drugbank_result seg)
                     (existsb offline_result seg)).
Proof.
  intros Hres Htr.
  destruct (build_record_run src py_str cfg use_db nm s)
    as (ot & seg1 & qd & sc & seg' & Htr' & Hrun).
  rewrite Htr in Htr'. apply app_inv_head in Htr'. subst seg'.
  exact (run_source Hrun Hres).
Qed.
End Provenance.

(** ** Closed records *)

Lemma truthy_por a b : truthy (por a b) = truthy a || truthy b.
Proof. unfold por. destruct (truthy a) eqn:Ha; [exact Ha|reflexivity]. Qed.

Lemma por_str a b :
  is_str_or_none a -> is_str_or_none b -> is_str_or_none (por a b).
Proof. intros Ha Hb. unfold por. destruct (truthy a); assumption. Qed.

Lemma parse_str f t :
  is_str_or_none (dict_get (key_of f) (parse_cn_label_text t)).
Proof.
  destruct (parse_field_shape f t) as [E|(s & E & _)]; rewrite E.
  - left. reflexivity.
  - right. eauto.
Qed.

Lemma default_to_closed v :
  is_str_or_none v ->
  exists s, default_to UNANNOTATED v = VStr s /\ s <> []
            /\ (truthy v = false -> s = UNANNOTATED).
Proof.
  intros [->|(s & ->)]; unfold default_to.
  - exists UNANNOTATED. cbn. repeat split; auto. discriminate.
  - destruct (truthy (VStr s)) eqn:Ht.
    + exists s. split; [reflexivity|]. split; [|discriminate].
      now apply truthy_VStr.
    + exists UNANNOTATED. repeat split; auto. discriminate.
Qed.

Lemma provenance_nonempty a b c : provenance a b c <> [].
Proof. destruct a, b, c; discriminate. Qed.

Lemma existsb_has_result seg :
  existsb has_result seg
  = existsb online_result seg || existsb drugbank_result seg
    || existsb offline_result seg.
Proof.
  induction seg as [|ev seg IH]; [reflexivity|].
  cbn [existsb]. rewrite IH. unfold has_result.
  destruct (online_result ev), (drugbank_result ev), (offline_result ev),
    (existsb online_result seg), (existsb drugbank_result seg),
    (existsb offline_result seg); reflexivity.
Qed.

Section Closed.
Variable W : Type.
Variable src : Sources W.
Variable py_str : pyval -> ustr.
(** Whatever detail the DrugBank client returns, [pick_fields] returns on
    it and picks strings only; the scanner does not raise. *)
Hypothesis Hpick : forall nm w,
  truthy (fst (src_query_by_name src nm w)) = true ->
  picks_strings py_str (fst (src_query_by_name src nm w)).
Hypothesis Hscan : forall nm folder w,
  exists o, fst (src_scan_offline_label src nm folder w) = Ok o.

Lemma run_closed cfg use_db nm res seg ot seg1 qd sc :
  run_reads src py_str cfg use_db nm res seg ot seg1 qd sc ->
  exists r, res = Ok r /\ record_closed py_str nm r seg.
Proof.
  intros Hrun.
  pose proof (run_yields Hrun) as Hy.
  pose proof (run_online_result Hrun) as Hon.
  pose proof (run_drugbank_result Hrun) as Hdb.
  pose proof (run_offline_result Hrun) as Hof.
  pose proof Hrun as Hrun0.
  destruct Hrun0
    as (E & Eseg & Hk & Hot & Huniq & Hoff & Hqd & Hqw & Hsc & Hscn).
  (* after the Online step *)
  set (r1 := after_online nm ot) in *.
  assert (N1 : name r1 = nm) by (unfold r1; destruct ot; reflexivity).
  assert (F1 : forall f, is_str_or_none (get_field f r1)
                         /\ truthy (get_field f r1)
                            = match ot with
                              | Some t => text_yields f t
                              | None => false
                              end).
  { intros f. unfold r1, after_online. destruct ot as [t|].
    - rewrite get_field_set_parsed. split; [apply parse_str|].
      unfold text_yields. destruct (Hot t eq_refl) as [-> _]. reflexivity.
    - split; [left; destruct f; reflexivity|destruct f; reflexivity]. }
  (* after the StructuredAPI step *)
  assert (D2 : exists r2,
    after_drugbank py_str r1 qd = Ok r2 /\ name r2 = nm
    /\ forall f, is_str_or_none (get_field f r2)
                 /\ truthy (get_field f r2)
                    = (match ot with
                       | Some t => text_yields f t
                       | None => false
                       end)
                      || (match qd with
                          | Some d => detail_yields py_str f d
                          | None => false
                          end)).
  { unfold after_drugbank. destruct qd as [d|].
    - destruct (Hqw d eq_refl) as (w & Ew).
      destruct (truthy d) eqn:Hd.
      + rewrite Ew in Hd. destruct (Hpick _ _ Hd) as (p & Hp & Hstr).
        rewrite <- Ew in Hp, Hd. rewrite Hp. cbn [rbind].
        exists (fill_gaps r1 p). split; [reflexivity|]. split; [exact N1|].
        intros f. rewrite get_field_fill_gaps. split.
        * apply por_str; [apply F1|apply Hstr].
        * rewrite truthy_por. unfold detail_yields. rewrite Hd, Hp.
          destruct (F1 f) as [_ ->]. reflexivity.
      + exists r1. split; [reflexivity|]. split; [exact N1|].
        intros f. unfold detail_yields. rewrite Hd. cbn [andb].
        rewrite orb_false_r. apply F1.
    - exists r1. split; [reflexivity|]. split; [exact N1|].
      intros f. rewrite orb_false_r. apply F1. }
  destruct D2 as (r2 & E2 & N2 & F2). rewrite E2 in E. cbn [rbind] in E.
  (* after the Offline step *)
  assert (D3 : exists r3,
    after_offline r2 sc = Ok r3 /\ name r3 = nm
    /\ forall f, is_str_or_none (get_field f r3)
                 /\ (existsb (yields py_str f) seg = false ->
                     truthy (get_field f r3) = false)).
  { assert (Keep : forall f, is_str_or_none (get_field f r2)
                             /\ (existsb (yields py_str f) seg = false ->
                                 truthy (get_field f r2) = false)).
    { intros f. destruct (F2 f) as [S2 T2]. split; [exact S2|].
      rewrite Hy, T2. intros H. apply orb_false_iff in H. apply H. }
    unfold after_offline. destruct sc as [t|].
    - destruct (Hsc t eq_refl) as [(w & Ew) _].
      destruct (Hscan nm (nmpa_offline_dir cfg) w) as (o & Eo).
      rewrite Eo in Ew. subst t. cbn [rbind].
      destruct o as [x|].
      + destruct (truthy (VStr x)) eqn:Hx.
        * eexists. split; [reflexivity|]. split; [exact N2|].
          intros f. rewrite get_field_set_parsed. split; [apply parse_str|].
          rewrite Hy. intros H. apply orb_false_iff in H.
          destruct H as [_ H]. unfold text_yields in H. rewrite Hx in H.
          exact H.
        * exists r2. split; [reflexivity|]. split; [exact N2|]. exact Keep.
      + exists r2. split; [reflexivity|]. split; [exact N2|]. exact Keep.
    - exists r2. split; [reflexivity|]. split; [exact N2|]. exact Keep. }
  destruct D3 as (r3 & E3 & N3 & F3). rewrite E3 in E. cbn [rbind] in E.
  exists (fill_defaults r3). split; [exact E|].
  split; [exact N3|]. split.
  - intros f. rewrite get_field_fill_defaults.
    destruct (F3 f) as [S3 T3].
    destruct (default_to_closed S3) as (s & Es & Hne & Hs).
    exists s. split; [exact Es|]. split; [exact Hne|].
    intros H. apply Hs, T3, H.
  - pose proof (run_source Hrun E) as Hsrc.
    eexists. split; [exact Hsrc|]. split; [apply provenance_nonempty|].
    rewrite existsb_has_result. intros H.
    apply orb_false_iff in H. destruct H as [H H3].
    apply orb_false_iff in H. destruct H as [H1 H2].
    rewrite H1, H2, H3. reflexivity.
Qed.
End Closed.

(** ** The batch *)

Section Batch.
Variable W : Type.
Variable src : Sources W.
Variable py_str : pyval -> ustr.
Hypothesis Hpick : forall nm w,
  truthy (fst (src_query_by_name src nm w)) = true ->
  picks_strings py_str (fst (src_query_by_name src nm w)).
Hypothesis Hscan : forall nm folder w,
  exists o, fst (src_scan_offline_label src nm folder w) = Ok o.

Lemma build_loop_closed cfg use_db : forall names (s : RState W),
  exists outs,
    fst (build_loop src py_str cfg use_db names s) = Ok (map fst outs)
    /\ trace (snd (build_loop src py_str cfg use_db names s))
       = trace s ++ List.concat (map snd outs)
    /\ Forall2 (fun nm o => record_closed py_str nm (fst o) (snd o))
               names outs.
Proof.
  induction names as [|nm names IH]; intros s.
  - exists []. cbn. rewrite app_nil_r. repeat split; constructor.
  - destruct (build_record_run src py_str cfg use_db nm s)
      as (ot & seg1 & qd & sc & seg & Htr & Hrun).
    destruct (run_closed Hpick Hscan Hrun) as (r & Er & Hr).
    remember (build_loop src py_str cfg use_db (nm :: names) s) as out eqn:B.
    cbn [build_loop] in B. unfold rthen in B.
    destruct (build_record src py_str cfg use_db nm s) as [res s1].
    cbn [fst snd] in Er, Htr. subst res.
    destruct (IH s1) as (outs & Eo & Eto & Ho).
    destruct (build_loop src py_str cfg use_db names s1) as [res2 s2].
    cbn [fst snd] in Eo, Eto. subst res2. unfold rret in B. subst out.
    exists ((r, seg) :: outs). cbn [map fst snd List.concat].
    split; [reflexivity|]. split.
    + rewrite Eto, Htr, <- app_assoc. reflexivity.
    + constructor; [exact Hr|exact Ho].
Qed.

(** C1, amended. Provided [pick_fields] returns on every detail the
    DrugBank client gives and picks strings only, and the scanner does not
    raise, [build_records] returns one record per name, in order; each of
    the four fields is a non-empty string, the sentinel 未标注 when no call
    yielded that field; the provenance is a non-empty string, the terminal
    marker when no call returned a result. *)
Theorem build_records_closed cfg names (s : RState W) :
  exists outs,
    fst (build_records src py_str cfg names s) = Ok (map fst outs)
    /\ trace (snd (build_records src py_str cfg names s))
       = trace s ++ List.concat (map snd outs)
    /\ Forall2 (fun nm o => record_closed py_str nm (fst o) (snd o))
               names outs.
Proof. unfold build_records. apply build_loop_closed. Qed.
End Batch.

Lemma scripted_picks_strings urls page has_key offline :
  forall nm w,
    truthy (fst (src_query_by_name
                   (scripted_sources urls page has_key detail_full offline)
                   nm w)) = true ->
    picks_strings no_str
      (fst (src_query_by_name
              (scripted_sources urls page has_key detail_full offline) nm w)).
Proof.
  intros nm w _. cbn [scripted_sources src_query_by_name fst].
  eexists. split; [vm_compute; reflexivity|].
  intros f. destruct f; vm_compute; [right|left|left|right]; eauto.
Defined.

Lemma scripted_scan_returns urls page has_key detail o :
  forall nm folder w,
    exists o', fst (src_scan_offline_label
                      (scripted_sources urls page has_key detail (Ok o))
                      nm folder w) = Ok o'.
Proof. intros nm folder w. exists o. reflexivity. Defined.

Lemma build_records_closed_witness :
  exists outs,
    fst (build_records (sources_page_and detail_full) no_str cfg_all
                       [DRUG; DRUG] start_state) = Ok (map fst outs)
    /\ trace (snd (build_records (sources_page_and detail_full) no_str cfg_all
                                 [DRUG; DRUG] start_state))
       = trace start_state ++ List.concat (map snd outs)
    /\ Forall2 (fun nm o => record_closed no_str nm (fst o) (snd o))
               [DRUG; DRUG] outs.
Proof.
  exact (@build_records_closed unit (sources_page_and detail_full) no_str
           (@scripted_picks_strings [PAGE_URL] (fun _ => Some label_page)
                                    true (Ok None))
           (@scripted_scan_returns [PAGE_URL] (fun _ => Some label_page)
                                   true detail_full None)
           cfg_all [DRUG; DRUG] start_state).
Defined.

(** C1 as stated fails on the provenance: DrugBank answers with a detail that
    carries none of the fields, no call yields any field, all four fields
    are the sentinel, and yet the provenance is "DrugBank", not the terminal
    marker. *)
Lemma unfilled_record_names_drugbank :
  fst (build_records (sources_drugbank_only detail_no_fields) no_str
                     cfg_no_online [DRUG] start_state)
  = Ok [ {| name := DRUG;
            indications := VStr UNANNOTATED;
            contraindications := VStr UNANNOTATED;
            interactions := VStr UNANNOTATED;
            pregnancy_category := VStr UNANNOTATED;
            source := Some LABEL_DRUGBANK |} ]
  /\ forallb (fun f =>
       negb (existsb (yields no_str f)
               (trace (snd (build_records
                              (sources_drugbank_only detail_no_fields) no_str
                              cfg_no_online [DRUG] start_state)))))
             all_four = true
  /\ LABEL_DRUGBANK <> SOURCE_UNKNOWN.
Proof.
  split; [vm_compute; reflexivity|]. split; [vm_compute; reflexivity|].
  intros H. vm_compute in H. discriminate H.
Qed.

(** ** Priority *)

Section RunFacts.
Variable W : Type.
Variable src : Sources W.
Variable py_str : pyval -> ustr.

(** A non-empty fetched text among the calls of a run is the text the
    Online step parsed. *)
Lemma run_fetch_is_online cfg use_db nm res seg ot seg1 qd sc url t :
  run_reads src py_str cfg use_db nm res seg ot seg1 qd sc ->
  In (CallFetch url (Some t)) seg -> truthy (VStr t) = true ->
  ot = Some t.
Proof.
  intros (_ & Eseg & _ & _ & Huniq & _) Hin Ht.
  rewrite Eseg in Hin. apply in_app_or in Hin. destruct Hin as [Hin|Hin].
  - exact (Huniq url t Hin Ht).
  - exfalso. apply in_app_or in Hin. destruct Hin as [Hin|Hin].
    + destruct qd; [destruct Hin as [Hin|[]]; discriminate|destruct Hin].
    + destruct sc; [destruct Hin as [Hin|[]]; discriminate|destruct Hin].
Qed.

Lemma existsb_false_forall (A : Type) (P : A -> bool) l :
  Forall (fun x => P x = false) l -> existsb P l = false.
Proof.
  induction 1 as [|x l Hx _ IH]; [reflexivity|].
  cbn [existsb]. rewrite Hx, IH. reflexivity.
Qed.

(** From the record the StructuredAPI step leaves with a non-empty field
    on: the scanner is not asked and the field is final. *)
Lemma run_keeps_field cfg use_db nm res seg ot seg1 qd sc r2 f c :
  run_reads src py_str cfg use_db nm res seg ot seg1 qd sc ->
  after_drugbank py_str (after_online nm ot) qd = Ok r2 ->
  get_field f r2 = c -> truthy c = true ->
  exists r, res = Ok r /\ get_field f r = c /\ existsb is_scan seg = false.
Proof.
  intros (E & Eseg & Hk & _ & _ & _ & _ & _ & Hsc & _) E2 F2 Hc.
  assert (Esc : sc = None).
  { destruct sc as [x|]; [|reflexivity]. exfalso.
    destruct (Hsc x eq_refl) as [_ (r2' & E2' & A)].
    rewrite E2 in E2'. injection E2' as <-.
    rewrite any_field_false in A. specialize (A f).
    rewrite F2, Hc in A. discriminate. }
  subst sc. rewrite E2 in E. cbn [after_offline rbind] in E.
  exists (fill_defaults r2). split; [exact E|]. split.
  - rewrite get_field_fill_defaults, F2. unfold default_to. rewrite Hc.
    reflexivity.
  - rewrite Eseg, !existsb_app. cbn [scan_events existsb].
    rewrite (@existsb_false_forall _ is_scan seg1).
    + destruct qd; reflexivity.
    + eapply Forall_impl; [|exact Hk]. intros ev [_ Hs]. exact Hs.
Qed.

(** The detail of a query among the calls of a run is the one the
    StructuredAPI step read. *)
Lemma run_query_is_read cfg use_db nm res seg ot seg1 qd sc d :
  run_reads src py_str cfg use_db nm res seg ot seg1 qd sc ->
  In (CallQuery nm d) seg -> qd = Some d.
Proof.
  intros (_ & Eseg & Hk & _) Hin.
  rewrite Eseg in Hin. apply in_app_or in Hin. destruct Hin as [Hin|Hin].
  - exfalso. rewrite Forall_forall in Hk. destruct (Hk _ Hin) as [Hq _].
    discriminate.
  - apply in_app_or in Hin. destruct Hin as [Hin|Hin].
    + destruct qd as [d'|]; [|destruct Hin].
      destruct Hin as [Hin|[]]. injection Hin as ->. reflexivity.
    + exfalso. destruct sc; [destruct Hin as [Hin|[]]; discriminate|].
      destruct Hin.
Qed.
End RunFacts.

Section Priority.
Variable W : Type.
Variable src : Sources W.
Variable py_str : pyval -> ustr.

(** C2. First non-empty wins, in the order Online, StructuredAPI, Offline,
    for every field [f] and non-empty content [c], [pick_fields] returning
    on the detail queried.  When the label text the Online step fetched
    gives [f] the content [c], the record is returned with [c] in [f],
    whatever the DrugBank detail holds for it.  When no fetched text gives
    [f] a content and the DrugBank detail gives it [c], the record is
    returned with [c] in [f].  In both cases the Offline scanner is not
    asked, so nothing it could have read replaces the content. *)
Theorem first_non_empty_wins cfg use_db nm (s : RState W) seg f c :
  trace (snd (build_record src py_str cfg use_db nm s)) = trace s ++ seg ->
  (forall d, In (CallQuery nm d) seg -> truthy d = true ->
             exists p, pick_fields py_str d = Ok p) ->
  truthy c = true ->
  ((exists url t,
       In (CallFetch url (Some t)) seg /\ truthy (VStr t) = true
       /\ dict_get (key_of f) (parse_cn_label_text t) = c) ->
   exists r, fst (build_record src py_str cfg use_db nm s) = Ok r
             /\ get_field f r = c
             /\ existsb is_scan seg = false)
  /\ ((forall url t, In (CallFetch url (Some t)) seg ->
                     text_yields f t = false) ->
      (exists d p,
          In (CallQuery nm d) seg /\ truthy d = true
          /\ pick_fields py_str d = Ok p
          /\ dict_get (key_of f) p = c) ->
      exists r, fst (build_record src py_str cfg use_db nm s) = Ok r
                /\ get_field f r = c
                /\ existsb is_scan seg = false).
Proof.
  intros Htr Hpick Hc.
  destruct (build_record_run src py_str cfg use_db nm s)
    as (ot & seg1 & qd & sc & seg' & Htr' & Hrun).
  rewrite Htr in Htr'. apply app_inv_head in Htr'. subst seg'.
  pose proof Hrun as Hrun0.
  destruct Hrun0 as (_ & Eseg & _ & Hot & _).
  set (r1 := after_online nm ot) in *.
  (* the StructuredAPI step returns, and keeps a non-empty field *)
  assert (D2 : exists r2, after_drugbank py_str r1 qd = Ok r2
                 /\ (truthy (get_field f r1) = true ->
                     get_field f r2 = get_field f r1)
                 /\ (truthy (get_field f r1) = false ->
                     forall d p, qd = Some d -> truthy d = true ->
                                 pick_fields py_str d = Ok p ->
                                 get_field f r2 = dict_get (key_of f) p)).
  { unfold after_drugbank. destruct qd as [d|].
    - destruct (truthy d) eqn:Hd.
      + destruct (Hpick d) as (p & Hp); [|exact Hd|].
        { rewrite Eseg. apply in_or_app. right.
          apply in_or_app. left. left. reflexivity. }
        rewrite Hp. cbn [rbind]. exists (fill_gaps r1 p).
        split; [reflexivity|]. rewrite get_field_fill_gaps. unfold por.
        split; intros H1; rewrite H1; [reflexivity|].
        intros d0 p0 Ed _ Hp0. injection Ed as <-.
        rewrite Hp in Hp0. injection Hp0 as <-. reflexivity.
      + exists r1. split; [reflexivity|]. split; [reflexivity|].
        intros _ d0 p0 Ed Hd0. injection Ed as <-. congruence.
    - exists r1. split; [reflexivity|]. split; [reflexivity|].
      intros _ d0 p0 Ed. discriminate. }
  destruct D2 as (r2 & E2 & Keep & Fill).
  split.
  - (* Online content *)
    intros (url & t & Hin & Ht & Hf).
    pose proof (@run_fetch_is_online W src py_str cfg use_db nm _ seg ot seg1 qd
                sc url t Hrun Hin Ht) as Eot.
    assert (F1 : get_field f r1 = c).
    { unfold r1. rewrite Eot. unfold after_online.
      rewrite get_field_set_parsed. exact Hf. }
    apply (@run_keeps_field W src py_str cfg use_db nm _ seg ot seg1 qd sc r2
             f c Hrun E2); [|exact Hc].
    rewrite Keep; [exact F1|]. rewrite F1. exact Hc.
  - (* StructuredAPI content, the Online step having left a gap *)
    intros Hno (d & p & Hin & Hd & Hp & Hf).
    pose proof (@run_query_is_read W src py_str cfg use_db nm _ seg ot seg1 qd
                sc d Hrun Hin) as Eqd.
    assert (F1 : truthy (get_field f r1) = false).
    { unfold r1, after_online. destruct ot as [t|].
      - destruct (Hot t eq_refl) as (Ht & url & Hu).
        rewrite get_field_set_parsed.
        assert (Hin1 : In (CallFetch url (Some t)) seg).
        { rewrite Eseg. apply in_or_app. left. exact Hu. }
        specialize (Hno url t Hin1). unfold text_yields in Hno.
        rewrite Ht in Hno. exact Hno.
      - destruct f; reflexivity. }
    apply (@run_keeps_field W src py_str cfg use_db nm _ seg ot seg1 qd sc r2
             f c Hrun E2); [|exact Hc].
    rewrite (Fill F1 d p Eqd Hd Hp). exact Hf.
Qed.
End Priority.

Lemma first_non_empty_wins_witness :
  (exists r,
      fst (build_record (sources_page_and detail_full) no_str cfg_all true
                        DRUG start_state) = Ok r
      /\ get_field Indications r = VStr (u "高血压。")
      /\ existsb is_scan
           [CallSearch DRUG [PAGE_URL]; CallFetch PAGE_URL (Some label_page);
            CallQuery DRUG detail_full] = false)
  /\ (exists r,
         fst (build_record (shipped_with_folder detail_full) no_str cfg_all
                           true DRUG net_start) = Ok r
         /\ get_field Indications r = VStr (u "Hypertension")
         /\ existsb is_scan [CallSearch DRUG []; CallQuery DRUG detail_full]
            = false)
  /\ (fst (src_scan_offline_label (shipped_with_folder detail_full) DRUG
                                  (Some LABEL_DIR) net0)
      = Ok (Some full_label_page)
      /\ dict_get K_INDICATIONS (parse_cn_label_text full_label_page)
         = VStr (u "高血压。")).
Proof.
  split; [|split; [|split; vm_compute; reflexivity]].
  - refine (proj1 (@first_non_empty_wins unit (sources_page_and detail_full)
                     no_str cfg_all true DRUG start_state
                     [CallSearch DRUG [PAGE_URL];
                      CallFetch PAGE_URL (Some label_page);
                      CallQuery DRUG detail_full]
                     Indications (VStr (u "高血压。")) _ _ _) _).
    + vm_compute. reflexivity.
    + intros d [H|[H|[H|[]]]] _; try discriminate H.
      injection H as <-. eexists. vm_compute. reflexivity.
    + vm_compute. reflexivity.
    + exists PAGE_URL, label_page.
      split; [right; left; reflexivity|]. split; vm_compute; reflexivity.
  - refine (proj2 (@first_non_empty_wins Net (shipped_with_folder detail_full)
                     no_str cfg_all true DRUG net_start
                     [CallSearch DRUG []; CallQuery DRUG detail_full]
                     Indications (VStr (u "Hypertension")) _ _ _) _ _).
    + vm_compute. reflexivity.
    + intros d [H|[H|[]]] _; try discriminate H.
      injection H as <-. eexists. vm_compute. reflexivity.
    + vm_compute. reflexivity.
    + intros url t [H|[H|[]]]; discriminate H.
    + exists detail_full. eexists.
      split; [right; left; reflexivity|].
      split; [vm_compute; reflexivity|]. split; vm_compute; reflexivity.
Defined.

Lemma source_reflects_results_witness :
  source {| name := DRUG;
            indications := VStr (u "高血压。");
            contraindications := VStr UNANNOTATED;
            interactions := VStr UNANNOTATED;
            pregnancy_category := VStr UNANNOTATED;
            source := Some (LABEL_ONLINE ++ u " + " ++ LABEL_DRUGBANK) |}
  = Some (provenance
            (existsb online_result
               [CallSearch DRUG [PAGE_URL];
                CallFetch PAGE_URL (Some label_page);
                CallQuery DRUG detail_full])
            (existsb drugbank_result
               [CallSearch DRUG [PAGE_URL];
                CallFetch PAGE_URL (Some label_page);
                CallQuery DRUG detail_full])
            (existsb offline_result
               [CallSearch DRUG [PAGE_URL];
                CallFetch PAGE_URL (Some label_page);
                CallQuery DRUG detail_full])).
Proof.
  apply (@source_reflects_results unit (sources_page_and detail_full) no_str
           cfg_all true DRUG start_state).
  - vm_compute. reflexivity.
  - vm_compute. reflexivity.
Defined.

(** ** Where the claims and the code part *)

(** C3 as stated fails: after the StructuredAPI step three fields are still
    empty, and the Offline step returns the record as it is without calling
    the scanner, although the folder holds a label. *)
Lemma offline_not_invoked_with_gaps :
  fst (drugbank_step (sources_drugbank_and_folder detail_indication_only)
                     no_str true (new_record DRUG) start_state)
  = Ok gap_record
  /\ all_fields gap_record = false
  /\ forall s,
      offline_step (sources_drugbank_and_folder detail_indication_only)
                   (Some LABEL_DIR) gap_record s
      = (Ok gap_record, s).
Proof.
  split; [vm_compute; reflexivity|].
  split; [vm_compute; reflexivity|]. intros s.
  rewrite offline_step_run.
  assert (A : any_field gap_record = true) by (vm_compute; reflexivity).
  rewrite A. reflexivity.
Qed.

(** C4 as stated fails: the DrugBank detail carries none of the fields and
    fills nothing, and its label is in the provenance all the same, after an
    Online text and also, with the shipped clients, on its own. *)
Lemma drugbank_label_without_contribution :
  forallb (fun f => negb (detail_yields no_str f detail_no_fields)) all_four
  = true
  /\ option_map source
       (match fst (build_record (sources_page_and detail_no_fields) no_str
                                cfg_all true DRUG start_state) with
        | Ok r => Some r
        | Raise _ => None
        end)
     = Some (Some (LABEL_ONLINE ++ u " + " ++ LABEL_DRUGBANK))
  /\ option_map source
       (match fst (build_record (shipped_against detail_no_fields) no_str
                                cfg_all true DRUG net_start) with
        | Ok r => Some r
        | Raise _ => None
        end)
     = Some (Some LABEL_DRUGBANK).
Proof. split; [|split]; vm_compute; reflexivity. Qed.

(** C6 fails on the code: [pick_fields] runs outside the clients' handlers.
    Against a server whose detail lists interactions as strings, the shipped
    clients return the detail and [build_records] raises [AttributeError];
    no record is emitted. *)
Lemma build_records_raises_on_string_interactions :
  fst (query_by_name (http_json detail_string_interactions) no_str
                     (u "https://api.drugbank.com/v1") DRUG net0)
  = detail_string_interactions
  /\ fst (build_records (shipped_against detail_string_interactions) no_str
                        cfg_no_online [DRUG; DRUG] net_start)
     = Raise AttributeError.
Proof. split; vm_compute; reflexivity. Qed.

(* ------------------------------------------------------------------ *)
(** * Further properties of the module *)

(** ** The fallback chain *)

Section Chain.
Variable W : Type.
Variable src : Sources W.
Variable py_str : pyval -> ustr.

(** X1. Short-circuit: when the label text fetched by the Online step yields
    all four fields, neither the DrugBank client nor the offline scanner
    is called for that record. *)
Theorem complete_online_record_short_circuits
        cfg use_db nm (s : RState W) seg url t :
  trace (snd (build_record src py_str cfg use_db nm s)) = trace s ++ seg ->
  In (CallFetch url (Some t)) seg ->
  truthy (VStr t) = true ->
  (forall f, text_yields f t = true) ->
  existsb is_query seg = false /\ existsb is_scan seg = false.
Proof.
  intros Htr Hin Ht Hall.
  destruct (build_record_run src py_str cfg use_db nm s)
    as (ot & seg1 & qd & sc & seg' & Htr' & Hrun).
  rewrite Htr in Htr'. apply app_inv_head in Htr'. subst seg'.
  pose proof (@run_fetch_is_online W src py_str cfg use_db nm _ seg ot seg1 qd
                sc url t
                Hrun Hin Ht) as Eot.
  subst ot.
  destruct Hrun as (E & Eseg & Hk & Hot & Huniq & Hoff & Hqd & Hqw & Hsc & Hscn).
  assert (F1 : forall f, truthy (get_field f (after_online nm (Some t))) = true).
  { intros f. unfold after_online. rewrite get_field_set_parsed.
    specialize (Hall f). unfold text_yields in Hall.
    apply andb_true_iff in Hall. apply Hall. }
  assert (Eqd : qd = None).
  { apply Hqd. apply all_fields_true in F1. rewrite F1.
    apply andb_false_r. }
  subst qd.
  assert (Esc : sc = None).
  { destruct sc as [x|]; [|reflexivity]. exfalso.
    destruct (Hsc x eq_refl) as [_ (r2 & E2 & A)].
    cbn [after_drugbank] in E2. injection E2 as <-.
    rewrite any_field_false in A. specialize (A Indications).
    rewrite F1 in A. discriminate. }
  subst sc. rewrite Eseg. cbn [query_events scan_events].
  rewrite !app_nil_r.
  split; apply existsb_false_forall; eapply Forall_impl; try exact Hk;
    intros ev [Hq Hs]; assumption.
Qed.

(** X2. Monotonic completion: a field that is non-empty before the DrugBank
    step has the same value in the closed record; no later step clears or
    replaces it. *)
Theorem filled_field_is_kept enabled folder r (s : RState W) f r' :
  truthy (get_field f r) = true ->
  fst (rthen (drugbank_step src py_str enabled r) (fun r2 =>
       rthen (offline_step src folder r2) (fun r3 =>
       rret (fill_defaults r3))) s) = Ok r' ->
  get_field f r' = get_field f r.
Proof.
  intros Hf. unfold rthen at 1. rewrite drugbank_step_run.
  assert (Tail : forall r2 (s2 : RState W),
    get_field f r2 = get_field f r ->
    fst (rthen (offline_step src folder r2)
               (fun r3 => rret (fill_defaults r3)) s2) = Ok r' ->
    get_field f r' = get_field f r).
  { intros r2 s2 E2. unfold rthen. rewrite offline_step_run.
    assert (A : any_field r2 = true).
    { destruct (any_field r2) eqn:A; [reflexivity|].
      rewrite any_field_false in A. specialize (A f).
      rewrite E2, Hf in A. discriminate. }
    rewrite A. cbn [negb fst rret]. intros H. injection H as <-.
    rewrite get_field_fill_defaults, E2. unfold default_to.
    rewrite Hf. reflexivity. }
  destruct (enabled && negb (all_fields r)); [|apply Tail; reflexivity].
  cbv zeta.
  destruct (truthy (fst (src_query_by_name src (name r) (world s))));
    [|apply Tail; reflexivity].
  destruct (pick_fields py_str (fst (src_query_by_name src (name r) (world s))))
    as [p|e]; cbn [rbind]; [|discriminate].
  apply Tail. rewrite get_field_fill_gaps. unfold por. rewrite Hf.
  reflexivity.
Qed.

(** The calls of a whole batch, whatever its outcome. *)
Lemma build_loop_calls cfg use_db (P : event -> bool) :
  (forall nm s, exists seg,
      trace (snd (build_record src py_str cfg use_db nm s)) = trace s ++ seg
      /\ existsb P seg = false) ->
  forall names (s : RState W),
  exists seg,
    trace (snd (build_loop src py_str cfg use_db names s)) = trace s ++ seg
    /\ existsb P seg = false.
Proof.
  intros Hone. induction names as [|nm names IH]; intros s.
  - exists []. cbn. rewrite app_nil_r. split; reflexivity.
  - destruct (Hone nm s) as (seg & Htr & Hp).
    remember (build_loop src py_str cfg use_db (nm :: names) s) as out eqn:B.
    cbn [build_loop] in B. unfold rthen in B.
    destruct (build_record src py_str cfg use_db nm s) as [res s1].
    cbn [snd] in Htr.
    destruct res as [r|e].
    + destruct (IH s1) as (seg2 & Htr2 & Hp2).
      destruct (build_loop src py_str cfg use_db names s1) as [res2 s2].
      cbn [snd] in Htr2.
      exists (seg ++ seg2). split.
      * destruct res2; subst out; cbn [snd rret];
          rewrite Htr2, Htr, <- app_assoc; reflexivity.
      * rewrite existsb_app, Hp, Hp2. reflexivity.
    + exists seg. subst out. cbn [snd]. split; [exact Htr|exact Hp].
Qed.

(** X3. Without a usable API key the DrugBank client is never queried, for any
    name of the batch, whatever [use_drugbank] says. *)
Theorem no_api_key_no_query cfg names (s : RState W) :
  src_available src = false ->
  exists seg,
    trace (snd (build_records src py_str cfg names s)) = trace s ++ seg
    /\ existsb is_query seg = false.
Proof.
  intros Hav. unfold build_records. rewrite Hav, andb_false_r.
  apply build_loop_calls. intros nm s0.
  destruct (build_record_run src py_str cfg false nm s0)
    as (ot & seg1 & qd & sc & seg & Htr & Hrun).
  exists seg. split; [exact Htr|].
  destruct Hrun as (_ & Eseg & Hk & _ & _ & _ & Hqd & _).
  assert (Eqd : qd = None) by (apply Hqd; reflexivity).
  subst qd. rewrite Eseg, !existsb_app. cbn [query_events existsb].
  rewrite (@existsb_false_forall _ is_query seg1).
  - destruct sc; reflexivity.
  - eapply Forall_impl; [|exact Hk]. intros ev [Hq _]. exact Hq.
Qed.
End Chain.

Lemma complete_online_record_short_circuits_witness :
  existsb is_query [CallSearch DRUG [PAGE_URL];
                    CallFetch PAGE_URL (Some full_label_page)] = false
  /\ existsb is_scan [CallSearch DRUG [PAGE_URL];
                      CallFetch PAGE_URL (Some full_label_page)] = false.
Proof.
  apply (@complete_online_record_short_circuits unit
           (scripted_sources [PAGE_URL] (fun _ => Some full_label_page) true
                             detail_full (Ok (Some offline_label)))
           no_str cfg_all true DRUG start_state
           [CallSearch DRUG [PAGE_URL];
            CallFetch PAGE_URL (Some full_label_page)]
           PAGE_URL full_label_page).
  - vm_compute. reflexivity.
  - right. left. reflexivity.
  - vm_compute. reflexivity.
  - intros f. destruct f; vm_compute; reflexivity.
Defined.

Lemma filled_field_is_kept_witness :
  get_field Indications
    {| name := DRUG;
       indications := VStr (u "Hypertension");
       contraindications := VStr UNANNOTATED;
       interactions := VStr UNANNOTATED;
       pregnancy_category := VStr (u "C");
       source := Some (LABEL_DRUGBANK ++ u " + " ++ LABEL_DRUGBANK) |}
  = get_field Indications gap_record.
Proof.
  apply (@filled_field_is_kept unit
           (sources_drugbank_and_folder detail_full) no_str true
           (Some LABEL_DIR) gap_record start_state Indications).
  - vm_compute. reflexivity.
  - vm_compute. reflexivity.
Defined.

Lemma no_api_key_no_query_witness :
  exists seg,
    trace (snd (build_records
                  (scripted_sources [] (fun _ => None) false detail_full
                                    (Ok None))
                  no_str cfg_all [DRUG; DRUG] start_state))
    = trace start_state ++ seg
    /\ existsb is_query seg = false.
Proof.
  apply (@no_api_key_no_query unit
           (scripted_sources [] (fun _ => None) false detail_full (Ok None))
           no_str cfg_all [DRUG; DRUG] start_state).
  reflexivity.
Defined.

(** ** The shipped clients *)

Lemma search_label_urls_nil http nm s : fst (search_label_urls http nm s) = [].
Proof.
  unfold search_label_urls.
  destruct ((_ <- NMPAClient_get http (NMPA_BASE ++ u "home-index.html") ;;
             sleep_rate) s) as [[x|e] s']; reflexivity.
Qed.

Section NoUrls.
Variable W : Type.
Variable src : Sources W.
Variable py_str : pyval -> ustr.
Hypothesis Hurls : forall nm w, fst (src_search_label_urls src nm w) = [].

Lemma online_step_no_urls enabled r (s : RState W) :
  online_step src enabled r s
  = (Ok r,
     if enabled
     then {| world := snd (src_search_label_urls src (name r) (world s));
             trace := trace s ++ [CallSearch (name r) []] |}
     else s).
Proof.
  destruct enabled; [|reflexivity].
  cbn [online_step]. unfold rthen, call_search.
  pose proof (Hurls (name r) (world s)) as H.
  destruct (src_search_label_urls src (name r) (world s)) as [urls w].
  cbn [fst snd] in H |- *. subst urls. reflexivity.
Qed.

(** With a search that finds nothing, the loop body is the DrugBank step
    and the Offline step on an empty record. *)
Lemma build_record_no_urls cfg use_db nm (s : RState W) :
  build_record src py_str cfg use_db nm s
  = rthen (drugbank_step src py_str use_db (new_record nm)) (fun r2 =>
    rthen (offline_step src (nmpa_offline_dir cfg) r2) (fun r3 =>
    rret (fill_defaults r3)))
      (if use_nmpa_online cfg
       then {| world := snd (src_search_label_urls src nm (world s));
               trace := trace s ++ [CallSearch nm []] |}
       else s).
Proof.
  unfold build_record. unfold rthen at 1.
  rewrite online_step_no_urls. reflexivity.
Qed.


(** A cost [mu] of the world that each call raises by a bounded amount. *)
Variable mu : W -> nat.
Variables a c : nat.
Hypothesis Hsearch : forall nm w,
  (mu (snd (src_search_label_urls src nm w)) <= mu w + a)%nat.
Hypothesis Hquery : forall nm w,
  (mu (snd (src_query_by_name src nm w)) <= mu w + c)%nat.
Hypothesis Hscan0 : forall nm folder w,
  snd (src_scan_offline_label src nm folder w) = w.

Lemma offline_tail_cost folder r2 (s2 : RState W) :
  world (snd (rthen (offline_step src folder r2)
                    (fun r3 => rret (fill_defaults r3)) s2)) = world s2.
Proof.
  unfold rthen. rewrite offline_step_run.
  destruct (negb (any_field r2)); [|reflexivity].
  cbv zeta.
  destruct (fst (src_scan_offline_label src (name r2) folder (world s2)))
    as [o|e]; cbn [rbind snd world rret]; apply Hscan0.
Qed.

Lemma build_record_cost cfg use_db nm (s : RState W) :
  (mu (world (snd (build_record src py_str cfg use_db nm s)))
   <= mu (world s) + (a + c))%nat.
Proof.
  rewrite build_record_no_urls.
  set (s1 := if use_nmpa_online cfg
             then {| world := snd (src_search_label_urls src nm (world s));
                     trace := trace s ++ [CallSearch nm []] |}
             else s).
  assert (H1 : (mu (world s1) <= mu (world s) + a)%nat).
  { unfold s1. destruct (use_nmpa_online cfg); cbn [world];
      [apply Hsearch|lia]. }
  unfold rthen at 1. rewrite drugbank_step_run.
  destruct (use_db && negb (all_fields (new_record nm))).
  - cbv zeta.
    pose proof (Hquery (name (new_record nm)) (world s1)) as H2.
    destruct (truthy (fst (src_query_by_name src (name (new_record nm))
                                             (world s1)))).
    + destruct (pick_fields py_str
                  (fst (src_query_by_name src (name (new_record nm))
                                          (world s1)))) as [p|e];
        cbn [rbind].
      * rewrite offline_tail_cost. cbn [world]. lia.
      * cbn [snd world]. lia.
    + rewrite offline_tail_cost. cbn [world]. lia.
  - rewrite offline_tail_cost. lia.
Qed.

Lemma build_loop_cost cfg use_db : forall names (s : RState W),
  (mu (world (snd (build_loop src py_str cfg use_db names s)))
   <= mu (world s) + (a + c) * List.length names)%nat.
Proof.
  induction names as [|nm names IH]; intros s.
  - cbn. lia.
  - cbn [build_loop List.length]. unfold rthen at 1.
    pose proof (build_record_cost cfg use_db nm s) as H1.
    destruct (build_record src py_str cfg use_db nm s) as [[r|e] s1];
      cbn [snd] in H1 |- *; [|lia].
    unfold rthen. specialize (IH s1).
    destruct (build_loop src py_str cfg use_db names s1) as [[rs|e] s2];
      cbn [snd rret] in IH |- *; lia.
Qed.
End NoUrls.

Lemma backoff_seconds_app l l' :
  backoff_seconds (l ++ l') = backoff_seconds l + backoff_seconds l'.
Proof.
  induction l as [|ev l IH]; [reflexivity|].
  destruct ev; cbn [app backoff_seconds]; rewrite IH; lia.
Qed.

Lemma net_within_refl s : net_within 0 s s.
Proof. unfold net_within. split; lia. Qed.

Lemma net_within_trans j k s1 s2 s3 :
  net_within j s1 s2 -> net_within k s2 s3 -> net_within (j + k) s1 s3.
Proof. unfold net_within. intros [A B] [C D]. split; lia. Qed.

Lemma net_within_weaken j k s s' :
  (j <= k)%nat -> net_within j s s' -> net_within k s s'.
Proof. unfold net_within. intros H [A B]. split; lia. Qed.

Lemma retried_run_within A http (f : result Response -> result A) req s out :
  retried_run http f req s out -> net_within 1 s (snd out).
Proof.
  intros (n & Hn & _ & Ht & Hl & _). unfold net_within. rewrite Ht, Hl.
  rewrite backoff_seconds_app. split; [lia|].
  assert (backoff_seconds (retry_log req n) <= 3).
  { destruct n as [|[|[|n]]]; cbn; lia. }
  lia.
Qed.

Lemma net_log_sleep_within s : net_within 0 s (net_log NSleepRate s).
Proof.
  unfold net_within, net_log. cbn [tick netlog].
  rewrite backoff_seconds_app. cbn. split; lia.
Qed.

Section ShippedClients.
Variable http : nat -> request -> result Response.
Variable chardet_probe : list byte -> option encoding.
Variable codec_decode : ustr -> list byte -> result ustr.
Variable py_str : pyval -> ustr.
Variable soup_article_text : ustr -> result ustr.
Variable drugbank_base : ustr.

Lemma NMPAClient_get_within url s :
  net_within 1 s (snd (NMPAClient_get http url s)).
Proof.
  eapply retried_run_within. unfold NMPAClient_get.
  apply (@retry3_run _ http nmpa_attempt
                     {| req_url := url; req_params := [] |}
                     (nmpa_get_once http url)).
  intros s0. apply nmpa_get_once_run.
Qed.

Lemma DrugBankClient_get_within path params s :
  net_within 1 s (snd (DrugBankClient_get http drugbank_base path params s)).
Proof.
  eapply retried_run_within. unfold DrugBankClient_get.
  apply (@retry3_run _ http drugbank_attempt
                     {| req_url := rstrip_char SLASH drugbank_base ++ u "/"
                                   ++ lstrip_char SLASH path;
                        req_params := params |}
                     (drugbank_get_once http drugbank_base path params)).
  intros s0. apply drugbank_get_once_run.
Qed.

Lemma search_label_urls_within nm s :
  net_within 1 s (snd (search_label_urls http nm s)).
Proof.
  unfold search_label_urls, bind.
  pose proof (NMPAClient_get_within (NMPA_BASE ++ u "home-index.html") s) as H.
  destruct (NMPAClient_get http (NMPA_BASE ++ u "home-index.html") s)
    as [[r|e] s1]; cbn [snd] in H |- *; [|exact H].
  unfold sleep_rate. cbn [snd].
  apply (@net_within_trans 1 0 s s1 _ H (net_log_sleep_within s1)).
Qed.

Lemma fetch_label_text_within url s :
  net_within 1 s
    (snd (fetch_label_text http chardet_probe codec_decode soup_article_text
                           url s)).
Proof.
  unfold fetch_label_text, try_exceptM, bind.
  pose proof (NMPAClient_get_within url s) as H.
  destruct (NMPAClient_get http url s) as [[r|e] s1]; cbn [snd] in H |- *;
    [|exact H].
  unfold sleep_rate, lift, ret.
  destruct (ensure_utf8 chardet_probe codec_decode (content r)) as [html|e];
    [destruct (soup_article_text html)|]; cbn [snd];
    apply (@net_within_trans 1 0 s s1 _ H (net_log_sleep_within s1)).
Qed.

Lemma query_by_name_within nm s :
  net_within 2 s (snd (query_by_name http py_str drugbank_base nm s)).
Proof.
  unfold query_by_name, try_exceptM, bind.
  pose proof (DrugBankClient_get_within (u "drugs") [(u "name", nm)] s) as H.
  destruct (DrugBankClient_get http drugbank_base (u "drugs")
                               [(u "name", nm)] s) as [[j|e] s1];
    cbn [snd] in H |- *;
    [|apply (@net_within_weaken 1 2 s s1); [lia|exact H]].
  destruct (negb (truthy j)); unfold ret; cbn [snd];
    [apply (@net_within_weaken 1 2 s s1); [lia|exact H]|].
  unfold lift.
  destruct (ror (method_get match j with
                            | VList (x :: _) => x
                            | _ => j
                            end (u "id"))
                (method_get match j with
                            | VList (x :: _) => x
                            | _ => j
                            end (u "drugbank_id"))) as [drug_id|e];
    cbn [snd]; [|apply (@net_within_weaken 1 2 s s1); [lia|exact H]].
  destruct (negb (truthy drug_id)); cbn [snd];
    [apply (@net_within_weaken 1 2 s s1); [lia|exact H]|].
  pose proof (DrugBankClient_get_within
                (u "drugs/" ++ fmt py_str drug_id) [] s1) as H2.
  destruct (DrugBankClient_get http drugbank_base
              (u "drugs/" ++ fmt py_str drug_id) [] s1) as [[d|e] s2];
    cbn [snd] in H2 |- *;
    apply (@net_within_trans 1 1 s s1 s2 H H2).
Qed.
End ShippedClients.

Section ShippedResolver.
Variable http : nat -> request -> result Response.
Variable chardet_probe : list byte -> option encoding.
Variable codec_decode : ustr -> list byte -> result ustr.
Variable py_str : pyval -> ustr.
Variable soup_article_text : ustr -> result ustr.
Variable api_key : option ustr.
Variable drugbank_base : ustr.
Variable isdir : ustr -> bool.
Variable listdir : ustr -> result (list ustr).
Variable read_bytes : ustr -> result (list byte).
Variable icontains : ustr -> ustr -> bool.
Variable lower : ustr -> ustr.
Variable soup_text : ustr -> result ustr.
Variable pdfminer_text : ustr -> result ustr.
Variable pypdf2_pages : ustr -> result (list ustr).

Local Abbreviation shipped :=
  (shipped_sources http chardet_probe codec_decode py_str soup_article_text
                   api_key drugbank_base isdir listdir read_bytes icontains
                   lower soup_text pdfminer_text pypdf2_pages).

Lemma shipped_no_urls nm w : fst (src_search_label_urls shipped nm w) = [].
Proof. apply search_label_urls_nil. Qed.

(** X4. The shipped Online source is inert: whatever the network answers, the
    Online step makes the search (at most three GETs), fetches no page and
    returns the record unchanged. *)
Theorem shipped_online_step_is_inert enabled r (s : RState Net) :
  fst (online_step shipped enabled r s) = Ok r
  /\ trace (snd (online_step shipped enabled r s))
     = trace s ++ (if enabled then [CallSearch (name r) []] else [])
  /\ (tick (world (snd (online_step shipped enabled r s)))
      <= tick (world s) + 3)%nat.
Proof.
  rewrite (online_step_no_urls shipped shipped_no_urls).
  cbn [fst snd]. split; [reflexivity|].
  destruct enabled; cbn [trace world].
  - split; [reflexivity|].
    destruct (search_label_urls_within http (name r) (world s)) as [H _].
    cbn [shipped_sources src_search_label_urls]. lia.
  - rewrite app_nil_r. split; [reflexivity|lia].
Qed.

(** X5. Request budget: a batch makes at most nine GETs per name (one retried
    search, two retried DrugBank calls) and spends at most nine seconds per
    name in backoff pauses, whatever the servers answer and however the
    batch ends. *)
Theorem shipped_request_budget cfg names (s : RState Net) :
  (tick (world (snd (build_records shipped py_str cfg names s)))
   <= tick (world s) + 9 * List.length names)%nat
  /\ backoff_seconds
       (netlog (world (snd (build_records shipped py_str cfg names s))))
     <= backoff_seconds (netlog (world s))
        + 9 * N.of_nat (List.length names).
Proof.
  unfold build_records. split.
  - pose proof (@build_loop_cost Net shipped py_str shipped_no_urls
                  tick 3 6) as H.
    assert (Hs : forall nm w,
               (tick (snd (src_search_label_urls shipped nm w))
                <= tick w + 3)%nat).
    { intros nm w. destruct (search_label_urls_within http nm w) as [A _].
      cbn [shipped_sources src_search_label_urls]. lia. }
    assert (Hq : forall nm w,
               (tick (snd (src_query_by_name shipped nm w)) <= tick w + 6)%nat).
    { intros nm w.
      destruct (query_by_name_within http py_str drugbank_base nm w) as [A _].
      cbn [shipped_sources src_query_by_name]. lia. }
    specialize (H Hs Hq (fun _ _ _ => eq_refl) cfg
                  (use_drugbank cfg && src_available shipped) names s).
    lia.
  - pose proof (@build_loop_cost Net shipped py_str shipped_no_urls
                  (fun w => N.to_nat (backoff_seconds (netlog w))) 3 6) as H.
    assert (Hs : forall nm w,
      (N.to_nat (backoff_seconds
                   (netlog (snd (src_search_label_urls shipped nm w))))
       <= N.to_nat (backoff_seconds (netlog w)) + 3)%nat).
    { intros nm w. destruct (search_label_urls_within http nm w) as [_ B].
      cbn [shipped_sources src_search_label_urls]. lia. }
    assert (Hq : forall nm w,
      (N.to_nat (backoff_seconds
                   (netlog (snd (src_query_by_name shipped nm w))))
       <= N.to_nat (backoff_seconds (netlog w)) + 6)%nat).
    { intros nm w.
      destruct (query_by_name_within http py_str drugbank_base nm w) as [_ B].
      cbn [shipped_sources src_query_by_name]. lia. }
    specialize (H Hs Hq (fun _ _ _ => eq_refl) cfg
                  (use_drugbank cfg && src_available shipped) names s).
    cbv beta in H. lia.
Qed.


(** When no GET succeeds, the DrugBank client gives nothing. *)
Lemma query_by_name_down nm s :
  gets_fail http ->
  fst (query_by_name http py_str drugbank_base nm s) = VNone.
Proof.
  intros Hdown. unfold query_by_name, try_exceptM, bind.
  assert (H : exists e, fst (DrugBankClient_get http drugbank_base (u "drugs")
                                                [(u "name", nm)] s) = Raise e).
  { unfold DrugBankClient_get.
    destruct (@retry3_run _ http drugbank_attempt
                {| req_url := rstrip_char SLASH drugbank_base ++ u "/"
                              ++ lstrip_char SLASH (u "drugs");
                   req_params := [(u "name", nm)] |}
                (drugbank_get_once http drugbank_base (u "drugs")
                                   [(u "name", nm)])
                (fun s0 => drugbank_get_once_run http drugbank_base
                                                 (u "drugs")
                                                 [(u "name", nm)] s0)
                s) as (n & _ & Ef & _).
    rewrite Ef. unfold drugbank_attempt, rbind.
    specialize (Hdown (tick s + (n - 1))%nat
                  {| req_url := rstrip_char SLASH drugbank_base ++ u "/"
                                ++ lstrip_char SLASH (u "drugs");
                     req_params := [(u "name", nm)] |}).
    destruct (http (tick s + (n - 1))%nat _) as [resp|e]; [|eauto].
    apply Z.eqb_neq in Hdown. rewrite Hdown. cbn [negb]. eauto. }
  destruct H as (e & He).
  destruct (DrugBankClient_get http drugbank_base (u "drugs")
                               [(u "name", nm)] s) as [r s1].
  cbn [fst] in He. subst r. reflexivity.
Qed.

(** X6. Graceful degradation: when no GET succeeds and there is no offline
    folder to read, [build_records] still returns one record per name, each
    with the four sentinels and the terminal provenance marker. *)
Theorem all_sources_down_gives_blank_records cfg names (s : RState Net) :
  gets_fail http ->
  match nmpa_offline_dir cfg with
  | Some f => isdir f = false
  | None => True
  end ->
  fst (build_records shipped py_str cfg names s) = Ok (map blank_record names).
Proof.
  intros Hdown Hdir. unfold build_records.
  generalize (use_drugbank cfg && src_available shipped). intros use_db.
  revert s. induction names as [|nm names IH]; intros s; [reflexivity|].
  cbn [build_loop map]. unfold rthen at 1.
  assert (Hone : forall s0, exists s1,
             build_record shipped py_str cfg use_db nm s0
             = (Ok (blank_record nm), s1)).
  { intros s0. rewrite (build_record_no_urls shipped py_str shipped_no_urls).
    set (s1 := if use_nmpa_online cfg then _ else s0).
    unfold rthen at 1. rewrite drugbank_step_run.
    assert (Hq : forall w, fst (src_query_by_name shipped
                                  (name (new_record nm)) w) = VNone).
    { intros w. cbn [shipped_sources src_query_by_name].
      apply query_by_name_down. exact Hdown. }
    assert (Hoff : forall s2, exists s3,
               rthen (offline_step shipped (nmpa_offline_dir cfg)
                                   (new_record nm))
                     (fun r3 => rret (fill_defaults r3)) s2
               = (Ok (blank_record nm), s3)).
    { intros s2. unfold rthen. rewrite offline_step_run.
      cbn [any_field fields new_record indications contraindications
           interactions pregnancy_category existsb truthy orb negb].
      cbv zeta.
      assert (Hs : fst (src_scan_offline_label shipped (name (new_record nm))
                          (nmpa_offline_dir cfg) (world s2)) = Ok None).
      { cbn [shipped_sources src_scan_offline_label fst].
        unfold scan_offline_label.
        destruct (nmpa_offline_dir cfg) as [f|]; [|reflexivity].
        rewrite Hdir. rewrite orb_true_r. reflexivity. }
      rewrite Hs. cbn [rbind rret]. eexists. reflexivity. }
    destruct (use_db && negb (all_fields (new_record nm))).
    - cbv zeta. rewrite Hq. cbn [truthy]. apply Hoff.
    - apply Hoff. }
  destruct (Hone s) as (s1 & E1). rewrite E1.
  unfold rthen. specialize (IH s1).
  destruct (build_loop shipped py_str cfg use_db names s1) as [res s2].
  cbn [fst] in IH. subst res. reflexivity.
Qed.
End ShippedResolver.


Lemma all_sources_down_gives_blank_records_witness :
  gets_fail http_down
  /\ fst (build_records shipped_down no_str cfg_no_folder [DRUG; DRUG] net_start)
     = Ok (map blank_record [DRUG; DRUG]).
Proof.
  assert (H : gets_fail http_down) by (intros n req; exact I).
  split; [exact H|].
  exact (@all_sources_down_gives_blank_records http_down no_probe no_codec
           no_str (fun _ => Ok []) (Some (u "key"))
           (u "https://api.drugbank.com/v1")
           (fun _ => false) (fun _ => Raise OSError) (fun _ => Raise OSError)
           (fun _ _ => false) (fun p => p) (fun _ => Ok []) (fun _ => Ok [])
           (fun _ => Ok []) cfg_no_folder [DRUG; DRUG] net_start H I).
Defined.

(** ** The field picker *)

Lemma dict_get_absent k d : dict_mem k d = false -> dict_get k d = VNone.
Proof.
  induction d as [|[k' v] d IH]; [reflexivity|].
  cbn [dict_mem dict_get]. destruct (ustr_eqb k k'); [discriminate|].
  exact IH.
Qed.

Lemma ror_ok a b : ror (Ok a) (Ok b) = Ok (por a b).
Proof. unfold ror, por, rbind. destruct (truthy a); reflexivity. Qed.

Lemma get_nested_dict kv k : get_nested (VDict kv) k = Ok (dict_get k kv).
Proof. reflexivity. Qed.

Section PickerFacts.
Variable py_str : pyval -> ustr.

Lemma snippets_of_dicts : forall its,
  forallb is_dict its = true ->
  exists l, snippets_of py_str its = Ok l
            /\ Forall (fun s => s <> []) l.
Proof.
  induction its as [|it its IH]; intros H.
  - exists []. split; [reflexivity|constructor].
  - cbn [forallb] in H. apply andb_true_iff in H. destruct H as [Hd Hr].
    destruct (IH Hr) as (l & El & Hl).
    destruct it as [| | | | |kv]; try discriminate.
    cbn [snippets_of method_get]. rewrite !ror_ok. cbn [rbind].
    rewrite El. cbn [rbind].
    destruct (truthy (por (dict_get (u "description") kv)
                          (dict_get (u "text") kv))).
    + eexists. split; [reflexivity|]. constructor; [|exact Hl].
      intros E. apply app_eq_nil in E. destruct E as [_ E].
      apply app_eq_nil in E. destruct E as [E _].
      vm_compute in E. discriminate E.
    + exists l. split; [reflexivity|exact Hl].
Qed.

Lemma snippets_of_not_dict : forall its,
  forallb is_dict its = false ->
  snippets_of py_str its = Raise AttributeError.
Proof.
  induction its as [|it its IH]; intros H; [discriminate|].
  cbn [forallb] in H.
  destruct it as [| | | | |kv]; try reflexivity.
  cbn [is_dict andb] in H.
  cbn [snippets_of method_get]. rewrite !ror_ok. cbn [rbind].
  rewrite (IH H). reflexivity.
Qed.

Lemma join_nonempty sep l :
  l <> [] -> Forall (fun s : ustr => s <> []) l -> join sep l <> [].
Proof.
  intros Hne Hall. destruct l as [|x l]; [congruence|].
  inversion Hall as [|? ? Hx _]; subst.
  destruct l; cbn [join]; [exact Hx|].
  intros E. apply app_eq_nil in E. destruct E as [E _]. contradiction.
Qed.

(** What the interactions field is made of. *)
Lemma pick_fields_dict kv :
  pick_fields py_str (VDict kv)
  = let! snippets := snippets_of py_str (visited_interactions kv) in
    Ok [ (K_INDICATIONS, por (dict_get (u "indication") kv)
                             (dict_get (u "indications") kv));
         (K_CONTRAINDICATIONS, dict_get (u "contraindications") kv);
         (K_INTERACTIONS, match snippets with
                          | [] => VNone
                          | _ => VStr (join (u "；") snippets)
                          end);
         (K_PREGNANCY, por (dict_get (u "pregnancy_category") kv)
                           (dict_get (u "fda_pregnancy_category") kv)) ].
Proof.
  unfold pick_fields, visited_interactions.
  rewrite !get_nested_dict, !ror_ok. cbn [rbind].
  destruct (dict_get (u "drug_interactions") kv) as [| | | |l|]; try reflexivity.
  destruct l as [|x l]; [reflexivity|].
  cbn [truthy].
  destruct (snippets_of py_str (firstn 30 (x :: l))); reflexivity.
Qed.

(** X7. [pick_fields] raises on an object exactly when one of the interaction
    entries it visits is not an object; otherwise it returns the four
    picked values, the interactions being absent or a non-empty string. *)
Theorem pick_fields_raises_iff kv :
  if forallb is_dict (visited_interactions kv)
  then exists inter,
      pick_fields py_str (VDict kv)
      = Ok [ (K_INDICATIONS, por (dict_get (u "indication") kv)
                                 (dict_get (u "indications") kv));
             (K_CONTRAINDICATIONS, dict_get (u "contraindications") kv);
             (K_INTERACTIONS, inter);
             (K_PREGNANCY, por (dict_get (u "pregnancy_category") kv)
                               (dict_get (u "fda_pregnancy_category") kv)) ]
      /\ (inter = VNone \/ exists s, inter = VStr s /\ s <> [])
  else pick_fields py_str (VDict kv) = Raise AttributeError.
Proof.
  rewrite pick_fields_dict.
  destruct (forallb is_dict (visited_interactions kv)) eqn:H.
  - destruct (snippets_of_dicts _ H) as (l & El & Hl). rewrite El.
    cbn [rbind]. eexists. split; [reflexivity|].
    destruct l as [|x l]; [left; reflexivity|].
    right. eexists. split; [reflexivity|].
    apply join_nonempty; [discriminate|exact Hl].
  - rewrite (snippets_of_not_dict _ H). reflexivity.
Qed.

(** X8. Graceful absence: a detail with none of the six keys gives four
    absent values. *)
Theorem pick_fields_absent_keys kv :
  forallb (fun k => negb (dict_mem k kv)) PICKED_KEYS = true ->
  pick_fields py_str (VDict kv)
  = Ok [ (K_INDICATIONS, VNone); (K_CONTRAINDICATIONS, VNone);
         (K_INTERACTIONS, VNone); (K_PREGNANCY, VNone) ].
Proof.
  unfold PICKED_KEYS. cbn [forallb]. rewrite andb_true_r.
  intros H.
  apply andb_true_iff in H. destruct H as [H1 H].
  apply andb_true_iff in H. destruct H as [H2 H].
  apply andb_true_iff in H. destruct H as [H3 H].
  apply andb_true_iff in H. destruct H as [H4 H].
  apply andb_true_iff in H. destruct H as [H5 H6].
  apply negb_true_iff in H1, H2, H3, H4, H5, H6.
  rewrite pick_fields_dict. unfold visited_interactions.
  rewrite (dict_get_absent _ _ H1), (dict_get_absent _ _ H2),
    (dict_get_absent _ _ H3), (dict_get_absent _ _ H4),
    (dict_get_absent _ _ H5), (dict_get_absent _ _ H6).
  reflexivity.
Qed.

Lemma pick_fields_lookup kv ind inds contra intr pc fpc :
  dict_get (u "indication") kv = ind ->
  dict_get (u "indications") kv = inds ->
  dict_get (u "contraindications") kv = contra ->
  dict_get (u "drug_interactions") kv = intr ->
  dict_get (u "pregnancy_category") kv = pc ->
  dict_get (u "fda_pregnancy_category") kv = fpc ->
  pick_fields py_str (VDict kv)
  = let! snippets :=
      snippets_of py_str
        (match intr with VList l => firstn 30 l | _ => [] end) in
    Ok [ (K_INDICATIONS, por ind inds);
         (K_CONTRAINDICATIONS, contra);
         (K_INTERACTIONS, match snippets with
                          | [] => VNone
                          | _ => VStr (join (u "；") snippets)
                          end);
         (K_PREGNANCY, por pc fpc) ].
Proof. intros; subst; apply pick_fields_dict. Qed.

(** X9. The cap: only the first 30 interaction entries count; cutting the list
    there changes nothing, whatever the later entries are. *)
Theorem pick_fields_reads_first_30 l kv :
  pick_fields py_str (VDict ((u "drug_interactions", VList l) :: kv))
  = pick_fields py_str
      (VDict ((u "drug_interactions", VList (firstn 30 l)) :: kv)).
Proof.
  assert (Hk : forall k v, ustr_eqb k (u "drug_interactions") = false ->
               dict_get k ((u "drug_interactions", v) :: kv) = dict_get k kv).
  { intros k v E. cbn [dict_get]. rewrite E. reflexivity. }
  assert (Hi : forall v,
             dict_get (u "drug_interactions")
               ((u "drug_interactions", v) :: kv) = v).
  { intros v. cbn [dict_get]. rewrite ustr_eqb_refl. reflexivity. }
  assert (e1 : ustr_eqb (u "indication") (u "drug_interactions") = false)
    by (vm_compute; reflexivity).
  assert (e2 : ustr_eqb (u "indications") (u "drug_interactions") = false)
    by (vm_compute; reflexivity).
  assert (e3 : ustr_eqb (u "contraindications") (u "drug_interactions")
               = false) by (vm_compute; reflexivity).
  assert (e4 : ustr_eqb (u "pregnancy_category") (u "drug_interactions")
               = false) by (vm_compute; reflexivity).
  assert (e5 : ustr_eqb (u "fda_pregnancy_category") (u "drug_interactions")
               = false) by (vm_compute; reflexivity).
  pose proof (fun v =>
    @pick_fields_lookup ((u "drug_interactions", v) :: kv) _ _ _ _ _ _
      (Hk _ v e1) (Hk _ v e2) (Hk _ v e3) (Hi v) (Hk _ v e4) (Hk _ v e5))
    as P.
  refine (eq_trans (P (VList l)) (eq_sym (eq_trans (P (VList (firstn 30 l))) _))).
  cbv beta iota. rewrite firstn_firstn. reflexivity.
Qed.
End PickerFacts.

Lemma pick_fields_absent_keys_witness :
  pick_fields no_str detail_no_fields
  = Ok [ (K_INDICATIONS, VNone); (K_CONTRAINDICATIONS, VNone);
         (K_INTERACTIONS, VNone); (K_PREGNANCY, VNone) ].
Proof.
  apply (@pick_fields_absent_keys no_str [(u "name", VStr (u "Amlodipine"))]).
  vm_compute. reflexivity.
Defined.

(** ** The offline scanner *)

Section OfflineFacts.
Variable chardet_probe : list byte -> option encoding.
Variable codec_decode : ustr -> list byte -> result ustr.
Variable isdir : ustr -> bool.
Variable listdir : ustr -> result (list ustr).
Variable read_bytes : ustr -> result (list byte).
Variable icontains : ustr -> ustr -> bool.
Variable lower : ustr -> ustr.
Variable soup_text : ustr -> result ustr.
Variable pdfminer_text : ustr -> result ustr.
Variable pypdf2_pages : ustr -> result (list ustr).

Local Abbreviation text_of :=
  (candidate_text chardet_probe codec_decode read_bytes lower soup_text
     pdfminer_text pypdf2_pages).
Local Abbreviation first_long :=
  (first_long_text chardet_probe codec_decode read_bytes lower soup_text
     pdfminer_text pypdf2_pages).
Local Abbreviation scan :=
  (scan_offline_label chardet_probe codec_decode isdir listdir read_bytes
     icontains lower soup_text pdfminer_text pypdf2_pages).
Local Abbreviation html_text :=
  (read_html_text chardet_probe codec_decode read_bytes soup_text).

Lemma first_long_text_step p cand :
  first_long (p :: cand)
  = if (50 <? List.length (text_of p))%nat
    then Some (text_of p) else first_long cand.
Proof.
  cbn [first_long_text]. unfold candidate_text.
  destruct (is_html lower p); [reflexivity|].
  destruct (is_pdf lower p); reflexivity.
Qed.

Lemma first_long_text_some cand txt :
  first_long cand = Some txt ->
  exists p, In p cand /\ txt = text_of p /\ (50 < List.length txt)%nat.
Proof.
  induction cand as [|p cand IH]; [discriminate|].
  rewrite first_long_text_step.
  destruct (50 <? List.length (text_of p))%nat eqn:L.
  - intros E. injection E as <-. exists p.
    split; [left; reflexivity|]. split; [reflexivity|].
    apply Nat.ltb_lt. exact L.
  - intros E. destruct (IH E) as (q & Hq & R). exists q.
    split; [right; exact Hq|exact R].
Qed.

Lemma first_long_text_none cand :
  first_long cand = None
  <-> forall p, In p cand -> (List.length (text_of p) <= 50)%nat.
Proof.
  induction cand as [|p cand IH].
  - split; [intros _ q []|reflexivity].
  - rewrite first_long_text_step.
    destruct (50 <? List.length (text_of p))%nat eqn:L.
    + split; [discriminate|]. intros H.
      apply Nat.ltb_lt in L. specialize (H p (or_introl eq_refl)). lia.
    + apply Nat.ltb_ge in L. rewrite IH. split.
      * intros H q [<-|Hq]; [exact L|exact (H q Hq)].
      * intros H q Hq. apply H. right. exact Hq.
Qed.

Lemma in_insert_sorted p x l :
  In x (insert_sorted lower p l) <-> x = p \/ In x l.
Proof.
  induction l as [|q l IH]; cbn [insert_sorted].
  - cbn [In]. intuition congruence.
  - destruct (key_leb lower p q); cbn [In]; [intuition congruence|].
    rewrite IH. intuition congruence.
Qed.

Lemma in_sorted_by_key x l : In x (sorted_by_key lower l) <-> In x l.
Proof.
  unfold sorted_by_key. induction l as [|p l IH]; cbn [fold_right].
  - reflexivity.
  - rewrite in_insert_sorted, IH. cbn [In]. intuition congruence.
Qed.

(** The sort key puts every HTML path before every other path. *)
Lemma insert_sorted_html_first p hs os :
  Forall (fun q => is_html lower q = true) hs ->
  Forall (fun q => is_html lower q = false) os ->
  exists hs' os',
    insert_sorted lower p (hs ++ os) = hs' ++ os'
    /\ Forall (fun q => is_html lower q = true) hs'
    /\ Forall (fun q => is_html lower q = false) os'.
Proof.
  intros Hh Ho. destruct (is_html lower p) eqn:Hp.
  - induction Hh as [|h hs Hh1 Hh IH].
    + exists [p], os. split; [|split; [repeat constructor; exact Hp|exact Ho]].
      cbn [app]. destruct os as [|q os]; [reflexivity|].
      cbn [insert_sorted]. unfold key_leb. rewrite Hp.
      inversion Ho as [|? ? Hq _]; subst. rewrite Hq. reflexivity.
    + cbn [app insert_sorted]. destruct (key_leb lower p h).
      * exists (p :: h :: hs), os.
        split; [reflexivity|]. split; [|exact Ho].
        repeat constructor; assumption.
      * destruct IH as (hs' & os' & E & Hh' & Ho').
        exists (h :: hs'), os'. rewrite E.
        split; [reflexivity|]. split; [constructor; assumption|exact Ho'].
  - induction Hh as [|h hs Hh1 Hh IH].
    + exists [], (insert_sorted lower p os).
      split; [reflexivity|]. split; [constructor|].
      apply Forall_forall. intros x Hx. apply in_insert_sorted in Hx.
      destruct Hx as [->|Hx]; [exact Hp|].
      rewrite Forall_forall in Ho. exact (Ho x Hx).
    + cbn [app insert_sorted]. unfold key_leb at 1. rewrite Hp, Hh1.
      destruct IH as (hs' & os' & E & Hh' & Ho').
      exists (h :: hs'), os'. rewrite E.
      split; [reflexivity|]. split; [constructor; assumption|exact Ho'].
Qed.

Lemma sorted_by_key_html_first l :
  exists hs os,
    sorted_by_key lower l = hs ++ os
    /\ Forall (fun q => is_html lower q = true) hs
    /\ Forall (fun q => is_html lower q = false) os.
Proof.
  unfold sorted_by_key. induction l as [|p l IH]; cbn [fold_right].
  - exists [], []. split; [reflexivity|]. split; constructor.
  - destruct IH as (hs & os & E & Hh & Ho). rewrite E.
    apply insert_sorted_html_first; assumption.
Qed.

Lemma first_long_text_html_first hs os p :
  Forall (fun q => is_html lower q = true) hs ->
  In p hs -> (50 < List.length (text_of p))%nat ->
  exists q, In q hs /\ first_long (hs ++ os) = Some (text_of q).
Proof.
  intros Hh. induction Hh as [|h hs Hh1 Hh IH]; intros Hp L; [destruct Hp|].
  cbn [app]. rewrite first_long_text_step.
  destruct (50 <? List.length (text_of h))%nat eqn:Lh.
  - exists h. split; [left; reflexivity|reflexivity].
  - destruct Hp as [->|Hp].
    + apply Nat.ltb_ge in Lh. lia.
    + destruct (IH Hp L) as (q & Hq & E). exists q.
      split; [right; exact Hq|exact E].
Qed.

Lemma in_candidates nm f fns p :
  In p (map (path_join f) (filter (icontains nm) fns))
  <-> exists fn, In fn fns /\ icontains nm fn = true /\ p = path_join f fn.
Proof.
  rewrite in_map_iff. split.
  - intros (fn & E & Hfn). apply filter_In in Hfn. destruct Hfn as [Hin Hm].
    exists fn. split; [exact Hin|]. split; [exact Hm|]. symmetry. exact E.
  - intros (fn & Hin & Hm & E). exists fn. split; [symmetry; exact E|].
    apply filter_In. split; assumption.
Qed.

Lemma scan_offline_label_listed nm f fns :
  f <> [] -> isdir f = true -> listdir f = Ok fns ->
  scan nm (Some f)
  = Ok (first_long
          (sorted_by_key lower
             (map (path_join f) (filter (icontains nm) fns)))).
Proof.
  intros Hf Hd Hl. unfold scan_offline_label.
  destruct f as [|c f]; [congruence|].
  cbn [truthy negb orb]. rewrite Hd. cbn [negb]. rewrite Hl. reflexivity.
Qed.

Lemma scan_offline_label_inv nm folder r :
  scan nm folder = r ->
  (r = Ok None /\ (folder = None \/ folder = Some [] \/
                   exists f, folder = Some f /\ isdir f = false))
  \/ exists f, folder = Some f /\ f <> [] /\ isdir f = true
       /\ ((exists e, listdir f = Raise e /\ r = Raise e)
           \/ exists fns, listdir f = Ok fns
                /\ r = Ok (first_long
                          (sorted_by_key lower
                             (map (path_join f)
                                  (filter (icontains nm) fns))))).
Proof.
  intros <-. destruct folder as [f|]; [|left; split; [reflexivity|left; reflexivity]].
  destruct f as [|c f].
  { left. split; [reflexivity|]. right. left. reflexivity. }
  destruct (isdir (c :: f)) eqn:Hd.
  - right. exists (c :: f). split; [reflexivity|]. split; [discriminate|].
    split; [exact Hd|].
    destruct (listdir (c :: f)) as [fns|e] eqn:Hl.
    + right. exists fns. split; [reflexivity|].
      apply scan_offline_label_listed; [discriminate|exact Hd|exact Hl].
    + left. exists e. split; [reflexivity|].
      unfold scan_offline_label. cbn [truthy negb orb]. rewrite Hd.
      cbn [negb]. rewrite Hl. reflexivity.
  - left. split.
    + unfold scan_offline_label. cbn [truthy negb orb]. rewrite Hd.
      reflexivity.
    + right. right. exists (c :: f). split; [reflexivity|exact Hd].
Qed.

(** X10. A text the scanner returns is longer than 50 characters and is the
    text of a listed file whose name matches the drug name. *)
Theorem scan_offline_label_some nm folder txt :
  scan_offline_label chardet_probe codec_decode isdir listdir read_bytes
    icontains lower soup_text pdfminer_text pypdf2_pages nm folder
  = Ok (Some txt) ->
  exists f fns fn,
    folder = Some f /\ listdir f = Ok fns
    /\ In fn fns /\ icontains nm fn = true
    /\ txt = candidate_text chardet_probe codec_decode read_bytes lower
               soup_text pdfminer_text pypdf2_pages (path_join f fn)
    /\ (50 < List.length txt)%nat.
Proof.
  intros H. apply scan_offline_label_inv in H.
  destruct H as [[H _]|(f & -> & _ & _ & [(e & _ & H)|(fns & Hl & H)])];
    try discriminate.
  injection H as H. symmetry in H.
  apply first_long_text_some in H. destruct H as (p & Hp & Et & L).
  apply in_sorted_by_key, in_candidates in Hp.
  destruct Hp as (fn & Hin & Hm & ->).
  exists f, fns, fn. repeat (split; [assumption || reflexivity|]). exact L.
Qed.

(** X11. HTML first: when a matching HTML file has a text of more than 50
    characters the scanner returns the text of a matching HTML file,
    whatever PDF files the folder holds and however the files are named. *)
Theorem scan_offline_label_prefers_html nm f fns fn :
  f <> [] -> isdir f = true -> listdir f = Ok fns ->
  In fn fns -> icontains nm fn = true ->
  is_html lower (path_join f fn) = true ->
  (50 < List.length
          (read_html_text chardet_probe codec_decode read_bytes soup_text
             (path_join f fn)))%nat ->
  exists fn',
    In fn' fns /\ icontains nm fn' = true
    /\ is_html lower (path_join f fn') = true
    /\ scan_offline_label chardet_probe codec_decode isdir listdir
         read_bytes icontains lower soup_text pdfminer_text pypdf2_pages
         nm (Some f)
       = Ok (Some (read_html_text chardet_probe codec_decode read_bytes
                     soup_text (path_join f fn'))).
Proof.
  intros Hf Hd Hl Hin Hm Hh L.
  rewrite (scan_offline_label_listed nm Hf Hd Hl).
  set (cand := map (path_join f) (filter (icontains nm) fns)).
  destruct (sorted_by_key_html_first cand) as (hs & os & E & Hhs & Hos).
  assert (Hp : In (path_join f fn) hs).
  { assert (Hs : In (path_join f fn) (sorted_by_key lower cand)).
    { apply in_sorted_by_key, in_candidates. exists fn. auto. }
    rewrite E in Hs. apply in_app_or in Hs. destruct Hs as [Hs|Hs]; [exact Hs|].
    rewrite Forall_forall in Hos. rewrite (Hos _ Hs) in Hh. discriminate. }
  assert (L' : (50 < List.length (text_of (path_join f fn)))%nat).
  { unfold candidate_text. rewrite Hh. exact L. }
  destruct (@first_long_text_html_first hs os (path_join f fn) Hhs Hp L')
    as (q & Hq & R).
  assert (Hq' : In q (sorted_by_key lower cand)).
  { rewrite E. apply in_or_app. left. exact Hq. }
  apply in_sorted_by_key, in_candidates in Hq'.
  destruct Hq' as (fn' & Hin' & Hm' & ->).
  rewrite Forall_forall in Hhs. pose proof (Hhs _ Hq) as Hh'.
  exists fn'. split; [exact Hin'|]. split; [exact Hm'|]. split; [exact Hh'|].
  rewrite E, R. unfold candidate_text. rewrite Hh'. reflexivity.
Qed.

(** X12. In a folder that can be listed the scanner finds nothing exactly when
    no matching file gives more than 50 characters. *)
Theorem scan_offline_label_none_iff nm f fns :
  f <> [] -> isdir f = true -> listdir f = Ok fns ->
  (scan_offline_label chardet_probe codec_decode isdir listdir read_bytes
     icontains lower soup_text pdfminer_text pypdf2_pages nm (Some f)
   = Ok None
   <-> forall fn, In fn fns -> icontains nm fn = true ->
         (List.length
            (candidate_text chardet_probe codec_decode read_bytes lower
               soup_text pdfminer_text pypdf2_pages (path_join f fn))
          <= 50)%nat).
Proof.
  intros Hf Hd Hl. rewrite (scan_offline_label_listed nm Hf Hd Hl).
  split.
  - intros H fn Hin Hm. injection H as H.
    rewrite first_long_text_none in H. apply H.
    apply in_sorted_by_key, in_candidates. exists fn. auto.
  - intros H. f_equal. apply first_long_text_none. intros p Hp.
    apply in_sorted_by_key, in_candidates in Hp.
    destruct Hp as (fn & Hin & Hm & ->). exact (H fn Hin Hm).
Qed.

(** X13. The scanner raises exactly when the folder is a non-empty path to a
    directory whose listing raises, and then with that exception: failures
    of reading or decoding a file are absorbed. *)
Theorem scan_offline_label_raises_iff nm folder e :
  scan_offline_label chardet_probe codec_decode isdir listdir read_bytes
    icontains lower soup_text pdfminer_text pypdf2_pages nm folder
  = Raise e
  <-> exists f, folder = Some f /\ f <> [] /\ isdir f = true
                /\ listdir f = Raise e.
Proof.
  split.
  - intros H. apply scan_offline_label_inv in H.
    destruct H as [[H _]|(f & -> & Hf & Hd & [(e' & Hl & H)|(fns & _ & H)])];
      try discriminate.
    injection H as <-. exists f. auto.
  - intros (f & -> & Hf & Hd & Hl).
    destruct (@scan_offline_label_inv nm (Some f) _ eq_refl)
      as [[_ [H|[H|(f' & H & Hd')]]]|(f' & H & _ & _ & [(e' & Hl' & R)|(fns & Hl' & _)])].
    + discriminate.
    + injection H as ->. congruence.
    + injection H as <-. congruence.
    + injection H as <-. rewrite Hl in Hl'. injection Hl' as <-. exact R.
    + injection H as <-. congruence.
Qed.
End OfflineFacts.

Lemma scan_offline_label_some_witness :
  exists f fns fn,
    Some LABEL_DIR = Some f /\ Ok folder_files = Ok fns
    /\ In fn fns /\ name_prefix (u "amlodipine") fn = true
    /\ u sixty_chars
       = candidate_text no_probe no_codec
           (fun _ => Ok (list_byte_of_string sixty_chars)) (fun p => p)
           (fun html => Ok html)
           (fun _ => Ok (u "PDF text, " ++ u sixty_chars)) (fun _ => Ok [])
           (path_join f fn)
    /\ (50 < List.length (u sixty_chars))%nat.
Proof.
  apply (@scan_offline_label_some no_probe no_codec
           (fun _ => true) (fun _ => Ok folder_files)
           (fun _ => Ok (list_byte_of_string sixty_chars))
           name_prefix (fun p => p) (fun html => Ok html)
           (fun _ => Ok (u "PDF text, " ++ u sixty_chars)) (fun _ => Ok [])
           (u "amlodipine") (Some LABEL_DIR) (u sixty_chars)).
  vm_compute. reflexivity.
Defined.

Lemma scan_offline_label_prefers_html_witness :
  exists fn',
    In fn' folder_files /\ name_prefix (u "amlodipine") fn' = true
    /\ is_html (fun p => p) (path_join LABEL_DIR fn') = true
    /\ scan_folder (u "amlodipine") (Some LABEL_DIR)
       = Ok (Some (read_html_text no_probe no_codec
                     (fun _ => Ok (list_byte_of_string sixty_chars))
                     (fun html => Ok html) (path_join LABEL_DIR fn'))).
Proof.
  apply (@scan_offline_label_prefers_html no_probe no_codec
           (fun _ => true) (fun _ => Ok folder_files)
           (fun _ => Ok (list_byte_of_string sixty_chars))
           name_prefix (fun p => p) (fun html => Ok html)
           (fun _ => Ok (u "PDF text, " ++ u sixty_chars)) (fun _ => Ok [])
           (u "amlodipine") LABEL_DIR folder_files (u "amlodipine.html")).
  - vm_compute. discriminate.
  - reflexivity.
  - reflexivity.
  - vm_compute. right. left. reflexivity.
  - vm_compute. reflexivity.
  - vm_compute. reflexivity.
  - vm_compute. lia.
Defined.

Lemma scan_offline_label_none_iff_witness :
  scan_folder (u "warfarin") (Some LABEL_DIR) = Ok None
  <-> forall fn, In fn folder_files -> name_prefix (u "warfarin") fn = true ->
        (List.length
           (candidate_text no_probe no_codec
              (fun _ => Ok (list_byte_of_string sixty_chars)) (fun p => p)
              (fun html => Ok html)
              (fun _ => Ok (u "PDF text, " ++ u sixty_chars)) (fun _ => Ok [])
              (path_join LABEL_DIR fn)) <= 50)%nat.
Proof.
  apply (@scan_offline_label_none_iff no_probe no_codec
           (fun _ => true) (fun _ => Ok folder_files)
           (fun _ => Ok (list_byte_of_string sixty_chars))
           name_prefix (fun p => p) (fun html => Ok html)
           (fun _ => Ok (u "PDF text, " ++ u sixty_chars)) (fun _ => Ok [])
           (u "warfarin") LABEL_DIR folder_files).
  - vm_compute. discriminate.
  - reflexivity.
  - reflexivity.
Defined.

(** ** Reading the name list, and the entry point *)

Lemma lstrip_idem s : lstrip (lstrip s) = lstrip s.
Proof.
  induction s as [|c s IH]; [reflexivity|].
  cbn [lstrip]. destruct (isspace c) eqn:Hc; [exact IH|].
  cbn [lstrip]. rewrite Hc. reflexivity.
Qed.

Lemma forallb_lstrip s : forallb isspace (lstrip s) = forallb isspace s.
Proof.
  induction s as [|c s IH]; [reflexivity|].
  cbn [lstrip forallb]. destruct (isspace c) eqn:Hc; [exact IH|].
  cbn [forallb]. rewrite Hc. reflexivity.
Qed.

Lemma lstrip_rstrip s : lstrip (rstrip s) = rstrip (lstrip s).
Proof.
  induction s as [|c t IH]; [reflexivity|].
  rewrite rstrip_cons. cbn [lstrip].
  destruct (forallb isspace t) eqn:A; destruct (isspace c) eqn:Hc.
  - apply lstrip_nil_iff in A. rewrite A. reflexivity.
  - rewrite rstrip_cons, A, Hc. cbn [lstrip]. rewrite Hc. reflexivity.
  - cbn [lstrip]. rewrite Hc. exact IH.
  - cbn [lstrip]. rewrite Hc. rewrite rstrip_cons, A. reflexivity.
Qed.

Lemma rstrip_idem s : rstrip (rstrip s) = rstrip s.
Proof. unfold rstrip. rewrite rev_involutive, lstrip_idem. reflexivity. Qed.

Lemma strip_idem s : strip (strip s) = strip s.
Proof.
  unfold strip. rewrite lstrip_rstrip, lstrip_idem, rstrip_idem. reflexivity.
Qed.

Lemma strip_nil_iff s : strip s = [] <-> forallb isspace s = true.
Proof. unfold strip. rewrite rstrip_nil_iff, forallb_lstrip. reflexivity. Qed.

Lemma truthy_str_strip ln :
  truthy (VStr (strip ln)) = negb (forallb isspace ln).
Proof.
  destruct (forallb isspace ln) eqn:A.
  - apply strip_nil_iff in A. rewrite A. reflexivity.
  - destruct (strip ln) eqn:E; [|reflexivity].
    apply strip_nil_iff in E. congruence.
Qed.

Lemma load_names_trimmed lines :
  Forall (fun nm => nm <> [] /\ strip nm = nm) (load_names lines).
Proof.
  unfold load_names.
  apply Forall_forall. intros nm Hnm. apply in_map_iff in Hnm.
  destruct Hnm as (ln & <- & Hln). apply filter_In in Hln.
  destruct Hln as [_ Ht]. split; [|apply strip_idem].
  intros E. rewrite E in Ht. discriminate.
Qed.

Lemma load_names_nil_iff lines :
  load_names lines = []
  <-> forallb (fun ln => forallb isspace ln) lines = true.
Proof.
  unfold load_names.
  induction lines as [|ln lines IH]; [split; reflexivity|].
  cbn [filter forallb]. rewrite truthy_str_strip.
  destruct (forallb isspace ln); cbn [negb andb map]; [exact IH|].
  split; discriminate.
Qed.

(** X14. Every name [load_names] returns is non-empty and has no whitespace at
    either end, and the list is empty exactly when every line is blank. *)
Theorem load_names_clean lines :
  Forall (fun nm => nm <> [] /\ strip nm = nm) (load_names lines)
  /\ (load_names lines = []
      <-> forallb (fun ln => forallb isspace ln) lines = true).
Proof. split; [apply load_names_trimmed|apply load_names_nil_iff]. Qed.

Section Entry.
Variable W : Type.
Variable src : Sources W.
Variable py_str : pyval -> ustr.
Variable parse_args : Z + Args.
Variable expanduser : ustr -> ustr.
Variable read_lines : ustr -> result (list ustr).
Variable save_to_excel : list DrugRecord -> ustr -> result unit.

Lemma name_fill_gaps r p : name (fill_gaps r p) = name r.
Proof. reflexivity. Qed.

Lemma run_name cfg use_db nm res seg ot seg1 qd sc r :
  run_reads src py_str cfg use_db nm res seg ot seg1 qd sc ->
  res = Ok r -> name r = nm.
Proof.
  intros (E & _) Er. rewrite Er in E. clear Er.
  assert (N1 : name (after_online nm ot) = nm) by (destruct ot; reflexivity).
  destruct (after_drugbank py_str (after_online nm ot) qd) as [r2|e] eqn:E2;
    [|discriminate].
  assert (N2 : name r2 = nm).
  { unfold after_drugbank in E2. destruct qd as [d|].
    - destruct (truthy d).
      + destruct (pick_fields py_str d) as [p|]; [|discriminate].
        injection E2 as <-. exact N1.
      + injection E2 as <-. exact N1.
    - injection E2 as <-. exact N1. }
  cbn [rbind] in E.
  destruct (after_offline r2 sc) as [r3|e] eqn:E3; [|discriminate].
  assert (N3 : name r3 = nm).
  { unfold after_offline in E3. destruct sc as [t|].
    - destruct t as [o|]; [|discriminate]. injection E3 as <-.
      destruct o as [[|c x]|]; exact N2.
    - injection E3 as <-. exact N2. }
  cbn [rbind] in E. injection E as ->. exact N3.
Qed.

(** One record per name and in the order of the names, whenever the batch
    returns. *)
Lemma build_loop_names cfg use_db : forall names (s : RState W) recs,
  fst (build_loop src py_str cfg use_db names s) = Ok recs ->
  map name recs = names.
Proof.
  induction names as [|nm names IH]; intros s recs.
  - cbn. intros E. injection E as <-. reflexivity.
  - destruct (build_record_run src py_str cfg use_db nm s)
      as (ot & seg1 & qd & sc & seg & _ & Hrun).
    remember (build_loop src py_str cfg use_db (nm :: names) s) as out eqn:B.
    cbn [build_loop] in B. unfold rthen in B.
    destruct (build_record src py_str cfg use_db nm s) as [res s1].
    cbn [fst] in Hrun.
    destruct res as [r|e]; [|subst out; discriminate].
    pose proof (run_name Hrun eq_refl) as Nr.
    specialize (IH s1).
    destruct (build_loop src py_str cfg use_db names s1) as [rs s2].
    destruct rs as [rs|e]; [|subst out; discriminate].
    subst out. cbn. intros E. injection E as <-.
    cbn [map]. rewrite Nr, (IH rs eq_refl). reflexivity.
Qed.

(** X15. [main] ends with [SystemExit] exactly when argparse ends the
    process or the file of names is read and has no name, and then before
    any source is consulted.  When the file has a name, [build_records]
    runs on the names loaded, with the two flags negated, and [main] ends
    with what [build_records] and then [save_to_excel] give. *)
Theorem main_exits_iff_no_names (s : RState W) :
  ((exists code,
       fst (main src py_str parse_args expanduser read_lines save_to_excel s)
       = SystemExit code)
   <-> (exists status, parse_args = inl status)
       \/ (exists args lines,
              parse_args = inr args
              /\ read_lines (expanduser (in_file args)) = Ok lines
              /\ forallb (fun ln => forallb isspace ln) lines = true))
  /\ ((exists code,
          fst (main src py_str parse_args expanduser read_lines
                    save_to_excel s) = SystemExit code) ->
      snd (main src py_str parse_args expanduser read_lines save_to_excel s)
      = s)
  /\ (forall args lines,
         parse_args = inr args ->
         read_lines (expanduser (in_file args)) = Ok lines ->
         forallb (fun ln => forallb isspace ln) lines = false ->
         exists cfg,
           use_nmpa_online cfg = negb (no_nmpa_online args)
           /\ use_drugbank cfg = negb (no_drugbank args)
           /\ snd (main src py_str parse_args expanduser read_lines
                        save_to_excel s)
              = snd (build_records src py_str cfg (load_names lines) s)
           /\ fst (main src py_str parse_args expanduser read_lines
                        save_to_excel s)
              = match fst (build_records src py_str cfg (load_names lines)
                                         s) with
                | Ok records =>
                  match save_to_excel records (expanduser (out_file args))
                  with
                  | Ok _ => Saved records
                  | Raise e => Failed e
                  end
                | Raise e => Failed e
                end).
Proof.
  unfold main. destruct parse_args as [status|args].
  { split; [|split].
    - split; intros _.
      + left. exists status. reflexivity.
      + exists (VInt status). reflexivity.
    - reflexivity.
    - intros args lines E. discriminate. }
  destruct (read_lines (expanduser (in_file args))) as [lines|e] eqn:R.
  2:{ split; [|split].
      - split.
        + intros (code & E). discriminate.
        + intros [(status & E)|(a & l & Ea & E & _)]; [discriminate|].
          injection Ea as <-. rewrite R in E. discriminate.
      - intros (code & E). discriminate.
      - intros a l Ea E. injection Ea as <-. rewrite R in E.
        discriminate. }
  pose proof (load_names_nil_iff lines) as H.
  destruct (load_names lines) as [|nm names] eqn:En.
  - pose proof (proj1 H eq_refl) as Hb.
    split; [|split].
    + split; intros _.
      * right. exists args, lines.
        split; [reflexivity|]. split; [exact R|exact Hb].
      * eexists. reflexivity.
    + reflexivity.
    + intros a l Ea E Hf. injection Ea as <-. rewrite R in E.
      injection E as <-. congruence.
  - assert (Hb : forallb (fun ln => forallb isspace ln) lines = false).
    { destruct (forallb (fun ln => forallb isspace ln) lines);
        [|reflexivity].
      pose proof (proj2 H eq_refl). discriminate. }
    set (cfg := {| use_nmpa_online := negb (no_nmpa_online args);
                   nmpa_offline_dir :=
                     if truthy (of_opt (arg_nmpa_offline_dir args))
                     then option_map expanduser (arg_nmpa_offline_dir args)
                     else None;
                   use_drugbank := negb (no_drugbank args) |}).
    assert (Hno : forall code,
               fst (let (r, s') := build_records src py_str cfg
                                                 (nm :: names) s in
                    match r with
                    | Ok records =>
                      match save_to_excel records
                              (expanduser (out_file args)) with
                      | Ok _ => (Saved records, s')
                      | Raise e => (Failed e, s')
                      end
                    | Raise e => (Failed e, s')
                    end) <> SystemExit code).
    { intros code.
      destruct (build_records src py_str cfg (nm :: names) s)
        as [[recs|e] s'];
        [destruct (save_to_excel recs _)|]; discriminate. }
    split; [|split].
    + split.
      * intros (code & E). exfalso. exact (Hno code E).
      * intros [(status & E)|(a & l & Ea & El & Hl)]; [discriminate|].
        injection Ea as <-. rewrite R in El. injection El as <-.
        congruence.
    + intros (code & E). exfalso. exact (Hno code E).
    + intros a l Ea El _. injection Ea as <-. rewrite R in El.
      injection El as <-. rewrite En.
      exists cfg. split; [reflexivity|]. split; [reflexivity|].
      destruct (build_records src py_str cfg (nm :: names) s)
        as [[recs|e] s'];
        cbn [fst snd]; [|split; reflexivity].
      destruct (save_to_excel recs (expanduser (out_file args)));
        split; reflexivity.
Qed.

(** X16. What [main] saves: one record per name of the file it read, in
    order, each under a name that is non-empty and trimmed. *)
Theorem main_saves_one_record_per_name (s : RState W) records :
  fst (main src py_str parse_args expanduser read_lines save_to_excel s)
  = Saved records ->
  exists args lines,
    parse_args = inr args
    /\ read_lines (expanduser (in_file args)) = Ok lines
    /\ map name records = load_names lines
    /\ records <> []
    /\ Forall (fun r => name r <> [] /\ strip (name r) = name r) records.
Proof.
  unfold main. destruct parse_args as [status|args]; [discriminate|].
  destruct (read_lines (expanduser (in_file args))) as [lines|e] eqn:R;
    [|discriminate].
  pose proof (load_names_trimmed lines) as Hc.
  destruct (load_names lines) as [|nm names] eqn:E; [discriminate|].
  unfold build_records.
  match goal with
  | |- context [build_loop src py_str ?c ?d (nm :: names) s] =>
    pose proof (@build_loop_names c d (nm :: names) s) as Hn;
    destruct (build_loop src py_str c d (nm :: names) s) as [[recs|e] s']
  end; [|discriminate].
  specialize (Hn recs eq_refl).
  destruct (save_to_excel recs _); [|discriminate].
  cbn [fst]. intros Es. injection Es as <-.
  exists args, lines. split; [reflexivity|]. split; [exact R|].
  split; [rewrite E; exact Hn|]. split.
  - intros ->. discriminate.
  - rewrite <- Hn in Hc. apply Forall_forall. intros r Hr.
    rewrite Forall_forall in Hc. apply Hc. apply in_map. exact Hr.
Qed.
End Entry.

Lemma main_saves_one_record_per_name_witness :
  let records :=
    saved_records
      (fst (main (sources_page_and detail_full) no_str (inr args_in_out)
                 (fun p => p) read_names_file save_ok start_state)) in
  exists args lines,
    @inr Z Args args_in_out = inr args
    /\ read_names_file (in_file args) = Ok lines
    /\ map name records = load_names lines
    /\ records <> []
    /\ Forall (fun r => name r <> [] /\ strip (name r) = name r) records.
Proof.
  apply (@main_saves_one_record_per_name unit (sources_page_and detail_full)
           no_str (inr args_in_out) (fun p => p) read_names_file save_ok
           start_state).
  vm_compute. reflexivity.
Defined.

(** ** What the section slicer and the parser return *)

Lemma words_nonempty : forall s w, In w (words s) -> w <> [].
Proof.
  induction s as [|x s IH]; intros w Hw; simpl in Hw; [contradiction|].
  destruct (isspace x) eqn:Hx; [eauto|].
  destruct s as [|d s'].
  - destruct Hw as [<-|[]]. discriminate.
  - destruct (isspace d) eqn:Hd.
    + destruct Hw as [<-|Hw]; [discriminate|eauto].
    + destruct (words (d :: s')) as [|w0 ws] eqn:Ew.
      * destruct Hw as [<-|[]]. discriminate.
      * destruct Hw as [<-|Hw]; [discriminate|].
        apply IH. simpl. auto.
Qed.

Lemma sub_runs_nonspace_app w rest :
  Forall (fun c => isspace c = false) w ->
  sub_runs isspace SPACE false (w ++ rest)
  = w ++ sub_runs isspace SPACE false rest.
Proof.
  induction 1 as [|c w Hc _ IH]; [reflexivity|].
  cbn [app sub_runs]. rewrite Hc, IH. reflexivity.
Qed.

Lemma sub_runs_join_words : forall ws,
  (forall w, In w ws -> w <> [] /\ Forall (fun c => isspace c = false) w) ->
  forall b, sub_runs isspace SPACE b (join [SPACE] ws) = join [SPACE] ws.
Proof.
  induction ws as [|w ws IH]; intros Hws b; [reflexivity|].
  destruct (Hws w (or_introl eq_refl)) as [Hne Hw].
  destruct w as [|c w]; [congruence|]. inversion Hw as [|? ? Hc Hw']; subst.
  assert (IH' : forall b, sub_runs isspace SPACE b (join [SPACE] ws)
                          = join [SPACE] ws).
  { apply IH. intros w0 Hw0. apply Hws. right. exact Hw0. }
  destruct ws as [|w2 ws].
  - cbn [join sub_runs]. rewrite Hc.
    rewrite <- (app_nil_r w) at 1. rewrite (sub_runs_nonspace_app [] Hw').
    cbn [sub_runs]. rewrite app_nil_r. reflexivity.
  - change (join [SPACE] ((c :: w) :: w2 :: ws))
      with (c :: w ++ SPACE :: join [SPACE] (w2 :: ws)).
    cbn [sub_runs]. rewrite Hc. rewrite (sub_runs_nonspace_app _ Hw').
    cbn [sub_runs].
    replace (isspace SPACE) with true by (vm_compute; reflexivity).
    rewrite IH'. reflexivity.
Qed.

Lemma sub_ws_collapsed s : sub_ws (collapsed s) = collapsed s.
Proof.
  unfold sub_ws, collapsed. apply sub_runs_join_words.
  intros w Hw. split; [exact (@words_nonempty s w Hw)|].
  apply Forall_forall. intros c Hc. exact (@words_no_space s w c Hw Hc).
Qed.

Lemma strip_collapsed s : strip (collapsed s) = collapsed s.
Proof. rewrite <- strip_sub_ws_collapsed. apply strip_idem. Qed.

Lemma slice_section_fixed text pat t :
  slice_section text pat = Some t -> strip t = t /\ sub_ws t = t.
Proof.
  rewrite slice_section_unfold.
  destruct (re_search pat text) as [[pre tail]|]; [|discriminate].
  destruct (collapsed (body_of tail)) as [|c b] eqn:E; [discriminate|].
  cbn [nonempty]. intros H. injection H as <-. rewrite <- E.
  split; [apply strip_collapsed|apply sub_ws_collapsed].
Qed.

(** X17. A section [slice_section] returns is clean: not empty, without
    whitespace at either end, each run of whitespace a single space. *)
Theorem slice_section_clean text pat t :
  slice_section text pat = Some t ->
  t <> [] /\ strip t = t /\ sub_ws t = t.
Proof.
  intros H. split; [exact (@slice_section_nonempty _ _ _ H)|].
  exact (@slice_section_fixed _ _ _ H).
Qed.

Lemma slice_section_clean_witness :
  u "A B C" <> [] /\ strip (u "A B C") = u "A B C"
  /\ sub_ws (u "A B C") = u "A B C".
Proof.
  apply (@slice_section_clean
           (u "...【适应症】  A B" ++ [NEWLINE] ++ u " C 【禁忌】D...")
           PAT_INDICATIONS (u "A B C")).
  vm_compute. reflexivity.
Defined.

Lemma sub_runs_idem : forall s,
  (forall b, sub_runs isspace SPACE false (sub_runs isspace SPACE b s)
             = sub_runs isspace SPACE b s)
  /\ sub_runs isspace SPACE true (sub_runs isspace SPACE true s)
     = sub_runs isspace SPACE true s.
Proof.
  assert (Hsp : isspace SPACE = true) by (vm_compute; reflexivity).
  induction s as [|c s [IH1 IH2]]; [split; reflexivity|].
  split.
  - intros b. cbn [sub_runs]. destruct (isspace c) eqn:Hc.
    + destruct b; [apply IH1|].
      cbn [sub_runs]. rewrite Hsp, IH2. reflexivity.
    + cbn [sub_runs]. rewrite Hc, IH1. reflexivity.
  - cbn [sub_runs]. destruct (isspace c) eqn:Hc; [exact IH2|].
    cbn [sub_runs]. rewrite Hc, IH1. reflexivity.
Qed.

Lemma sub_ws_idem s : sub_ws (sub_ws s) = sub_ws s.
Proof. unfold sub_ws. apply (proj1 (sub_runs_idem s)). Qed.

(** X18. Parsing reads a text through its whitespace-collapsed form only:
    collapsing beforehand changes no field. *)
Theorem parse_cn_label_text_collapsed full_text :
  parse_cn_label_text (sub_ws full_text) = parse_cn_label_text full_text.
Proof. rewrite !parse_cn_label_text_dict. cbv zeta. rewrite sub_ws_idem. reflexivity. Qed.

(** X19. The values of a parsed label: each of the three section fields is
    absent or a clean string, and the pregnancy field is always one of three
    labels. *)
Theorem parse_cn_label_text_values full_text :
  (forall f, f <> Pregnancy ->
     dict_get (key_of f) (parse_cn_label_text full_text) = VNone
     \/ exists s, dict_get (key_of f) (parse_cn_label_text full_text) = VStr s
                  /\ s <> [] /\ strip s = s /\ sub_ws s = s)
  /\ (let label := dict_get K_PREGNANCY (parse_cn_label_text full_text) in
      label = VStr PREG_PROHIBITED \/ label = VStr PREG_CAUTION
      \/ label = VStr UNANNOTATED).
Proof.
  split.
  - intros f Hf. rewrite parse_field.
    destruct f; [| | |congruence].
    + destruct (slice_section _ PAT_INDICATIONS) as [s|] eqn:E;
        [|left; reflexivity].
      right. exists s. split; [reflexivity|].
      split; [exact (@slice_section_nonempty _ _ _ E)|].
      exact (@slice_section_fixed _ _ _ E).
    + destruct (slice_section _ PAT_CONTRAINDICATIONS) as [s|] eqn:E;
        [|left; reflexivity].
      right. exists s. split; [reflexivity|].
      split; [exact (@slice_section_nonempty _ _ _ E)|].
      exact (@slice_section_fixed _ _ _ E).
    + destruct (slice_section _ PAT_INTERACTIONS) as [s|] eqn:E;
        [|left; reflexivity].
      right. exists s. split; [reflexivity|].
      split; [exact (@slice_section_nonempty _ _ _ E)|].
      exact (@slice_section_fixed _ _ _ E).
  - cbv zeta. rewrite parse_pregnancy. unfold classify_pregnancy.
    destruct (truthy (of_opt _)); [|right; right; reflexivity].
    destruct (slice_section _ PAT_PREGNANCY) as [t|];
      [|right; right; reflexivity].
    destruct (is_match PROHIBIT_RE t); [left; reflexivity|].
    destruct (is_match CAUTION_RE t);
      [right; left; reflexivity|right; right; reflexivity].
Qed.

(** ** The text of a page *)

Lemma sub_nl_head : forall s c r,
  sub_runs (N.eqb NEWLINE) NEWLINE true s = c :: r -> c <> NEWLINE.
Proof.
  induction s as [|x s IH]; intros c r; cbn [sub_runs]; [discriminate|].
  destruct (NEWLINE =? x) eqn:Hx; [apply IH|].
  intros E. injection E as <- _. intros ->.
  rewrite N.eqb_refl in Hx. discriminate.
Qed.

Lemma sub_nl_no_blank_line : forall s inrun a r,
  sub_runs (N.eqb NEWLINE) NEWLINE inrun s <> a ++ NEWLINE :: NEWLINE :: r.
Proof.
  induction s as [|x s IH]; intros inrun a r; cbn [sub_runs].
  - destruct a; discriminate.
  - destruct (NEWLINE =? x) eqn:Hx.
    + destruct inrun; [apply IH|].
      destruct a as [|c a]; cbn [app]; intros E.
      * injection E as E. apply sub_nl_head in E. congruence.
      * injection E as _ E. exact (IH _ _ _ E).
    + destruct a as [|c a]; cbn [app]; intros E.
      * injection E as -> _. rewrite N.eqb_refl in Hx. discriminate.
      * injection E as _ E. exact (IH _ _ _ E).
Qed.

Lemma lstrip_suffix s : exists a, s = a ++ lstrip s.
Proof.
  induction s as [|c s [a IH]]; [exists []; reflexivity|].
  cbn [lstrip]. destruct (isspace c).
  - exists (c :: a). cbn [app]. rewrite <- IH. reflexivity.
  - exists []. reflexivity.
Qed.

Lemma strip_infix s : exists a b, s = a ++ strip s ++ b.
Proof.
  unfold strip, rstrip.
  destruct (lstrip_suffix s) as [a Ha].
  destruct (lstrip_suffix (rev (lstrip s))) as [b Hb].
  exists a, (rev b). rewrite <- rev_app_distr, <- Hb, rev_involutive.
  exact Ha.
Qed.

Lemma strip_sub_nl_clean x :
  strip (strip (sub_nl x)) = strip (sub_nl x)
  /\ forall a b, strip (sub_nl x) <> a ++ NEWLINE :: NEWLINE :: b.
Proof.
  split; [apply strip_idem|]. intros a b E.
  destruct (strip_infix (sub_nl x)) as (p & q & H).
  rewrite E in H. unfold sub_nl in H.
  apply (@sub_nl_no_blank_line x false (p ++ a) (b ++ q)).
  rewrite H, <- !app_assoc. reflexivity.
Qed.

(** X20. The text [read_html_text] returns, empty on any failure, has no
    whitespace at either end and no two newlines in a row. *)
Theorem read_html_text_clean chardet_probe codec_decode read_bytes soup_text p :
  let t := read_html_text chardet_probe codec_decode read_bytes soup_text p in
  strip t = t /\ forall a b, t <> a ++ NEWLINE :: NEWLINE :: b.
Proof.
  cbv zeta. unfold read_html_text, try_except.
  assert (Hnil : strip [] = [] /\
                 forall a b : ustr, [] <> a ++ NEWLINE :: NEWLINE :: b).
  { split; [reflexivity|]. intros [|c a] b; discriminate. }
  destruct (read_bytes p) as [raw|]; cbn [rbind]; [|exact Hnil].
  destruct (ensure_utf8 chardet_probe codec_decode raw) as [html|];
    cbn [rbind]; [|exact Hnil].
  destruct (soup_text html) as [text|]; cbn [rbind]; [|exact Hnil].
  apply strip_sub_nl_clean.
Qed.

(** X21. A text [fetch_label_text] returns has no whitespace at either end
    and no two newlines in a row. *)
Theorem fetch_label_text_clean
    http chardet_probe codec_decode soup_article_text url s t :
  fst (fetch_label_text http chardet_probe codec_decode soup_article_text
                        url s) = Some t ->
  strip t = t /\ forall a b, t <> a ++ NEWLINE :: NEWLINE :: b.
Proof.
  unfold fetch_label_text, try_exceptM, bind.
  destruct (NMPAClient_get http url s) as [[r|e] s1]; [|discriminate].
  unfold sleep_rate, lift, ret.
  destruct (ensure_utf8 chardet_probe codec_decode (content r)) as [html|e];
    [|discriminate].
  destruct (soup_article_text html) as [text|e]; [|discriminate].
  cbn [fst]. intros E. injection E as <-. apply strip_sub_nl_clean.
Qed.

Lemma fetch_label_text_clean_witness :
  let t := u "Indications" ++ [NEWLINE] ++ u "Hypertension" in
  strip t = t /\ forall a b, t <> a ++ NEWLINE :: NEWLINE :: b.
Proof.
  apply (@fetch_label_text_clean http_page no_probe no_codec
           (fun _ => Ok page_text) PAGE_URL net0).
  vm_compute. reflexivity.
Defined.

(** ** Batches *)

Section Batches.
Variable W : Type.
Variable src : Sources W.
Variable py_str : pyval -> ustr.

(** X22. A batch is its parts run one after the other: the records of
    [names1 ++ names2] are those of [names1] followed by those of [names2]
    resolved from the state the first part left, and a failure in either
    part is the failure of the whole. *)
Theorem build_records_app cfg names1 names2 (s : RState W) :
  build_records src py_str cfg (names1 ++ names2) s
  = rthen (build_records src py_str cfg names1) (fun recs1 =>
    rthen (build_records src py_str cfg names2) (fun recs2 =>
    rret (recs1 ++ recs2))) s.
Proof.
  unfold build_records.
  generalize (use_drugbank cfg && src_available src). intros use_db.
  revert s. induction names1 as [|nm names1 IH]; intros s.
  - cbn [app build_loop]. unfold rthen, rret.
    destruct (build_loop src py_str cfg use_db names2 s) as [[recs|e] s'];
      reflexivity.
  - cbn [app build_loop]. unfold rthen, rret in IH |- *.
    destruct (build_record src py_str cfg use_db nm s) as [[r|e] s1];
      [|reflexivity].
    rewrite IH.
    destruct (build_loop src py_str cfg use_db names1 s1) as [[recs1|e] s2];
      [|reflexivity].
    destruct (build_loop src py_str cfg use_db names2 s2) as [[recs2|e] s3];
      reflexivity.
Qed.

Hypothesis Hscan0 : forall nm folder w,
  snd (src_scan_offline_label src nm folder w) = w.

Lemma build_loop_offline_only cfg :
  use_nmpa_online cfg = false ->
  forall names (s : RState W),
    world (snd (build_loop src py_str cfg false names s)) = world s.
Proof.
  intros Hoff. induction names as [|nm names IH]; intros s; [reflexivity|].
  cbn [build_loop]. unfold rthen at 1.
  assert (H1 : world (snd (build_record src py_str cfg false nm s))
               = world s).
  { unfold build_record. rewrite Hoff. unfold rthen at 1.
    cbn [online_step rret]. unfold rthen at 1. rewrite drugbank_step_run.
    cbn [andb]. apply (@offline_tail_cost W src Hscan0). }
  destruct (build_record src py_str cfg false nm s) as [[r|e] s1];
    cbn [snd] in H1 |- *; [|exact H1].
  unfold rthen. specialize (IH s1).
  destruct (build_loop src py_str cfg false names s1) as [[rs|e] s2];
    cbn [snd rret] in IH |- *; congruence.
Qed.
End Batches.

Section ShippedOffline.
Variable http : nat -> request -> result Response.
Variable chardet_probe : list byte -> option encoding.
Variable codec_decode : ustr -> list byte -> result ustr.
Variable py_str : pyval -> ustr.
Variable soup_article_text : ustr -> result ustr.
Variable api_key : option ustr.
Variable drugbank_base : ustr.
Variable isdir : ustr -> bool.
Variable listdir : ustr -> result (list ustr).
Variable read_bytes : ustr -> result (list byte).
Variable icontains : ustr -> ustr -> bool.
Variable lower : ustr -> ustr.
Variable soup_text : ustr -> result ustr.
Variable pdfminer_text : ustr -> result ustr.
Variable pypdf2_pages : ustr -> result (list ustr).

(** X23. Working offline: with the online search disabled, and DrugBank
    disabled or without a key, a batch makes no request and no pause,
    whatever the label folder holds and however the batch ends. *)
Theorem offline_run_makes_no_request cfg names (s : RState Net) :
  use_nmpa_online cfg = false ->
  use_drugbank cfg && available api_key = false ->
  world (snd (build_records
                (shipped_sources http chardet_probe codec_decode py_str
                   soup_article_text api_key drugbank_base isdir listdir
                   read_bytes icontains lower soup_text pdfminer_text
                   pypdf2_pages)
                py_str cfg names s))
  = world s.
Proof.
  intros Hon Hdb. unfold build_records.
  cbn [shipped_sources src_available]. rewrite Hdb.
  apply build_loop_offline_only; [|exact Hon].
  intros nm folder w. reflexivity.
Qed.

Lemma rstrip_char_snoc c s : rstrip_char c (s ++ [c]) = rstrip_char c s.
Proof.
  unfold rstrip_char. rewrite rev_app_distr. cbn [rev app lstrip_char].
  rewrite N.eqb_refl. reflexivity.
Qed.

(** X24. A trailing slash on [DRUGBANK_BASE] changes nothing: the same requests
    are made and the same detail comes back. *)
Theorem query_by_name_trailing_slash nm (s : Net) :
  query_by_name http py_str (drugbank_base ++ [SLASH]) nm s
  = query_by_name http py_str drugbank_base nm s.
Proof.
  unfold query_by_name, DrugBankClient_get, drugbank_get_once.
  rewrite rstrip_char_snoc. reflexivity.
Qed.
End ShippedOffline.

Lemma offline_run_makes_no_request_witness :
  world (snd (build_records shipped_no_key no_str cfg_offline_only
                            [DRUG; DRUG] net_start))
  = world net_start.
Proof.
  apply (@offline_run_makes_no_request http_down no_probe no_codec no_str
           (fun _ => Ok []) None (u "https://api.drugbank.com/v1")
           (fun _ => true) (fun _ => Raise OSError) (fun _ => Raise OSError)
           (fun _ _ => false) (fun p => p) (fun _ => Ok []) (fun _ => Ok [])
           (fun _ => Ok []) cfg_offline_only [DRUG; DRUG] net_start).
  - reflexivity.
  - reflexivity.
Defined.
